(** * Uni-V3 liquidity backtester: position lifecycle and fee accrual

    A shallow embedding of [block_search.py], [fee_calculator.py],
    [liquidity_manager.py], [position_recorder.py], the driver loop of
    [main.py] and the token lookup of [data_fetcher.py], followed by the
    properties of the specification that were checked against it and by
    further properties read off the code.

    Python [float] arithmetic is kept behind the interface [PyFloat]: the
    code is written once over that interface and read at two instances,
    IEEE binary64 (Rocq's primitive floats, on which the definitions
    evaluate to the doubles Python computes) and the real numbers (the
    rounding-free reading under which the algebraic properties are
    proved).  Python [int] is [Z].  Every operand is taken to be a Python
    number: a division by zero raises, as it does for [int] and [float]
    ([numpy.float64] operands would return [inf] or [nan] instead). *)

From Stdlib Require Import Floats.
From Stdlib Require Import ZArith Reals Lra Lia Psatz String List Bool.
Import ListNotations.

Set Implicit Arguments.

(** ** Exceptions and fallible results *)

Inductive exn : Type :=
| ValueError (msg : string)
| ZeroDivisionError (msg : string)
| OverflowError (msg : string)
| TypeError (msg : string)
| KeyError (msg : string)
| EnvironmentError (msg : string)
| ConnectionError (msg : string).

Inductive result (A : Type) : Type :=
| Ok (a : A)
| Raise (e : exn).

Arguments Ok {A} a.
Arguments Raise {A} e.

Definition bind {A B : Type} (r : result A) (k : A -> result B) : result B :=
  match r with
  | Ok a => k a
  | Raise e => Raise e
  end.

Declare Scope result_scope.
Delimit Scope result_scope with result.
Notation "x <- e ;; k" := (bind e (fun x => k))
  (at level 61, e at next level, right associativity) : result_scope.

(** ** The arithmetic interface of Python floats *)

Class PyFloat (F : Type) : Type := {
  of_Z : Z -> F;
  fadd : F -> F -> F;
  fsub : F -> F -> F;
  fmul : F -> F -> F;
  fdiv : F -> F -> F;
  fsqrt : F -> F;
  fabs : F -> F;
  fltb : F -> F -> bool;
  fleb : F -> F -> bool;
  feqb : F -> F -> bool;
  to_int : F -> result Z
}.

(** [math.log] and [math.floor], which only the tick conversion of
    [fee_calculator.py] uses.  The primitive floats have no logarithm, so
    this interface is read at the real numbers only. *)
Class PyLog (F : Type) : Type := {
  flog : F -> F;
  ffloor : F -> result Z
}.

Declare Scope py_scope.
Delimit Scope py_scope with py.
Notation "x + y" := (fadd x y) : py_scope.
Notation "x - y" := (fsub x y) : py_scope.
Notation "x * y" := (fmul x y) : py_scope.
Notation "x <? y" := (fltb x y) : py_scope.
Notation "x <=? y" := (fleb x y) : py_scope.
Notation "x >? y" := (fltb y x) : py_scope.
Notation "x >=? y" := (fleb y x) : py_scope.
Notation "x =? y" := (feqb x y) : py_scope.

Section PythonArithmetic.
Context {F : Type} `{PyFloat F}.
Local Open Scope py_scope.

(** [a / b] on Python floats: raises on a zero divisor. *)
Definition py_truediv (a b : F) : result F :=
  if b =? of_Z 0 then Raise (ZeroDivisionError "float division by zero")
  else Ok (fdiv a b).

(** [math.sqrt]: raises on a negative argument. *)
Definition math_sqrt (x : F) : result F :=
  if x <? of_Z 0 then Raise (ValueError "math domain error")
  else Ok (fsqrt x).

(** [math.log]: raises outside the positive numbers. *)
Definition math_log `{PyLog F} (x : F) : result F :=
  if x <=? of_Z 0 then Raise (ValueError "math domain error")
  else Ok (flog x).

(** [10 ** k] for an integer [k]: an integer when [k >= 0], a float
    otherwise. *)
Definition pow10 (k : Z) : F :=
  if (0 <=? k)%Z then of_Z (10 ^ k) else fdiv (of_Z 1) (of_Z (10 ^ (- k))).

(** The builtins [min(a, b)] and [max(a, b)]: the first argument wins
    unless the second compares strictly below (above) it. *)
Definition py_min (a b : F) : F := if b <? a then b else a.
Definition py_max (a b : F) : F := if b >? a then b else a.
End PythonArithmetic.

Notation "x / y" := (py_truediv x y) : py_scope.

(** *** IEEE binary64 *)

(** [float(n)] for an integer [n], rounded to nearest even; an integer
    beyond the range of a double, which Python refuses, becomes an
    infinity here. *)
Definition float_of_Z (z : Z) : float :=
  match z with
  | Z0 => PrimFloat.zero
  | _ =>
      FloatOps.SF2Prim
        (SpecFloat.binary_normalize FloatOps.prec FloatOps.emax z 0 false)
  end.

(** [int(x)]: truncation toward zero. *)
Definition float_to_int (x : float) : result Z :=
  match FloatOps.Prim2SF x with
  | S754_zero _ => Ok 0%Z
  | S754_infinity _ => Raise (OverflowError "cannot convert float infinity to integer")
  | S754_nan => Raise (ValueError "cannot convert float NaN to integer")
  | S754_finite s m e =>
      let v := if (0 <=? e)%Z then (Zpos m * 2 ^ e)%Z
               else Z.quot (Zpos m) (2 ^ (- e)) in
      Ok (if s then (- v)%Z else v)
  end.

#[export] Instance float_PyFloat : PyFloat float := {|
  of_Z := float_of_Z;
  fadd := PrimFloat.add;
  fsub := PrimFloat.sub;
  fmul := PrimFloat.mul;
  fdiv := PrimFloat.div;
  fsqrt := PrimFloat.sqrt;
  fabs := PrimFloat.abs;
  fltb := PrimFloat.ltb;
  fleb := PrimFloat.leb;
  feqb := PrimFloat.eqb;
  to_int := float_to_int
|}.

(** *** Real numbers *)

Definition Rltb (x y : R) : bool := if Rlt_dec x y then true else false.
Definition Rleb (x y : R) : bool := if Rle_dec x y then true else false.
Definition Reqb (x y : R) : bool := if Req_dec_T x y then true else false.

Definition R_to_int (x : R) : result Z :=
  Ok (if Rle_dec 0 x then Int_part x else (- Int_part (- x))%Z).

#[export] Instance R_PyLog : PyLog R := {|
  flog := ln;
  ffloor := fun x => Ok (Int_part x)
|}.

#[export] Instance R_PyFloat : PyFloat R := {|
  of_Z := IZR;
  fadd := Rplus;
  fsub := Rminus;
  fmul := Rmult;
  fdiv := Rdiv;
  fsqrt := R_sqrt.sqrt;
  fabs := Rabs;
  fltb := Rltb;
  fleb := Rleb;
  feqb := Reqb;
  to_int := R_to_int
|}.

(** ** Wall-clock time

    A [datetime] is the number of seconds its calendar reading lies after
    1970-01-01T00:00:00, together with its [tzinfo]: [None] for a naive
    value, [Some off] for an aware one [off] seconds east of UTC. *)

Module datetime.
Record t : Type := mk { seconds : Z; tzinfo : option Z }.

Definition utc : Z := 0%Z.

(** [dt.replace(tzinfo=tz)] keeps the calendar reading. *)
Definition replace_tzinfo (dt : t) (tz : Z) : t :=
  {| seconds := seconds dt; tzinfo := Some tz |}.

(** The instant a value denotes; naive values of one series all read in
    the same zone, taken here as UTC. *)
Definition instant (dt : t) : Z :=
  match tzinfo dt with
  | Some off => (seconds dt - off)%Z
  | None => seconds dt
  end.

(** [dt + timedelta(hours=h)] and [dt - timedelta(hours=h)]. *)
Definition add_hours (dt : t) (h : Z) : t :=
  {| seconds := (seconds dt + 3600 * h)%Z; tzinfo := tzinfo dt |}.
Definition sub_hours (dt : t) (h : Z) : t :=
  {| seconds := (seconds dt - 3600 * h)%Z; tzinfo := tzinfo dt |}.

Definition leb (a b : t) : bool := (instant a <=? instant b)%Z.
Definition ltb (a b : t) : bool := (instant a <? instant b)%Z.
End datetime.

(** ** config.py *)

Module Config.
Record LiquidityRange (F : Type) : Type := {
  lower_bound_factor : F;
  upper_bound_factor : F
}.

Record SimulationSettings (F : Type) : Type := {
  initial_capital : F;
  buffer_pct : F;
  wick_threshold : F;
  wick_lookback_hours : Z;
  wick_cooldown_hours : Z
}.

Record t (F : Type) : Type := {
  LIQUIDITY_RANGE : LiquidityRange F;
  SIMULATION_SETTINGS : SimulationSettings F
}.
End Config.


(** ** block_search.py *)

(** The chain as [web3.eth] shows it: [get_block(identifier)] gives the
    number and timestamp of a block, named by its number or as
    ["latest"]; the read may fail. *)
Module Web3.
Inductive block_identifier : Type :=
| latest
| number (n : Z).

Record block : Type := {
  block_number : Z;
  block_timestamp : Z
}.

Record t : Type := {
  get_block : block_identifier -> result block
}.
End Web3.

(** [target_time : Union[int, datetime]]. *)
Inductive target_time : Type :=
| TInt (z : Z)
| TDatetime (dt : datetime.t).

Section BlockSearch.
Context {F : Type} `{PyFloat F}.
Local Open Scope Z_scope.
Local Open Scope result_scope.

(** The [while low < high and tries < max_tries] loop together with the
    [if tries >= max_tries: raise] that follows it.  [fuel] is
    [max_tries - tries]: with no fuel the loop is left and the function
    raises; with fuel and [low >= high] the loop is left and [low] is
    returned; otherwise one midpoint is probed. *)
Fixpoint bisect (web3 : Web3.t) (target_ts tolerance_seconds : Z)
    (fuel : nat) (low high : Z) : result Z :=
  match fuel with
  | O => Raise (ValueError "Exceeded maximum iterations; did not converge.")
  | S fuel' =>
      if low <? high then
        let mid := (low + high) / 2 in
        blk <- Web3.get_block web3 (Web3.number mid) ;;
        let blk_ts := Web3.block_timestamp blk in
        let '(low', high') :=
          if blk_ts <? target_ts then (mid + 1, high) else (low, mid) in
        if Z.abs (blk_ts - target_ts) <=? tolerance_seconds then Ok mid
        else bisect web3 target_ts tolerance_seconds fuel' low' high'
      else Ok low
  end.

(** Step 4 of [get_block_by_timestamp]: the initial bracket. *)
Definition initial_window (approx_block_time : option F)
    (latest_num latest_ts target_ts : Z) : result (Z * Z) :=
  match approx_block_time with
  | Some abt =>
      if (negb (abt =? of_Z 0) && (abt >? of_Z 0))%py then
        q <- (of_Z (latest_ts - target_ts) / abt)%py ;;
        blocks_back <- to_int q ;;
        let guess := latest_num - blocks_back in
        let guess := Z.max 0 (Z.min guess latest_num) in
        let low := Z.max 0 (guess - 2 * blocks_back) in
        let high := Z.min latest_num (guess + 2 * blocks_back) in
        if low >=? high then Ok (0, latest_num) else Ok (low, high)
      else Ok (0, latest_num)
  | None => Ok (0, latest_num)
  end.

Definition get_block_by_timestamp (web3 : Web3.t) (target : target_time)
    (approx_block_time : option F) (tolerance_seconds max_tries : Z)
    : result Z :=
  target_ts <-
    match target with
    | TDatetime dt =>
        match datetime.tzinfo dt with
        | None => Raise (ValueError "datetime must be timezone-aware (UTC).")
        | Some _ => Ok (datetime.instant dt)
        end
    | TInt z => Ok z
    end ;;
  latest_block <- Web3.get_block web3 Web3.latest ;;
  let latest_num := Web3.block_number latest_block in
  let latest_ts := Web3.block_timestamp latest_block in
  if target_ts >? latest_ts then
    Raise (ValueError "Target time is in the future relative to latest block.")
  else if Z.abs (latest_ts - target_ts) <=? tolerance_seconds then
    Ok latest_num
  else
    window <- initial_window approx_block_time latest_num latest_ts target_ts ;;
    let '(low, high) := window in
    bisect web3 target_ts tolerance_seconds (Z.to_nat max_tries) low high.

(** The keyword defaults [tolerance_seconds=5], [max_tries=50]. *)
Definition default_tolerance_seconds : Z := 5.
Definition default_max_tries : Z := 50.
End BlockSearch.

(** ** fee_calculator.py *)

(** One entry of the pool's [ticks] view, in the order of its ABI
    outputs; index [2] and [3] of the tuple are the two
    [feeGrowthOutside] accumulators. *)
Module TickData.
Record t : Type := {
  liquidityGross : Z;
  liquidityNet : Z;
  feeGrowthOutside0X128 : Z;
  feeGrowthOutside1X128 : Z;
  tickCumulativeOutside : Z;
  secondsPerLiquidityOutsideX128 : Z;
  secondsOutside : Z;
  initialized : bool
}.
End TickData.

(** The dictionary returned by [get_fee_growth_snapshot]. *)
Module Snapshot.
Record t (F : Type) : Type := {
  fee_growth_global0 : Z;
  fee_growth_global1 : Z;
  lower_tick_data : TickData.t;
  upper_tick_data : TickData.t;
  lower_tick : Z;
  upper_tick : Z;
  token0_decimals : N;
  token1_decimals : N;
  current_price_raw : F;
  mid_price : F;
  block_timestamp : Z;
  block_number : Z
}.
End Snapshot.

(** The pool contract's view functions, each read as of a block. *)
Module PoolContract.
Record t : Type := {
  token0 : result string;
  token1 : result string;
  slot0 : Web3.block_identifier -> result (Z * Z);
  feeGrowthGlobal0X128 : Web3.block_identifier -> result Z;
  feeGrowthGlobal1X128 : Web3.block_identifier -> result Z;
  ticks : Z -> Web3.block_identifier -> result TickData.t
}.
End PoolContract.

(** pool_web3.py: the connection, the pool contract bound to it, and the
    two tokens' [decimals()] (a [uint8] each). *)
Module Web3Operations.
Record t : Type := {
  get_web3_instance : result Web3.t;
  get_pool_contract : Web3.t -> PoolContract.t;
  get_token_decimals : Web3.t -> PoolContract.t -> result (N * N)
}.
End Web3Operations.

(** The dictionary returned by [compute_fees_and_apr]. *)
Module FeesResult.
Record t (F : Type) : Type := {
  fees_token0_raw : F;
  fees_token1_raw : F;
  total_fees_usd : F;
  simulated_liquidity : F;
  period_seconds : Z;
  apr_percent : F
}.
End FeesResult.

Module FeeCalculator.
Record t (F : Type) : Type := {
  start_time : datetime.t;
  end_time : datetime.t;
  capital_usd : F;
  web3_ops : Web3Operations.t
}.

Section Methods.
Context {F : Type} `{PyFloat F} `{PyLog F}.
(** The module-level [config] that [fee_calculator.py] imports. *)
Variable config : Config.t F.
Local Open Scope py_scope.
Local Open Scope result_scope.

Definition price_to_tick (price : F) : result Z :=
  log_price <- math_log price ;;
  log_base <- math_log (fdiv (of_Z 10001) (of_Z 10000)) ;;
  q <- log_price / log_base ;;
  ffloor q.

Definition get_fee_growth_snapshot (self : t F)
    (block_identifier : Web3.block_identifier) (fixed_price : option F)
    : result (Snapshot.t F) :=
  web3 <- Web3Operations.get_web3_instance (web3_ops self) ;;
  let pool_contract := Web3Operations.get_pool_contract (web3_ops self) web3 in
  token0_address <- PoolContract.token0 pool_contract ;;
  token1_address <- PoolContract.token1 pool_contract ;;
  decimals <-
    Web3Operations.get_token_decimals (web3_ops self) web3 pool_contract ;;
  let '(token0_decimals, token1_decimals) := decimals in
  slot0 <- PoolContract.slot0 pool_contract block_identifier ;;
  current_price_raw <-
    match fixed_price with
    | None =>
        let sqrt_price_x96 := fst slot0 in
        of_Z (sqrt_price_x96 ^ 2) / of_Z (2 ^ 192)
    | Some p => Ok p
    end ;;
  if current_price_raw =? of_Z 0 then
    Raise (ValueError "Invalid price reading (zero).")
  else
    inverse <- of_Z 1 / current_price_raw ;;
    let human_price :=
      inverse * pow10 (Z.of_N token1_decimals - Z.of_N token0_decimals) in
    let mid_price := human_price in
    let lower_target_price :=
      mid_price * Config.lower_bound_factor (Config.LIQUIDITY_RANGE config) in
    let upper_target_price :=
      mid_price * Config.upper_bound_factor (Config.LIQUIDITY_RANGE config) in
    lower_tick <- price_to_tick lower_target_price ;;
    upper_tick <- price_to_tick upper_target_price ;;
    fee_growth_global0 <-
      PoolContract.feeGrowthGlobal0X128 pool_contract block_identifier ;;
    fee_growth_global1 <-
      PoolContract.feeGrowthGlobal1X128 pool_contract block_identifier ;;
    lower_tick_data <-
      PoolContract.ticks pool_contract lower_tick block_identifier ;;
    upper_tick_data <-
      PoolContract.ticks pool_contract upper_tick block_identifier ;;
    block <- Web3.get_block web3 block_identifier ;;
    Ok {| Snapshot.fee_growth_global0 := fee_growth_global0;
          Snapshot.fee_growth_global1 := fee_growth_global1;
          Snapshot.lower_tick_data := lower_tick_data;
          Snapshot.upper_tick_data := upper_tick_data;
          Snapshot.lower_tick := lower_tick;
          Snapshot.upper_tick := upper_tick;
          Snapshot.token0_decimals := token0_decimals;
          Snapshot.token1_decimals := token1_decimals;
          Snapshot.current_price_raw := current_price_raw;
          Snapshot.mid_price := mid_price;
          Snapshot.block_timestamp := Web3.block_timestamp block;
          Snapshot.block_number := Web3.block_number block |}.

Definition compute_fee_growth_delta (snapshot0 snapshot1 : Snapshot.t F)
    : Z * Z :=
  let inside0_t0 :=
    (Snapshot.fee_growth_global0 snapshot0
     - TickData.feeGrowthOutside0X128 (Snapshot.lower_tick_data snapshot0)
     - TickData.feeGrowthOutside0X128 (Snapshot.upper_tick_data snapshot0))%Z in
  let inside0_t1 :=
    (Snapshot.fee_growth_global0 snapshot1
     - TickData.feeGrowthOutside0X128 (Snapshot.lower_tick_data snapshot1)
     - TickData.feeGrowthOutside0X128 (Snapshot.upper_tick_data snapshot1))%Z in
  let delta_fee_growth0 := (inside0_t1 - inside0_t0)%Z in
  let inside1_t0 :=
    (Snapshot.fee_growth_global1 snapshot0
     - TickData.feeGrowthOutside1X128 (Snapshot.lower_tick_data snapshot0)
     - TickData.feeGrowthOutside1X128 (Snapshot.upper_tick_data snapshot0))%Z in
  let inside1_t1 :=
    (Snapshot.fee_growth_global1 snapshot1
     - TickData.feeGrowthOutside1X128 (Snapshot.lower_tick_data snapshot1)
     - TickData.feeGrowthOutside1X128 (Snapshot.upper_tick_data snapshot1))%Z in
  let delta_fee_growth1 := (inside1_t1 - inside1_t0)%Z in
  (delta_fee_growth0, delta_fee_growth1).

Definition simulate_liquidity (self : t F) (mid_price : F)
    (token0_decimals token1_decimals : N) (human_price : F) : result F :=
  let lower_target_price :=
    mid_price * Config.lower_bound_factor (Config.LIQUIDITY_RANGE config) in
  let upper_target_price :=
    mid_price * Config.upper_bound_factor (Config.LIQUIDITY_RANGE config) in
  sqrtP <- math_sqrt mid_price ;;
  sqrtPa <- math_sqrt lower_target_price ;;
  sqrtPb <- math_sqrt upper_target_price ;;
  q0 <- (sqrtPb - sqrtP) / (sqrtP * sqrtPb) ;;
  token0_cost_factor <- q0 / of_Z (10 ^ Z.of_N token0_decimals) ;;
  token1_cost_factor <-
    ((sqrtP - sqrtPa) * human_price) / of_Z (10 ^ Z.of_N token1_decimals) ;;
  let denom := token0_cost_factor + token1_cost_factor in
  if denom =? of_Z 0 then
    Raise (ValueError
      "Liquidity denominator computed as zero. Check price parameters.")
  else capital_usd self / denom.

Definition seconds_per_year : Z := 365 * 24 * 3600.

Definition compute_fees_and_apr (self : t F)
    (snapshot0 snapshot1 : Snapshot.t F)
    (override_liquidity_snapshot : option (Snapshot.t F))
    : result (FeesResult.t F) :=
  let '(delta_fee_growth0, delta_fee_growth1) :=
    compute_fee_growth_delta snapshot0 snapshot1 in
  let '(mid_price, human_price) :=
    match override_liquidity_snapshot with
    | Some o => (Snapshot.current_price_raw o, Snapshot.mid_price o)
    | None =>
        (Snapshot.current_price_raw snapshot1, Snapshot.mid_price snapshot1)
    end in
  let token0_decimals := Snapshot.token0_decimals snapshot1 in
  let token1_decimals := Snapshot.token1_decimals snapshot1 in
  L <- simulate_liquidity self mid_price token0_decimals token1_decimals
         human_price ;;
  let scaling_factor := (2 ^ 128)%Z in
  fee_growth_per_unit0 <- of_Z delta_fee_growth0 / of_Z scaling_factor ;;
  fee_growth_per_unit1 <- of_Z delta_fee_growth1 / of_Z scaling_factor ;;
  let fees_token0_raw := fee_growth_per_unit0 * L in
  let fees_token1_raw := fee_growth_per_unit1 * L in
  fees_usd_token0 <- fees_token0_raw / of_Z (10 ^ Z.of_N token0_decimals) ;;
  human1 <- fees_token1_raw / of_Z (10 ^ Z.of_N token1_decimals) ;;
  let fees_usd_token1 := human1 * human_price in
  let total_fees_usd := fees_usd_token0 + fees_usd_token1 in
  let period_seconds :=
    (Snapshot.block_timestamp snapshot1
     - Snapshot.block_timestamp snapshot0)%Z in
  if (period_seconds <=? 0)%Z then
    Raise (ValueError
      "Invalid snapshot time period; period_seconds must be positive.")
  else
    annualization_factor <- of_Z seconds_per_year / of_Z period_seconds ;;
    per_capital <- total_fees_usd / capital_usd self ;;
    let apr_percent := per_capital * annualization_factor * of_Z 100 in
    Ok {| FeesResult.fees_token0_raw := fees_token0_raw;
          FeesResult.fees_token1_raw := fees_token1_raw;
          FeesResult.total_fees_usd := total_fees_usd;
          FeesResult.simulated_liquidity := L;
          FeesResult.period_seconds := period_seconds;
          FeesResult.apr_percent := apr_percent |}.

Definition calculate_fees (self : t F) (fixed_price_for_snapshot1 : option F)
    (override_liquidity_snapshot : option (Snapshot.t F))
    : result (FeesResult.t F) :=
  web3 <- Web3Operations.get_web3_instance (web3_ops self) ;;
  start_block_number <-
    get_block_by_timestamp web3 (TDatetime (start_time self)) None
      default_tolerance_seconds default_max_tries ;;
  end_block_number <-
    get_block_by_timestamp web3 (TDatetime (end_time self)) None
      default_tolerance_seconds default_max_tries ;;
  snapshot0 <-
    get_fee_growth_snapshot self (Web3.number start_block_number) None ;;
  let fixed_price_for_snapshot1 :=
    match fixed_price_for_snapshot1 with
    | None => Snapshot.current_price_raw snapshot0
    | Some p => p
    end in
  let override_liquidity_snapshot :=
    match override_liquidity_snapshot with
    | None => snapshot0
    | Some o => o
    end in
  snapshot1 <-
    get_fee_growth_snapshot self (Web3.number end_block_number)
      (Some fixed_price_for_snapshot1) ;;
  compute_fees_and_apr self snapshot0 snapshot1
    (Some override_liquidity_snapshot).
End Methods.
End FeeCalculator.


(** ** Stateful methods: state passing with exceptions

    A method that may mutate its object and may raise is a function from
    the object's state to a result and the state left behind; what was
    mutated before a [raise] stays mutated. *)

Definition M (S A : Type) : Type := S -> result A * S.

Definition ret {S A : Type} (a : A) : M S A := fun s => (Ok a, s).

Definition raise {S A : Type} (e : exn) : M S A := fun s => (Raise e, s).

Definition lift {S A : Type} (r : result A) : M S A := fun s => (r, s).

Definition gets {S A : Type} (f : S -> A) : M S A := fun s => (Ok (f s), s).

Definition modify {S : Type} (f : S -> S) : M S unit := fun s => (Ok tt, f s).

Definition bindM {S A B : Type} (m : M S A) (k : A -> M S B) : M S B :=
  fun s =>
    match m s with
    | (Ok a, s') => k a s'
    | (Raise e, s') => (Raise e, s')
    end.

Declare Scope state_scope.
Delimit Scope state_scope with state.
Notation "x <- e ;; k" := (bindM e (fun x => k))
  (at level 61, e at next level, right associativity) : state_scope.
Notation "e ;; k" := (bindM e (fun _ => k))
  (at level 61, right associativity) : state_scope.

(** ** liquidity_manager.py *)

(** The dictionary stored in [self.position]. *)
Module Position.
Record t (F : Type) : Type := {
  open_price : F;
  p_a : F;
  p_b : F;
  open_timestamp : datetime.t;
  capital_deployed : F;
  L_human : F
}.
End Position.

Module LiquidityManager.
(** The attributes the methods below read or write; the descriptive ones
    ([blockchain_name], [pool_address], the asset names, [fee_tier],
    [price_data]) are never read by them. *)
Record t (F : Type) : Type := {
  initial_capital : F;
  current_capital : F;
  config : Config.t F;
  position : option (Position.t F);
  web3_ops : Web3Operations.t;
  slippage_factor : F
}.

Definition set_current_capital {F : Type} (self : t F) (c : F) : t F :=
  {| initial_capital := initial_capital self;
     current_capital := c;
     config := config self;
     position := position self;
     web3_ops := web3_ops self;
     slippage_factor := slippage_factor self |}.

Definition set_position {F : Type} (self : t F)
    (p : option (Position.t F)) : t F :=
  {| initial_capital := initial_capital self;
     current_capital := current_capital self;
     config := config self;
     position := p;
     web3_ops := web3_ops self;
     slippage_factor := slippage_factor self |}.

(** [__init__]. *)
Definition init {F : Type} (initial_capital : F) (config : Config.t F)
    (slippage_factor : F) (web3_ops : Web3Operations.t) : t F :=
  {| initial_capital := initial_capital;
     current_capital := initial_capital;
     config := config;
     position := None;
     web3_ops := web3_ops;
     slippage_factor := slippage_factor |}.

Section Methods.
Context {F : Type} `{PyFloat F} `{PyLog F}.
(** The module-level [config] read by the [FeeCalculator] that
    [close_position] builds. *)
Variable module_config : Config.t F.
Local Open Scope py_scope.

Definition _compute_liquidity_for_capital (capital p p_a p_b : F)
    : result F :=
  (if p <=? of_Z 0 then
     Raise (ValueError "Current price must be positive.")
   else if p_a >=? p_b then
     Raise (ValueError "Lower bound must be less than upper bound.")
   else
     sqrt_p <- math_sqrt p ;;
     inv_sqrt_p <- of_Z 1 / sqrt_p ;;
     sqrt_p_b <- math_sqrt p_b ;;
     inv_sqrt_p_b <- of_Z 1 / sqrt_p_b ;;
     let x_human := inv_sqrt_p - inv_sqrt_p_b in
     sqrt_p' <- math_sqrt p ;;
     sqrt_p_a <- math_sqrt p_a ;;
     let y_human := sqrt_p' - sqrt_p_a in
     let denom_human := x_human * p + y_human in
     if denom_human =? of_Z 0 then
       Raise (ValueError
         "Liquidity denominator computed as zero. Check price parameters.")
     else capital / denom_human)%result.

Definition _get_position_value (self : t F) (p : F) : result F :=
  (match position self with
   | None => Ok (of_Z 0)
   | Some pos =>
       let L_human := Position.L_human pos in
       let p_a := Position.p_a pos in
       let p_b := Position.p_b pos in
       if p <=? p_a then
         sqrt_p_a <- math_sqrt p_a ;;
         inv_a <- of_Z 1 / sqrt_p_a ;;
         sqrt_p_b <- math_sqrt p_b ;;
         inv_b <- of_Z 1 / sqrt_p_b ;;
         let base_tokens := L_human * (inv_a - inv_b) in
         Ok (base_tokens * p)
       else if p >=? p_b then
         sqrt_p_b <- math_sqrt p_b ;;
         sqrt_p_a <- math_sqrt p_a ;;
         let quote_tokens := L_human * (sqrt_p_b - sqrt_p_a) in
         Ok quote_tokens
       else
         sqrt_p <- math_sqrt p ;;
         inv_p <- of_Z 1 / sqrt_p ;;
         sqrt_p_b <- math_sqrt p_b ;;
         inv_b <- of_Z 1 / sqrt_p_b ;;
         let base_tokens := L_human * (inv_p - inv_b) in
         sqrt_p' <- math_sqrt p ;;
         sqrt_p_a <- math_sqrt p_a ;;
         let quote_tokens := L_human * (sqrt_p' - sqrt_p_a) in
         Ok (base_tokens * p + quote_tokens)
   end)%result.

(** [if ts.tzinfo is None: ts = ts.replace(tzinfo=timezone.utc)]. *)
Definition ensure_utc (ts : datetime.t) : datetime.t :=
  match datetime.tzinfo ts with
  | None => datetime.replace_tzinfo ts datetime.utc
  | Some _ => ts
  end.

Local Open Scope state_scope.

Definition open_position (current_price : F) (current_timestamp : datetime.t)
    : M (t F) (Position.t F) :=
  self <- gets (fun self => self) ;;
  let lower_bound_factor :=
    Config.lower_bound_factor (Config.LIQUIDITY_RANGE (config self)) in
  let upper_bound_factor :=
    Config.upper_bound_factor (Config.LIQUIDITY_RANGE (config self)) in
  let p_a := current_price * lower_bound_factor in
  let p_b := current_price * upper_bound_factor in
  if p_a >=? p_b then
    raise (ValueError "Invalid bounds: lower bound must be < upper bound.")
  else
    let p0 := py_max (py_min current_price p_b) p_a in
    L_human <-
      lift (_compute_liquidity_for_capital (current_capital self) p0 p_a p_b) ;;
    let current_timestamp := ensure_utc current_timestamp in
    let new_position :=
      {| Position.open_price := current_price;
         Position.p_a := p_a;
         Position.p_b := p_b;
         Position.open_timestamp := current_timestamp;
         Position.capital_deployed := current_capital self;
         Position.L_human := L_human |} in
    modify (fun self => set_position self (Some new_position)) ;;
    ret new_position.

Definition close_position (current_price : F) (current_timestamp : datetime.t)
    : M (t F) F :=
  self <- gets (fun self => self) ;;
  match position self with
  | None => ret (current_capital self)
  | Some pos =>
      let current_timestamp := ensure_utc current_timestamp in
      position_value_before_slippage <-
        lift (_get_position_value self current_price) ;;
      let net_quote :=
        position_value_before_slippage * (of_Z 1 - slippage_factor self) in
      let fee_calc :=
        {| FeeCalculator.start_time := Position.open_timestamp pos;
           FeeCalculator.end_time := current_timestamp;
           FeeCalculator.capital_usd := current_capital self;
           FeeCalculator.web3_ops := web3_ops self |} in
      fees_result <-
        lift (FeeCalculator.calculate_fees module_config fee_calc
                (Some current_price) None) ;;
      let fees := FeesResult.total_fees_usd fees_result in
      let total_value := net_quote + fees in
      modify (fun self => set_current_capital self total_value) ;;
      modify (fun self => set_position self None) ;;
      gets (fun self => current_capital self)
  end.

Definition rebalance_position (current_price : F)
    (current_timestamp : datetime.t) : M (t F) (Position.t F * F) :=
  close_position current_price current_timestamp ;;
  new_position <- open_position current_price current_timestamp ;;
  capital <- gets (fun self => current_capital self) ;;
  ret (new_position, capital).

Definition get_position_value (current_price : F) : M (t F) F :=
  self <- gets (fun self => self) ;;
  lift (_get_position_value self current_price).
End Methods.
End LiquidityManager.


(** ** position_recorder.py *)

Module PositionRecorder.
Record entry (F : Type) : Type := {
  timestamp : datetime.t;
  position_value : F;
  price : F
}.

Record t (F : Type) : Type := {
  records : list (entry F);
  rebalances : list (entry F)
}.

Definition init {F : Type} : t F := {| records := []; rebalances := [] |}.

Definition record_position {F : Type} (timestamp : datetime.t)
    (position_value price : F) (self : t F) : t F :=
  {| records :=
       records self
       ++ [{| timestamp := timestamp; position_value := position_value;
              price := price |}];
     rebalances := rebalances self |}.

Definition record_rebalance {F : Type} (timestamp : datetime.t)
    (position_value price : F) (self : t F) : t F :=
  {| records := records self;
     rebalances :=
       rebalances self
       ++ [{| timestamp := timestamp; position_value := position_value;
              price := price |}] |}.
End PositionRecorder.

(** ** main.py: the backtest loop *)

(** A row of the price frame: its column labels with their values. *)
Definition row (F : Type) : Type := list (string * F).

(** The price frame: rows in index order, each under its timestamp. *)
Definition price_frame (F : Type) : Type := list (datetime.t * row F).

Definition lower_ascii (c : Ascii.ascii) : Ascii.ascii :=
  let n := Ascii.nat_of_ascii c in
  if ((65 <=? n) && (n <=? 90))%nat then Ascii.ascii_of_nat (n + 32) else c.

Fixpoint lower (s : string) : string :=
  match s with
  | EmptyString => EmptyString
  | String c s' => String (lower_ascii c) (lower s')
  end.

(** ['close' in c.lower()]. *)
Definition is_close_col (c : string) : bool :=
  match String.index 0 "close" (lower c) with
  | Some _ => true
  | None => false
  end.

(** [row[label]]. *)
Fixpoint row_get {F : Type} (r : row F) (label : string) : result F :=
  match r with
  | [] => Raise (KeyError label)
  | (l, v) :: r' => if String.eqb l label then Ok v else row_get r' label
  end.

(** [frame.iloc[-1]] of a frame that may be empty. *)
Fixpoint iloc_last {A : Type} (l : list A) : option A :=
  match l with
  | [] => None
  | [x] => Some x
  | _ :: l' => iloc_last l'
  end.

Module Main.
(** The variables the loop of [main] carries from one row to the next. *)
Record state (F : Type) : Type := {
  lm : LiquidityManager.t F;
  recorder : PositionRecorder.t F;
  rebalance_count : Z;
  cooldown_until : option datetime.t
}.

Definition set_lm {F : Type} (st : state F) (x : LiquidityManager.t F)
    : state F :=
  {| lm := x; recorder := recorder st;
     rebalance_count := rebalance_count st;
     cooldown_until := cooldown_until st |}.

Definition set_recorder {F : Type} (st : state F)
    (x : PositionRecorder.t F) : state F :=
  {| lm := lm st; recorder := x;
     rebalance_count := rebalance_count st;
     cooldown_until := cooldown_until st |}.

Definition set_rebalance_count {F : Type} (st : state F) (x : Z) : state F :=
  {| lm := lm st; recorder := recorder st;
     rebalance_count := x;
     cooldown_until := cooldown_until st |}.

Definition set_cooldown_until {F : Type} (st : state F)
    (x : option datetime.t) : state F :=
  {| lm := lm st; recorder := recorder st;
     rebalance_count := rebalance_count st;
     cooldown_until := x |}.

(** A method call on [lm] from inside the loop. *)
Definition on_lm {F A : Type} (m : M (LiquidityManager.t F) A)
    : M (state F) A :=
  fun st => let '(r, lm') := m (lm st) in (r, set_lm st lm').

Section Loop.
Context {F : Type} `{PyFloat F} `{PyLog F}.
(** The module-level [config]. *)
Variable config : Config.t F.
Local Open Scope py_scope.
Local Open Scope state_scope.

Definition settings : Config.SimulationSettings F :=
  Config.SIMULATION_SETTINGS config.

(** The block headed "Wick-Based Cooldown Logic".  Prices come out of the
    frame as [numpy.float64], whose division does not raise. *)
Definition wick_cooldown_logic (price_data : price_frame F)
    (close_col : string) (current_price : F) (timestamp : datetime.t)
    : M (state F) unit :=
  let lookback_time :=
    datetime.sub_hours timestamp (Config.wick_lookback_hours settings) in
  let past_data :=
    filter (fun r => datetime.leb (fst r) lookback_time) price_data in
  match iloc_last past_data with
  | None => ret tt
  | Some past_row =>
      past_price <- lift (row_get (snd past_row) close_col) ;;
      let price_change_pct :=
        fdiv (fabs (current_price - past_price)) past_price in
      cooldown <- gets (fun st => cooldown_until st) ;;
      if (price_change_pct >=? Config.wick_threshold settings)
         && (match cooldown with
             | None => true
             | Some until => datetime.leb until timestamp
             end)
      then
        modify (fun st =>
          set_cooldown_until st
            (Some (datetime.add_hours timestamp
                     (Config.wick_cooldown_hours settings))))
      else ret tt
  end.

(** The block headed "Buffered Rebalancing Logic". *)
Definition buffered_rebalancing_logic (current_price : F)
    (timestamp : datetime.t) : M (state F) unit :=
  pos <- gets (fun st => LiquidityManager.position (lm st)) ;;
  match pos with
  | None => raise (TypeError "'NoneType' object is not subscriptable")
  | Some pos =>
      let p_a := Position.p_a pos in
      let p_b := Position.p_b pos in
      if (current_price <? p_a * (of_Z 1 - Config.buffer_pct settings))
         || (current_price >? p_b * (of_Z 1 + Config.buffer_pct settings))
      then
        cooldown <- gets (fun st => cooldown_until st) ;;
        if match cooldown with
           | Some until => datetime.ltb timestamp until
           | None => false
           end
        then ret tt
        else
          on_lm (LiquidityManager.rebalance_position config
                   current_price timestamp) ;;
          modify (fun st =>
            set_rebalance_count st (rebalance_count st + 1)%Z) ;;
          value <- on_lm (LiquidityManager.get_position_value current_price) ;;
          modify (fun st =>
            set_recorder st
              (PositionRecorder.record_rebalance timestamp value
                 current_price (recorder st)))
      else ret tt
  end.

(** The body of [for timestamp, row in price_data.iterrows()]. *)
Definition loop_body (price_data : price_frame F)
    (timestamp : datetime.t) (r : row F) : M (state F) unit :=
  let close_cols := filter is_close_col (map fst r) in
  match close_cols with
  | [] => ret tt
  | close_col :: _ =>
      current_price <- lift (row_get r close_col) ;;
      pos <- gets (fun st => LiquidityManager.position (lm st)) ;;
      match pos with
      | None =>
          on_lm (LiquidityManager.open_position current_price timestamp) ;;
          ret tt
      | Some _ => ret tt
      end ;;
      wick_cooldown_logic price_data close_col current_price timestamp ;;
      buffered_rebalancing_logic current_price timestamp ;;
      value <- on_lm (LiquidityManager.get_position_value current_price) ;;
      modify (fun st =>
        set_recorder st
          (PositionRecorder.record_position timestamp value current_price
             (recorder st)))
  end.

(** The loop over the frame's remaining rows. *)
Fixpoint iterrows (price_data : price_frame F)
    (remaining : price_frame F) : M (state F) unit :=
  match remaining with
  | [] => ret tt
  | (timestamp, r) :: rest =>
      loop_body price_data timestamp r ;;
      iterrows price_data rest
  end.

(** The state [main] enters the loop with. *)
Definition initial_state (web3_ops : Web3Operations.t) : state F :=
  {| lm :=
       LiquidityManager.init (Config.initial_capital settings) config
         (fdiv (of_Z 1) (of_Z 1000)) web3_ops;
     recorder := PositionRecorder.init;
     rebalance_count := 0%Z;
     cooldown_until := None |}.
End Loop.
End Main.

(** [config.py] as shipped: range factors 0.85 and 1.15, capital 10000,
    1% buffer, 8% wick threshold, 12 h lookback, 4 h cooldown.  A decimal
    literal is the correctly rounded quotient of two integers. *)
Definition default_config {F : Type} `{PyFloat F} : Config.t F :=
  {| Config.LIQUIDITY_RANGE :=
       {| Config.lower_bound_factor := fdiv (of_Z 85) (of_Z 100);
          Config.upper_bound_factor := fdiv (of_Z 115) (of_Z 100) |};
     Config.SIMULATION_SETTINGS :=
       {| Config.initial_capital := of_Z 10000;
          Config.buffer_pct := fdiv (of_Z 1) (of_Z 100);
          Config.wick_threshold := fdiv (of_Z 8) (of_Z 100);
          Config.wick_lookback_hours := 12;
          Config.wick_cooldown_hours := 4 |} |}.

(** ** config.py and data_fetcher.py: the token symbol of a pool name *)

Definition SUPPORTED_TOKENS : list string :=
  ["ETH"; "SOL"; "DOGE"; "XRP"; "BTC"; "BNB"]%string.



(** [s.split(sep)] for a one-character separator: never the empty list. *)
Fixpoint str_split (sep : Ascii.ascii) (s : string) : list string :=
  match s with
  | EmptyString => [EmptyString]
  | String c s' =>
      if Ascii.eqb c sep then EmptyString :: str_split sep s'
      else
        match str_split sep s' with
        | token :: tokens => String c token :: tokens
        | [] => [String c EmptyString]
        end
  end.

Definition upper_ascii (c : Ascii.ascii) : Ascii.ascii :=
  let n := Ascii.nat_of_ascii c in
  if ((97 <=? n) && (n <=? 122))%nat then Ascii.ascii_of_nat (n - 32) else c.

(** [s.upper()], on ASCII strings, which pool names are. *)
Fixpoint upper (s : string) : string :=
  match s with
  | EmptyString => EmptyString
  | String c s' => String (upper_ascii c) (upper s')
  end.

Module data_fetcher.
Import Ascii.

(** [(token[1:] if token.startswith('W') else token).upper()]. *)
Definition cleaned_token (token : string) : string :=
  upper
    match token with
    | String c rest => if Ascii.eqb c "W" then rest else token
    | EmptyString => token
    end.

(** [token in config.SUPPORTED_TOKENS]. *)
Definition is_supported (token : string) : bool :=
  existsb (String.eqb token) SUPPORTED_TOKENS.

(** [cleaned_tokens[0]] is read of a list that [split] never leaves
    empty. *)
Definition clean_token (pool_name : string) : string :=
  let tokens := str_split "/" pool_name in
  let cleaned_tokens := map cleaned_token tokens in
  match find is_supported cleaned_tokens with
  | Some token => token
  | None => hd EmptyString cleaned_tokens
  end.

End data_fetcher.

(** ** Reference definitions

    What the specification's sentences speak of, written in its words, and
    the synthetic inputs the properties below are evaluated on. *)

(** The sizing formula of the specification, section 4.3: the price
    multiplies the token1 cost factor. *)
Definition spec_sizeLiquidity (capital price lowerBound upperBound : R) : R :=
  (let token0CostFactor := 1 / sqrt price - 1 / sqrt upperBound in
   let token1CostFactor := (sqrt price - sqrt lowerBound) * price in
   capital / (token0CostFactor + token1CostFactor))%R.

(** The denominator [_compute_liquidity_for_capital] divides by, over the
    reals. *)
Definition sizing_denominator (p p_a p_b : R) : R :=
  ((1 / sqrt p - 1 / sqrt p_b) * p + (sqrt p - sqrt p_a))%R.

(** A synthetic provider with uniform block spacing: block [n] carries the
    timestamp [n * block_time], and the head is block [latest_num]. *)
Definition uniform_chain (latest_num block_time : Z) : Web3.t :=
  {| Web3.get_block := fun identifier =>
       match identifier with
       | Web3.latest =>
           Ok {| Web3.block_number := latest_num;
                 Web3.block_timestamp := latest_num * block_time |}
       | Web3.number n =>
           Ok {| Web3.block_number := n;
                 Web3.block_timestamp := n * block_time |}
       end |}.

(** [b] is the smallest block of the uniform chain whose timestamp is at
    least [target_ts]. *)
Definition first_block_at_or_after (block_time latest_num target_ts b : Z)
    : Prop :=
  (0 <= b <= latest_num
   /\ target_ts <= b * block_time
   /\ forall b', 0 <= b' < b -> b' * block_time < target_ts)%Z.

(** The [FeeCalculator] that [close_position] builds for a position. *)
Definition closing_fee_calculator {F : Type} (self : LiquidityManager.t F)
    (pos : Position.t F) (current_timestamp : datetime.t)
    : FeeCalculator.t F :=
  {| FeeCalculator.start_time := Position.open_timestamp pos;
     FeeCalculator.end_time := LiquidityManager.ensure_utc current_timestamp;
     FeeCalculator.capital_usd := LiquidityManager.current_capital self;
     FeeCalculator.web3_ops := LiquidityManager.web3_ops self |}.

(** A connection that cannot be made: no API key in the environment. *)
Definition offline_web3_ops : Web3Operations.t :=
  {| Web3Operations.get_web3_instance :=
       Raise (EnvironmentError
         "Alchemy API key not found in environment variables. Please set ALCHEMY_API_KEY.");
     Web3Operations.get_pool_contract := fun _ =>
       {| PoolContract.token0 := Raise (ConnectionError "offline");
          PoolContract.token1 := Raise (ConnectionError "offline");
          PoolContract.slot0 := fun _ => Raise (ConnectionError "offline");
          PoolContract.feeGrowthGlobal0X128 := fun _ =>
            Raise (ConnectionError "offline");
          PoolContract.feeGrowthGlobal1X128 := fun _ =>
            Raise (ConnectionError "offline");
          PoolContract.ticks := fun _ _ => Raise (ConnectionError "offline") |};
     Web3Operations.get_token_decimals := fun _ _ =>
       Raise (ConnectionError "offline") |}.

(** Midnight, 1 January 1970, plus [h] hours, as a naive timestamp. *)
Definition hour (h : Z) : datetime.t :=
  {| datetime.seconds := (3600 * h)%Z; datetime.tzinfo := None |}.

(** A manager as [main] builds it, with the shipped configuration and the
    given starting capital. *)
Definition fresh_manager {F : Type} `{PyFloat F} (capital : F)
    (web3_ops : Web3Operations.t) : LiquidityManager.t F :=
  LiquidityManager.init capital default_config (fdiv (of_Z 1) (of_Z 1000))
    web3_ops.

(** The three lifecycle operations of section 4.4, and the outcome of
    running one: the exception it raised, if any, and the manager it
    leaves behind. *)
Inductive operation : Type :=
| Open
| Close
| Rebalance.

Definition outcome {S A : Type} (r : result A * S) : option exn * S :=
  match r with
  | (Ok _, s) => (None, s)
  | (Raise e, s) => (Some e, s)
  end.

Definition run_operation {F : Type} `{PyFloat F} `{PyLog F}
    (module_config : Config.t F) (op : operation) (price : F)
    (timestamp : datetime.t) (self : LiquidityManager.t F)
    : option exn * LiquidityManager.t F :=
  match op with
  | Open => outcome (LiquidityManager.open_position price timestamp self)
  | Close =>
      outcome (LiquidityManager.close_position module_config price timestamp
                 self)
  | Rebalance =>
      outcome (LiquidityManager.rebalance_position module_config price
                 timestamp self)
  end.

(** The step lies inside an active cooldown window: a cooldown is set and
    the timestamp has not reached it. *)
Definition in_cooldown (cooldown_until : option datetime.t)
    (timestamp : datetime.t) : bool :=
  match cooldown_until with
  | Some until => datetime.ltb timestamp until
  | None => false
  end.

(** The buffered breach of section 4.5:
    [price < lowerBound * (1 - bufferPct)] or
    [price > upperBound * (1 + bufferPct)]. *)
Definition buffer_breached {F : Type} `{PyFloat F} (config : Config.t F)
    (lowerBound upperBound price : F) : bool :=
  let bufferPct := Config.buffer_pct (Config.SIMULATION_SETTINGS config) in
  (fltb price (fmul lowerBound (fsub (of_Z 1) bufferPct))
   || fltb (fmul upperBound (fadd (of_Z 1) bufferPct)) price)%bool.

(** Fee growth inside the range at a snapshot, per token:
    [feeGrowthGlobal - feeGrowthOutside(lowerTick) - feeGrowthOutside(upperTick)]. *)
Definition fee_growth_inside0 {F : Type} (s : Snapshot.t F) : Z :=
  (Snapshot.fee_growth_global0 s
   - TickData.feeGrowthOutside0X128 (Snapshot.lower_tick_data s)
   - TickData.feeGrowthOutside0X128 (Snapshot.upper_tick_data s))%Z.

Definition fee_growth_inside1 {F : Type} (s : Snapshot.t F) : Z :=
  (Snapshot.fee_growth_global1 s
   - TickData.feeGrowthOutside1X128 (Snapshot.lower_tick_data s)
   - TickData.feeGrowthOutside1X128 (Snapshot.upper_tick_data s))%Z.

(** A tick entry with the given fee growth outside. *)
Definition tick_with_outside (outside0 outside1 : Z) : TickData.t :=
  {| TickData.liquidityGross := 0;
     TickData.liquidityNet := 0;
     TickData.feeGrowthOutside0X128 := outside0;
     TickData.feeGrowthOutside1X128 := outside1;
     TickData.tickCumulativeOutside := 0;
     TickData.secondsPerLiquidityOutsideX128 := 0;
     TickData.secondsOutside := 0;
     TickData.initialized := true |}.

(** A snapshot at unit price with the given global accumulators and
    timestamp, and nothing accrued outside either tick. *)
Definition snapshot_with_globals {F : Type} `{PyFloat F}
    (global0 global1 timestamp : Z) : Snapshot.t F :=
  {| Snapshot.fee_growth_global0 := global0;
     Snapshot.fee_growth_global1 := global1;
     Snapshot.lower_tick_data := tick_with_outside 0 0;
     Snapshot.upper_tick_data := tick_with_outside 0 0;
     Snapshot.lower_tick := (-1626)%Z;
     Snapshot.upper_tick := 1397%Z;
     Snapshot.token0_decimals := 0%N;
     Snapshot.token1_decimals := 0%N;
     Snapshot.current_price_raw := of_Z 1;
     Snapshot.mid_price := of_Z 1;
     Snapshot.block_timestamp := timestamp;
     Snapshot.block_number := (timestamp / 2)%Z |}.

(** The snapshot whose prices [compute_fees_and_apr] sizes the simulated
    liquidity with, and the call it makes to size it. *)
Definition liquidity_snapshot {F : Type} (snapshot1 : Snapshot.t F)
    (override_liquidity_snapshot : option (Snapshot.t F)) : Snapshot.t F :=
  match override_liquidity_snapshot with
  | Some o => o
  | None => snapshot1
  end.

Definition simulated_liquidity_of {F : Type} `{PyFloat F} (config : Config.t F)
    (self : FeeCalculator.t F) (snapshot1 : Snapshot.t F)
    (override_liquidity_snapshot : option (Snapshot.t F)) : result F :=
  let s := liquidity_snapshot snapshot1 override_liquidity_snapshot in
  FeeCalculator.simulate_liquidity config self
    (Snapshot.current_price_raw s)
    (Snapshot.token0_decimals snapshot1) (Snapshot.token1_decimals snapshot1)
    (Snapshot.mid_price s).

(** A synthetic pool on a uniform chain of 3600 two-second blocks: unit
    raw price, fee growth proportional to the block number, nothing
    accrued outside any tick, and tokens of 0 decimals. *)
Definition synthetic_pool : PoolContract.t :=
  {| PoolContract.token0 := Ok "0x4200000000000000000000000000000000000006"%string;
     PoolContract.token1 := Ok "0x833589fCD6eDb6E08f4c7C32D4f71b54bdA02913"%string;
     PoolContract.slot0 := fun _ => Ok ((2 ^ 96)%Z, 0%Z);
     PoolContract.feeGrowthGlobal0X128 := fun identifier =>
       match identifier with
       | Web3.latest => Ok (3600 * 2 ^ 100)%Z
       | Web3.number n => Ok (n * 2 ^ 100)%Z
       end;
     PoolContract.feeGrowthGlobal1X128 := fun identifier =>
       match identifier with
       | Web3.latest => Ok (3600 * 2 ^ 110)%Z
       | Web3.number n => Ok (n * 2 ^ 110)%Z
       end;
     PoolContract.ticks := fun _ _ => Ok (tick_with_outside 0 0) |}.

Definition synthetic_web3_ops : Web3Operations.t :=
  {| Web3Operations.get_web3_instance := Ok (uniform_chain 3600 2);
     Web3Operations.get_pool_contract := fun _ => synthetic_pool;
     Web3Operations.get_token_decimals := fun _ _ => Ok (0%N, 0%N) |}.

(** The shipped configuration with its two range factors exchanged. *)
Definition swapped_config {F : Type} `{PyFloat F} : Config.t F :=
  {| Config.LIQUIDITY_RANGE :=
       {| Config.lower_bound_factor := fdiv (of_Z 115) (of_Z 100);
          Config.upper_bound_factor := fdiv (of_Z 85) (of_Z 100) |};
     Config.SIMULATION_SETTINGS := Config.SIMULATION_SETTINGS default_config |}.

(** A manager holding a position around (1700, 2300) on the synthetic
    chain, whose configuration has since had its range factors
    exchanged. *)
Definition stale_manager {F : Type} `{PyFloat F} : LiquidityManager.t F :=
  {| LiquidityManager.initial_capital := of_Z 10000;
     LiquidityManager.current_capital := of_Z 10000;
     LiquidityManager.config := swapped_config;
     LiquidityManager.position :=
       Some {| Position.open_price := of_Z 2000;
               Position.p_a := of_Z 1700;
               Position.p_b := of_Z 2300;
               Position.open_timestamp :=
                 datetime.replace_tzinfo (hour 0) datetime.utc;
               Position.capital_deployed := of_Z 10000;
               Position.L_human := of_Z 1536 |};
     LiquidityManager.web3_ops := synthetic_web3_ops;
     LiquidityManager.slippage_factor := fdiv (of_Z 1) (of_Z 1000) |}.

(** Two rows twelve hours apart, the close moving from 100 to 120. *)
Definition wick_frame {F : Type} `{PyFloat F} : price_frame F :=
  [ (hour 0, [("open"%string, of_Z 99); ("close"%string, of_Z 100)]);
    (hour 12, [("open"%string, of_Z 100); ("close"%string, of_Z 120)]) ].

(** The loop state at hour 12 with a cooldown running until hour 14. *)
Definition cooling_state {F : Type} `{PyFloat F} : Main.state F :=
  Main.set_cooldown_until (Main.initial_state default_config offline_web3_ops)
    (Some (hour 14)).

(** The loop state of a run holding a position around (1700, 2300) on the
    synthetic chain, with no cooldown set and no rebalance counted. *)
Definition tracking_state {F : Type} `{PyFloat F} : Main.state F :=
  {| Main.lm :=
       LiquidityManager.set_position
         (fresh_manager (of_Z 10000) synthetic_web3_ops)
         (Some {| Position.open_price := of_Z 2000;
                  Position.p_a := of_Z 1700;
                  Position.p_b := of_Z 2300;
                  Position.open_timestamp :=
                    datetime.replace_tzinfo (hour 0) datetime.utc;
                  Position.capital_deployed := of_Z 10000;
                  Position.L_human := of_Z 1536 |});
     Main.recorder := PositionRecorder.init;
     Main.rebalance_count := 0%Z;
     Main.cooldown_until := None |}.

(** A fee calculator for the hour from 0 to 1 on the given capital. *)
Definition idle_calculator {F : Type} `{PyFloat F} (capital : F) : FeeCalculator.t F :=
  {| FeeCalculator.start_time := datetime.replace_tzinfo (hour 0) datetime.utc;
     FeeCalculator.end_time := datetime.replace_tzinfo (hour 1) datetime.utc;
     FeeCalculator.capital_usd := capital;
     FeeCalculator.web3_ops := offline_web3_ops |}.

(** ** Further reference definitions *)

(** A synthetic provider whose block [n] carries the timestamp
    [timestamp_of n], with head [latest_num]. *)
Definition chain_of (latest_num : Z) (timestamp_of : Z -> Z) : Web3.t :=
  {| Web3.get_block := fun identifier =>
       match identifier with
       | Web3.latest =>
           Ok {| Web3.block_number := latest_num;
                 Web3.block_timestamp := timestamp_of latest_num |}
       | Web3.number n =>
           Ok {| Web3.block_number := n;
                 Web3.block_timestamp := timestamp_of n |}
       end |}.

(** [b] is the smallest block of [chain_of latest_num timestamp_of] whose
    timestamp is at least [target_ts]. *)
Definition first_block_not_before (timestamp_of : Z -> Z)
    (latest_num target_ts b : Z) : Prop :=
  (0 <= b <= latest_num
   /\ target_ts <= timestamp_of b
   /\ forall b', 0 <= b' < b -> timestamp_of b' < target_ts)%Z.

(** The in-range formula of [_get_position_value] for liquidity [L] and
    range [(p_a, p_b)]: the base tokens held at the reference price [c],
    valued at [p], plus the quote tokens held at [c]. *)
Definition mixed_value (L p_a p_b c p : R) : R :=
  (L * (1 / sqrt c - 1 / sqrt p_b) * p + L * (sqrt c - sqrt p_a))%R.

(** The tick base: one tick is a price step of 0.01%. *)
Definition tick_base : R := (10001 / 10000)%R.

(** The row has a column whose label contains ["close"]. *)
Definition has_close_col {F : Type} (r : row F) : bool :=
  match filter is_close_col (map fst r) with
  | [] => false
  | _ :: _ => true
  end.

(** No ['/'] occurs in [s]. *)
Fixpoint no_slash (s : string) : bool :=
  match s with
  | EmptyString => true
  | String c s' =>
      negb (Ascii.eqb c (Ascii.Ascii true true true true false true false false))
      && no_slash s'
  end.

(** The position around (1700, 2300) that [tracking_state] holds. *)
Definition tracked_position {F : Type} `{PyFloat F} : Position.t F :=
  {| Position.open_price := of_Z 2000;
     Position.p_a := of_Z 1700;
     Position.p_b := of_Z 2300;
     Position.open_timestamp := datetime.replace_tzinfo (hour 0) datetime.utc;
     Position.capital_deployed := of_Z 10000;
     Position.L_human := of_Z 1536 |}.

(** A fee calculator for the hour from 0 to 1 on the synthetic chain. *)
Definition synthetic_calculator {F : Type} `{PyFloat F} (capital : F)
    : FeeCalculator.t F :=
  {| FeeCalculator.start_time := datetime.replace_tzinfo (hour 0) datetime.utc;
     FeeCalculator.end_time := datetime.replace_tzinfo (hour 1) datetime.utc;
     FeeCalculator.capital_usd := capital;
     FeeCalculator.web3_ops := synthetic_web3_ops |}.

(** Two rows an hour apart: the first has no close column, the second
    closes at 2320. *)
Definition quiet_frame {F : Type} `{PyFloat F} : price_frame F :=
  [ (hour 0, [("open"%string, of_Z 2000)]);
    (hour 1, [("open"%string, of_Z 2000); ("close"%string, of_Z 2320)]) ].

(** A manager holding [tracked_position] with no connection to a chain. *)
Definition offline_manager {F : Type} `{PyFloat F} : LiquidityManager.t F :=
  LiquidityManager.set_position (fresh_manager (of_Z 10000) offline_web3_ops)
    (Some tracked_position).

(** The shipped settings with range factors two and three binary64 steps
    above 1: [1 + 2^-51] and [1 + 3 * 2^-52]. *)
Definition narrow_config : Config.t float :=
  {| Config.LIQUIDITY_RANGE :=
       {| Config.lower_bound_factor :=
            PrimFloat.next_up (PrimFloat.next_up (of_Z 1));
          Config.upper_bound_factor :=
            PrimFloat.next_up
              (PrimFloat.next_up (PrimFloat.next_up (of_Z 1))) |};
     Config.SIMULATION_SETTINGS := Config.SIMULATION_SETTINGS default_config |}.

(** A manager with no connection to a chain that holds a position of
    liquidity [L] on the range [(p_a, p_b)]. *)
Definition holding {F : Type} `{PyFloat F} (L p_a p_b : F)
    : LiquidityManager.t F :=
  LiquidityManager.set_position (fresh_manager (of_Z 10000) offline_web3_ops)
    (Some {| Position.open_price := p_a;
             Position.p_a := p_a;
             Position.p_b := p_b;
             Position.open_timestamp :=
               datetime.replace_tzinfo (hour 0) datetime.utc;
             Position.capital_deployed := of_Z 10000;
             Position.L_human := L |}).

(** A snapshot with the given raw and mid price at the given timestamp, no
    fee growth, and tokens of 0 decimals. *)
Definition snapshot_at_price {F : Type} (raw mid : F) (timestamp : Z)
    : Snapshot.t F :=
  {| Snapshot.fee_growth_global0 := 0;
     Snapshot.fee_growth_global1 := 0;
     Snapshot.lower_tick_data := tick_with_outside 0 0;
     Snapshot.upper_tick_data := tick_with_outside 0 0;
     Snapshot.lower_tick := 0%Z;
     Snapshot.upper_tick := 0%Z;
     Snapshot.token0_decimals := 0%N;
     Snapshot.token1_decimals := 0%N;
     Snapshot.current_price_raw := raw;
     Snapshot.mid_price := mid;
     Snapshot.block_timestamp := timestamp;
     Snapshot.block_number := (timestamp / 2)%Z |}.

Unset Implicit Arguments.

(** * Properties *)

(** ** Reading the interface at the real numbers *)

Section RealReading.
Local Open Scope R_scope.

Lemma Rltb_true (x y : R) : x < y -> Rltb x y = true.
Proof. intros Hxy; unfold Rltb; destruct (Rlt_dec x y); [reflexivity | contradiction]. Qed.

Lemma Rltb_false (x y : R) : y <= x -> Rltb x y = false.
Proof. intros Hxy; unfold Rltb; destruct (Rlt_dec x y); [lra | reflexivity]. Qed.

Lemma Rleb_true (x y : R) : x <= y -> Rleb x y = true.
Proof. intros Hxy; unfold Rleb; destruct (Rle_dec x y); [reflexivity | contradiction]. Qed.

Lemma Rleb_false (x y : R) : y < x -> Rleb x y = false.
Proof. intros Hxy; unfold Rleb; destruct (Rle_dec x y); [lra | reflexivity]. Qed.

Lemma Reqb_true (x y : R) : x = y -> Reqb x y = true.
Proof. intros Hxy; unfold Reqb; destruct (Req_dec_T x y); [reflexivity | contradiction]. Qed.

Lemma Reqb_false (x y : R) : x <> y -> Reqb x y = false.
Proof. intros Hxy; unfold Reqb; destruct (Req_dec_T x y); [contradiction | reflexivity]. Qed.

Lemma py_truediv_R (a b : R) : b <> 0 -> py_truediv a b = Ok (a / b).
Proof.
  intros Hb. unfold py_truediv. cbn.
  rewrite Reqb_false by exact Hb. reflexivity.
Qed.

Lemma py_truediv_R_zero (a : R) :
  py_truediv a 0 = Raise (ZeroDivisionError "float division by zero").
Proof. unfold py_truediv. cbn. rewrite Reqb_true; reflexivity. Qed.

Lemma math_sqrt_R (x : R) : 0 <= x -> math_sqrt x = Ok (sqrt x).
Proof.
  intros Hx. unfold math_sqrt. cbn.
  rewrite Rltb_false by exact Hx. reflexivity.
Qed.

Lemma sqrt_pos_lt (x : R) : 0 < x -> 0 < sqrt x.
Proof. apply sqrt_lt_R0. Qed.
End RealReading.


(** ** LiquiditySizer over the reals *)

Section Sizing.
Local Open Scope R_scope.

Lemma sqrt_4 : sqrt 4 = 2.
Proof. replace 4 with (2 * 2) by lra. apply sqrt_square; lra. Qed.

Lemma sqrt_16 : sqrt 16 = 4.
Proof. replace 16 with (4 * 4) by lra. apply sqrt_square; lra. Qed.

(** Past its two guards the sizing routine divides the capital by
    [sizing_denominator], or raises when that is zero. *)
Lemma compute_liquidity_R (capital p p_a p_b : R) :
  0 < p -> 0 <= p_a -> p_a < p_b ->
  LiquidityManager._compute_liquidity_for_capital capital p p_a p_b =
  if Req_dec_T (sizing_denominator p p_a p_b) 0
  then Raise (ValueError
         "Liquidity denominator computed as zero. Check price parameters.")
  else Ok (capital / sizing_denominator p p_a p_b).
Proof.
  intros Hp Ha Hab.
  assert (Hsp : 0 < sqrt p) by (apply sqrt_lt_R0; lra).
  assert (Hsb : 0 < sqrt p_b) by (apply sqrt_lt_R0; lra).
  unfold LiquidityManager._compute_liquidity_for_capital. cbn.
  rewrite Rleb_false by lra.
  rewrite Rleb_false by lra.
  rewrite !math_sqrt_R by lra. cbn.
  rewrite !py_truediv_R by lra. cbn.
  fold (sizing_denominator p p_a p_b).
  unfold Reqb. destruct (Req_dec_T (sizing_denominator p p_a p_b) 0) as [E | E].
  - reflexivity.
  - apply py_truediv_R. exact E.
Qed.

(** With the reference price inside a proper positive range, both cost
    factors are non-negative and one of them is positive. *)
Lemma sizing_denominator_pos (p p_a p_b : R) :
  0 < p_a -> p_a < p_b -> p_a <= p <= p_b -> 0 < sizing_denominator p p_a p_b.
Proof.
  intros Ha Hab [Hlo Hhi].
  assert (Hsa : 0 < sqrt p_a) by (apply sqrt_lt_R0; lra).
  assert (Hsab : sqrt p_a < sqrt p_b) by (apply sqrt_lt_1; lra).
  assert (Hsap : sqrt p_a <= sqrt p) by (apply sqrt_le_1; lra).
  assert (Hspb : sqrt p <= sqrt p_b) by (apply sqrt_le_1; lra).
  assert (Hpp : sqrt p * sqrt p = p) by (apply sqrt_sqrt; lra).
  unfold sizing_denominator.
  set (a := sqrt p_a) in *. set (s := sqrt p) in *. set (b := sqrt p_b) in *.
  rewrite <- Hpp.
  replace ((1 / s - 1 / b) * (s * s) + (s - a))
    with ((s * (b - s) + b * (s - a)) / b) by (field; lra).
  apply Rdiv_lt_0_compat; [ | lra].
  destruct (Rle_lt_or_eq_dec _ _ Hspb) as [Hlt | Heq].
  - assert (0 < s * (b - s)) by (apply Rmult_lt_0_compat; lra).
    assert (0 <= b * (s - a)) by (apply Rmult_le_pos; lra). lra.
  - assert (0 <= s * (b - s)) by (apply Rmult_le_pos; lra).
    assert (0 < b * (s - a)) by (apply Rmult_lt_0_compat; lra). lra.
Qed.

(** C1, as amended: for a positive price and bounds
    [0 < lowerBound < upperBound], the sizing routine returns
    [capital / (token0CostFactor * price + token1CostFactor)] with
    [token0CostFactor = 1/sqrt price - 1/sqrt upperBound] and
    [token1CostFactor = sqrt price - sqrt lowerBound]: the price multiplies
    the token0 leg.  When that denominator is zero it raises instead. *)
Theorem compute_liquidity_formula (capital price lowerBound upperBound : R) :
  0 < price -> 0 < lowerBound < upperBound ->
  let token0CostFactor := 1 / sqrt price - 1 / sqrt upperBound in
  let token1CostFactor := sqrt price - sqrt lowerBound in
  let denom := token0CostFactor * price + token1CostFactor in
  (denom <> 0 ->
   LiquidityManager._compute_liquidity_for_capital
     capital price lowerBound upperBound
   = Ok (capital / denom))
  /\ (denom = 0 ->
      LiquidityManager._compute_liquidity_for_capital
        capital price lowerBound upperBound
      = Raise (ValueError
          "Liquidity denominator computed as zero. Check price parameters.")).
Proof.
  intros Hp [Hlo Hlh]. cbv zeta.
  rewrite compute_liquidity_R by lra.
  unfold sizing_denominator.
  destruct (Req_dec_T _ 0) as [E | E]; split; intros E';
    try reflexivity; contradiction.
Qed.

(** The formula at capital 10, price 4 and range (1, 16). *)
Lemma compute_liquidity_formula_witness :
  0 < 4 /\ 0 < 1 < 16
  /\ LiquidityManager._compute_liquidity_for_capital 10 4 1 16
     = Ok (10 / ((1 / sqrt 4 - 1 / sqrt 16) * 4 + (sqrt 4 - sqrt 1))).
Proof.
  split; [lra | ]. split; [lra | ].
  apply (compute_liquidity_formula 10 4 1 16); [lra | lra | ].
  rewrite sqrt_4, sqrt_16, sqrt_1. lra.
Defined.

(** C1 as stated fails: at capital 1, price 4 and range (1, 16) the code
    returns 1/2, while the formula with the price on the token1 leg gives
    4/17. *)
Lemma compute_liquidity_counterexample :
  LiquidityManager._compute_liquidity_for_capital 1 4 1 16 = Ok (1 / 2)
  /\ spec_sizeLiquidity 1 4 1 16 = 4 / 17
  /\ 1 / 2 <> 4 / 17.
Proof.
  split; [ | split].
  - rewrite compute_liquidity_R by lra.
    unfold sizing_denominator. rewrite sqrt_4, sqrt_16, sqrt_1.
    destruct (Req_dec_T _ 0) as [E | E]; [lra | ].
    f_equal. field.
  - unfold spec_sizeLiquidity. rewrite sqrt_4, sqrt_16, sqrt_1. field.
  - lra.
Qed.

(** The mixed branch of the valuation, for a price strictly inside the
    range of the stored position. *)
Lemma get_position_value_inside (self : LiquidityManager.t R)
    (pos : Position.t R) (p : R) :
  LiquidityManager.position self = Some pos ->
  0 < Position.p_a pos -> Position.p_a pos < p < Position.p_b pos ->
  LiquidityManager._get_position_value self p =
  Ok (Position.L_human pos * (1 / sqrt p - 1 / sqrt (Position.p_b pos)) * p
      + Position.L_human pos * (sqrt p - sqrt (Position.p_a pos))).
Proof.
  intros Hpos Ha [Hlo Hhi].
  assert (Hsp : 0 < sqrt p) by (apply sqrt_lt_R0; lra).
  assert (Hsb : 0 < sqrt (Position.p_b pos)) by (apply sqrt_lt_R0; lra).
  unfold LiquidityManager._get_position_value. rewrite Hpos. cbn.
  rewrite !Rleb_false by lra.
  rewrite !math_sqrt_R by lra. cbn.
  rewrite !py_truediv_R by lra. cbn.
  reflexivity.
Qed.

(** C5, as amended: in real arithmetic (Python floats read without
    rounding), sizing a position at a price strictly inside its range and
    valuing it at that same price gives back the capital, exactly, for
    every capital [> 0] and bounds [0 < lowerBound < price < upperBound].
    In binary64 this is a property of particular inputs, not of every
    input: see [round_trip_binary64] and
    [round_trip_binary64_counterexample]. *)
Theorem position_value_round_trip (capital price lowerBound upperBound : R) :
  0 < capital -> 0 < lowerBound -> lowerBound < price < upperBound ->
  exists L,
    LiquidityManager._compute_liquidity_for_capital
      capital price lowerBound upperBound = Ok L
    /\ forall (self : LiquidityManager.t R) (pos : Position.t R),
         LiquidityManager.position self = Some pos ->
         Position.p_a pos = lowerBound ->
         Position.p_b pos = upperBound ->
         Position.L_human pos = L ->
         LiquidityManager._get_position_value self price = Ok capital.
Proof.
  intros _ Hlo [Hlp Hpu].
  assert (Hd : 0 < sizing_denominator price lowerBound upperBound)
    by (apply sizing_denominator_pos; lra).
  exists (capital / sizing_denominator price lowerBound upperBound). split.
  - rewrite compute_liquidity_R by lra.
    destruct (Req_dec_T _ 0) as [E | E]; [lra | reflexivity].
  - intros self pos Hpos Ea Eb EL.
    rewrite (get_position_value_inside self pos price Hpos)
      by (rewrite ?Ea, ?Eb; lra).
    rewrite Ea, Eb, EL. f_equal.
    unfold sizing_denominator in *.
    set (x := 1 / sqrt price - 1 / sqrt upperBound) in *.
    set (y := sqrt price - sqrt lowerBound) in *.
    field. lra.
Qed.

(** The round trip at capital 10000, price 2000 and range (1700, 2300). *)
Lemma position_value_round_trip_witness :
  0 < 10000 /\ 0 < 1700 /\ 1700 < 2000 < 2300
  /\ exists L,
       LiquidityManager._compute_liquidity_for_capital 10000 2000 1700 2300
       = Ok L
       /\ forall (self : LiquidityManager.t R) (pos : Position.t R),
            LiquidityManager.position self = Some pos ->
            Position.p_a pos = 1700 ->
            Position.p_b pos = 2300 ->
            Position.L_human pos = L ->
            LiquidityManager._get_position_value self 2000 = Ok 10000.
Proof.
  split; [lra | ]. split; [lra | ]. split; [lra | ].
  apply (position_value_round_trip 10000 2000 1700 2300); lra.
Defined.
End Sizing.

(** C5 as stated fails for the program.  In binary64, with the two doubles
    next to 100 as bounds, sizing capital 10000 at price 100 raises on a
    zero denominator: there is no liquidity to value.  And capital
    [10^308] sized at price 100 on the range (99, 101) overflows to an
    infinite liquidity, which values at infinity, not at the capital. *)
Lemma round_trip_binary64_counterexample :
  fltb (F := float) (of_Z 0) (of_Z 10000) = true
  /\ fltb (F := float) (of_Z 0) (PrimFloat.next_down (of_Z 100)) = true
  /\ fltb (F := float) (PrimFloat.next_down (of_Z 100)) (of_Z 100) = true
  /\ fltb (F := float) (of_Z 100) (PrimFloat.next_up (of_Z 100)) = true
  /\ LiquidityManager._compute_liquidity_for_capital (F := float)
       (of_Z 10000) (of_Z 100)
       (PrimFloat.next_down (of_Z 100)) (PrimFloat.next_up (of_Z 100))
     = Raise (ValueError
         "Liquidity denominator computed as zero. Check price parameters.")
  /\ fltb (F := float) (of_Z 0) (of_Z (10 ^ 308)) = true
  /\ fltb (F := float) (of_Z (10 ^ 308)) PrimFloat.infinity = true
  /\ LiquidityManager._compute_liquidity_for_capital (F := float)
       (of_Z (10 ^ 308)) (of_Z 100) (of_Z 99) (of_Z 101)
     = Ok PrimFloat.infinity
  /\ LiquidityManager._get_position_value
       (holding PrimFloat.infinity (of_Z 99) (of_Z 101)) (of_Z 100)
     = Ok PrimFloat.infinity.
Proof. repeat split; vm_compute; reflexivity. Qed.


(** ** PositionLifecycleManager: what each operation leaves behind *)

Section Lifecycle.
Context {F : Type} `{PyFloat F} `{PyLog F}.
Variable module_config : Config.t F.
Local Open Scope py_scope.

(** [open_position], one guard at a time. *)
Lemma open_position_eq (self : LiquidityManager.t F) (price : F)
    (ts : datetime.t) :
  let range := Config.LIQUIDITY_RANGE (LiquidityManager.config self) in
  let p_a := price * Config.lower_bound_factor range in
  let p_b := price * Config.upper_bound_factor range in
  LiquidityManager.open_position price ts self =
  if p_a >=? p_b then
    (Raise (ValueError "Invalid bounds: lower bound must be < upper bound."),
     self)
  else
    match LiquidityManager._compute_liquidity_for_capital
            (LiquidityManager.current_capital self)
            (py_max (py_min price p_b) p_a) p_a p_b with
    | Raise e => (Raise e, self)
    | Ok L =>
        let pos :=
          {| Position.open_price := price;
             Position.p_a := p_a;
             Position.p_b := p_b;
             Position.open_timestamp := LiquidityManager.ensure_utc ts;
             Position.capital_deployed := LiquidityManager.current_capital self;
             Position.L_human := L |} in
        (Ok pos, LiquidityManager.set_position self (Some pos))
    end.
Proof.
  cbv zeta.
  unfold LiquidityManager.open_position, bindM, gets, lift, modify, ret, raise.
  destruct (fleb _ _); [reflexivity | ].
  destruct (LiquidityManager._compute_liquidity_for_capital _ _ _ _);
    reflexivity.
Qed.

(** [close_position], one step at a time: nothing is written before the
    valuation and the fee calculation have both returned. *)
Lemma close_position_eq (self : LiquidityManager.t F) (price : F)
    (ts : datetime.t) :
  LiquidityManager.close_position module_config price ts self =
  match LiquidityManager.position self with
  | None => (Ok (LiquidityManager.current_capital self), self)
  | Some pos =>
      match LiquidityManager._get_position_value self price with
      | Raise e => (Raise e, self)
      | Ok value =>
          match FeeCalculator.calculate_fees module_config
                  (closing_fee_calculator self pos ts) (Some price) None with
          | Raise e => (Raise e, self)
          | Ok fees =>
              let total_value :=
                value * (of_Z 1 - LiquidityManager.slippage_factor self)
                + FeesResult.total_fees_usd fees in
              (Ok total_value,
               LiquidityManager.set_position
                 (LiquidityManager.set_current_capital self total_value) None)
          end
      end
  end.
Proof.
  unfold LiquidityManager.close_position, bindM, gets, lift, modify, ret.
  destruct (LiquidityManager.position self) as [pos | ]; [ | reflexivity].
  destruct (LiquidityManager._get_position_value self price) as [value | e];
    [ | reflexivity].
  fold (closing_fee_calculator self pos ts).
  destruct (FeeCalculator.calculate_fees module_config _ _ _) as [fees | e];
    reflexivity.
Qed.

(** [rebalance_position] is [close_position] followed, if it returned, by
    [open_position] on the manager it left. *)
Lemma rebalance_position_eq (self : LiquidityManager.t F) (price : F)
    (ts : datetime.t) :
  LiquidityManager.rebalance_position module_config price ts self =
  match LiquidityManager.close_position module_config price ts self with
  | (Raise e, self1) => (Raise e, self1)
  | (Ok _, self1) =>
      match LiquidityManager.open_position price ts self1 with
      | (Raise e, self2) => (Raise e, self2)
      | (Ok pos, self2) =>
          (Ok (pos, LiquidityManager.current_capital self2), self2)
      end
  end.
Proof.
  unfold LiquidityManager.rebalance_position, bindM at 1.
  destruct (LiquidityManager.close_position module_config price ts self)
    as [[c | e] self1]; [ | reflexivity].
  unfold bindM at 1.
  destruct (LiquidityManager.open_position price ts self1)
    as [[pos | e] self2]; reflexivity.
Qed.

Lemma open_position_raises (self self' : LiquidityManager.t F) (price : F)
    (ts : datetime.t) (e : exn) :
  LiquidityManager.open_position price ts self = (Raise e, self') ->
  self' = self.
Proof.
  rewrite open_position_eq. cbv zeta.
  destruct (fleb _ _); [intros [= _ <-]; reflexivity | ].
  destruct (LiquidityManager._compute_liquidity_for_capital _ _ _ _);
    [discriminate | intros [= _ <-]; reflexivity].
Qed.

Lemma open_position_keeps_capital (self : LiquidityManager.t F) (price : F)
    (ts : datetime.t) :
  LiquidityManager.current_capital
    (snd (LiquidityManager.open_position price ts self))
  = LiquidityManager.current_capital self.
Proof.
  rewrite open_position_eq. cbv zeta.
  destruct (fleb _ _); [reflexivity | ].
  destruct (LiquidityManager._compute_liquidity_for_capital _ _ _ _);
    reflexivity.
Qed.

Lemma close_position_raises (self self' : LiquidityManager.t F) (price : F)
    (ts : datetime.t) (e : exn) :
  LiquidityManager.close_position module_config price ts self
  = (Raise e, self') ->
  self' = self.
Proof.
  rewrite close_position_eq.
  destruct (LiquidityManager.position self); [ | discriminate].
  destruct (LiquidityManager._get_position_value self price);
    [ | intros [= _ <-]; reflexivity].
  destruct (FeeCalculator.calculate_fees _ _ _ _);
    [discriminate | intros [= _ <-]; reflexivity].
Qed.

Lemma outcome_raised {A : Type} (r : result A * LiquidityManager.t F)
    (e : exn) (self' : LiquidityManager.t F) :
  outcome r = (Some e, self') -> r = (Raise e, self').
Proof.
  destruct r as [[a | e0] s]; cbn; [discriminate | ].
  intros [= -> ->]. reflexivity.
Qed.

(** A rebalance that raises did so in its close step, or there was no
    position, or its close step had returned and its open step raised. *)
Lemma rebalance_position_raises (self self' : LiquidityManager.t F)
    (price : F) (ts : datetime.t) (e : exn) :
  LiquidityManager.rebalance_position module_config price ts self
  = (Raise e, self') ->
  self' = self
  \/ exists pos capital,
       LiquidityManager.position self = Some pos
       /\ LiquidityManager.close_position module_config price ts self
          = (Ok capital, self')
       /\ LiquidityManager.open_position price ts self' = (Raise e, self')
       /\ LiquidityManager.position self' = None
       /\ LiquidityManager.current_capital self' = capital.
Proof.
  intros Hrun. rewrite rebalance_position_eq in Hrun.
  destruct (LiquidityManager.close_position module_config price ts self)
    as [[capital | e1] self1] eqn:Hclose.
  - destruct (LiquidityManager.open_position price ts self1)
      as [[pos | e2] self2] eqn:Hopen; [discriminate | ].
    injection Hrun as -> ->.
    pose proof (open_position_raises _ _ _ _ _ Hopen) as ->.
    pose proof Hclose as Hclose'. rewrite close_position_eq in Hclose'.
    destruct (LiquidityManager.position self) as [pos | ] eqn:Hpos.
    + destruct (LiquidityManager._get_position_value self price);
        [ | discriminate].
      destruct (FeeCalculator.calculate_fees _ _ _ _); [ | discriminate].
      right. exists pos, capital.
      split; [reflexivity | ]. split; [reflexivity | ].
      split; [exact Hopen | ].
      injection Hclose' as <- <-. split; reflexivity.
    + injection Hclose' as _ <-. left. reflexivity.
  - injection Hrun as -> ->. left.
    exact (close_position_raises _ _ _ _ _ Hclose).
Qed.

(** C4, as amended: when [open] or [close] raises, the stored position
    and the current capital are exactly as before the call.  When
    [rebalance] raises, either they are as before (its close step raised,
    or there was no position and the open step raised), or its close step
    had returned and its open step raised: the manager is then left
    [Empty], holding the capital the close step wrote. *)
Theorem failed_operation_state (op : operation)
    (self self' : LiquidityManager.t F) (price : F) (ts : datetime.t)
    (e : exn) :
  run_operation module_config op price ts self = (Some e, self') ->
  self' = self
  \/ (op = Rebalance
      /\ exists pos capital,
           LiquidityManager.position self = Some pos
           /\ LiquidityManager.close_position module_config price ts self
              = (Ok capital, self')
           /\ LiquidityManager.open_position price ts self' = (Raise e, self')
           /\ LiquidityManager.position self' = None
           /\ LiquidityManager.current_capital self' = capital).
Proof.
  destruct op; cbn [run_operation]; intros Hrun;
    apply outcome_raised in Hrun.
  - left. exact (open_position_raises _ _ _ _ _ Hrun).
  - left. exact (close_position_raises _ _ _ _ _ Hrun).
  - destruct (rebalance_position_raises _ _ _ _ _ Hrun) as [Hsame | Hhalf].
    + left. exact Hsame.
    + right. split; [reflexivity | exact Hhalf].
Qed.

(** C9: [open_position] and [get_position_value] leave the current capital
    as it was.  [close_position] on an open position values the position
    and computes the fees of the period; when both return it writes the
    value less slippage plus the fees as the current capital, clears the
    position and returns that capital, and when either raises it raises
    the same exception and leaves the manager untouched.  On an empty
    manager it returns the capital and changes nothing.
    [rebalance_position] leaves the capital its close step wrote. *)
Theorem current_capital_mutated_only_by_close (self : LiquidityManager.t F)
    (price : F) (ts : datetime.t) :
  LiquidityManager.current_capital
    (snd (LiquidityManager.open_position price ts self))
  = LiquidityManager.current_capital self
  /\ snd (LiquidityManager.get_position_value price self) = self
  /\ match LiquidityManager.position self with
     | None =>
         LiquidityManager.close_position module_config price ts self
         = (Ok (LiquidityManager.current_capital self), self)
     | Some pos =>
         match LiquidityManager._get_position_value self price with
         | Raise e =>
             LiquidityManager.close_position module_config price ts self
             = (Raise e, self)
         | Ok value =>
             match FeeCalculator.calculate_fees module_config
                     (closing_fee_calculator self pos ts) (Some price) None
             with
             | Raise e =>
                 LiquidityManager.close_position module_config price ts self
                 = (Raise e, self)
             | Ok fees =>
                 let capital :=
                   value * (of_Z 1 - LiquidityManager.slippage_factor self)
                   + FeesResult.total_fees_usd fees in
                 LiquidityManager.close_position module_config price ts self
                 = (Ok capital,
                    LiquidityManager.set_position
                      (LiquidityManager.set_current_capital self capital)
                      None)
                 /\ LiquidityManager.current_capital
                      (snd (LiquidityManager.close_position module_config
                              price ts self)) = capital
                 /\ LiquidityManager.position
                      (snd (LiquidityManager.close_position module_config
                              price ts self)) = None
             end
         end
     end
  /\ LiquidityManager.current_capital
       (snd (LiquidityManager.rebalance_position module_config price ts self))
     = LiquidityManager.current_capital
         (snd (LiquidityManager.close_position module_config price ts self)).
Proof.
  split; [apply open_position_keeps_capital | ].
  split; [reflexivity | ].
  split.
  - rewrite close_position_eq.
    destruct (LiquidityManager.position self) as [pos | ]; [ | reflexivity].
    destruct (LiquidityManager._get_position_value self price) as [value | e];
      [ | reflexivity].
    destruct (FeeCalculator.calculate_fees _ _ _ _) as [fees | e];
      [ | reflexivity].
    cbv zeta. repeat split; reflexivity.
  - rewrite rebalance_position_eq.
    destruct (LiquidityManager.close_position module_config price ts self)
      as [[capital | e] self1]; [ | reflexivity].
    pose proof (open_position_keeps_capital self1 price ts) as Hkeep.
    destruct (LiquidityManager.open_position price ts self1)
      as [[pos | e] self2]; exact Hkeep.
Qed.
End Lifecycle.


(** Opening at price 0 raises on the bounds and leaves a fresh manager as
    it was. *)
Lemma failed_operation_state_witness :
  run_operation (F := R) default_config Open 0%R (hour 0)
    (fresh_manager 10000%R offline_web3_ops)
  = (Some (ValueError "Invalid bounds: lower bound must be < upper bound."),
     fresh_manager 10000%R offline_web3_ops)
  /\ (fresh_manager 10000%R offline_web3_ops
      = fresh_manager 10000%R offline_web3_ops
      \/ (Open = Rebalance
          /\ exists pos capital,
               LiquidityManager.position
                 (fresh_manager 10000%R offline_web3_ops) = Some pos
               /\ LiquidityManager.close_position default_config 0%R (hour 0)
                    (fresh_manager 10000%R offline_web3_ops)
                  = (Ok capital, fresh_manager 10000%R offline_web3_ops)
               /\ LiquidityManager.open_position 0%R (hour 0)
                    (fresh_manager 10000%R offline_web3_ops)
                  = (Raise (ValueError
                       "Invalid bounds: lower bound must be < upper bound."),
                     fresh_manager 10000%R offline_web3_ops)
               /\ LiquidityManager.position
                    (fresh_manager 10000%R offline_web3_ops) = None
               /\ LiquidityManager.current_capital
                    (fresh_manager 10000%R offline_web3_ops) = capital)).
Proof.
  assert (Hrun :
    run_operation (F := R) default_config Open 0%R (hour 0)
      (fresh_manager 10000%R offline_web3_ops)
    = (Some (ValueError "Invalid bounds: lower bound must be < upper bound."),
       fresh_manager 10000%R offline_web3_ops)).
  { cbn [run_operation]. rewrite open_position_eq. cbv zeta.
    cbn [fleb fmul R_PyFloat]. rewrite Rleb_true by lra. reflexivity. }
  split; [exact Hrun | ].
  exact (failed_operation_state default_config Open _ _ 0%R (hour 0) _ Hrun).
Defined.


(** ** BlockResolver *)

Section Bisection.
Local Open Scope Z_scope.
Variables (block_time target tol : Z).
Hypothesis block_time_pos : 0 < block_time.

(** The midpoint of a proper bracket lies inside it. *)
Lemma midpoint_bounds (low high : Z) :
  low < high -> low <= (low + high) / 2 < high.
Proof.
  intros Hlt.
  split.
  - apply Z.div_le_lower_bound; lia.
  - apply Z.div_lt_upper_bound; lia.
Qed.

Lemma pow2_half (n k : Z) : 0 < n -> n < 2 ^ k -> 0 < k /\ 2 ^ k = 2 * 2 ^ (k - 1).
Proof.
  intros Hn Hk.
  assert (0 < k).
  { destruct (Z_lt_le_dec 0 k) as [ | Hle]; [assumption | ].
    destruct (Z.eq_dec k 0) as [-> | Hne].
    - simpl in Hk. lia.
    - rewrite Z.pow_neg_r in Hk by lia. lia. }
  split; [assumption | ].
  replace k with (Z.succ (k - 1)) at 1 by lia.
  apply Z.pow_succ_r. lia.
Qed.

(** The loop invariant of the bisection on a uniform chain: every block
    below [low] is too early, block [high] is late enough, and the fuel
    left covers the bracket.  The loop then returns the first block at or
    after the target, unless it stops early on a block within tolerance. *)
Lemma bisect_uniform (latest_num : Z) (fuel : nat) :
  forall low high,
    0 <= low <= high -> high <= latest_num ->
    (forall b, 0 <= b < low -> b * block_time < target) ->
    target <= high * block_time ->
    high - low < 2 ^ (Z.of_nat fuel - 1) ->
    exists b,
      bisect (uniform_chain latest_num block_time) target tol fuel low high = Ok b
      /\ low <= b <= high
      /\ ((target <= b * block_time
           /\ forall b', 0 <= b' < b -> b' * block_time < target)
          \/ Z.abs (b * block_time - target) <= tol).
Proof.
  induction fuel as [ | fuel IH]; intros low high Hlh Hhi Hbelow Habove Hsize.
  - exfalso. change (2 ^ (Z.of_nat 0 - 1)) with 0 in Hsize. lia.
  - cbn [bisect].
    destruct (Z.ltb_spec low high) as [Hlt | Hge].
    + pose proof (midpoint_bounds low high Hlt) as Hmid.
      set (mid := (low + high) / 2) in *.
      cbn [uniform_chain Web3.get_block Web3.block_timestamp bind].
      assert (Hmid2 : 2 * mid <= low + high < 2 * mid + 2).
      { unfold mid. pose proof (Z.div_mod (low + high) 2 ltac:(lia)).
        pose proof (Z.mod_pos_bound (low + high) 2 ltac:(lia)). lia. }
      destruct (pow2_half (high - low) (Z.of_nat (S fuel) - 1) ltac:(lia) Hsize)
        as [Hk Hpow].
      replace (Z.of_nat (S fuel) - 1 - 1) with (Z.of_nat fuel - 1) in Hpow by lia.
      destruct (Z.leb_spec (Z.abs (mid * block_time - target)) tol) as [Htol | Htol].
      * destruct (mid * block_time <? target); exists mid; (split; [reflexivity | ]);
          (split; [lia | right; exact Htol]).
      * destruct (Z.ltb_spec (mid * block_time) target) as [Hts | Hts].
        -- destruct (IH (mid + 1) high) as (b & Hb & Hrange & Hpost); try lia.
           ++ intros b Hb. assert (b * block_time <= mid * block_time) by nia. lia.
           ++ exists b. split; [exact Hb | ]. split; [lia | exact Hpost].
        -- destruct (IH low mid) as (b & Hb & Hrange & Hpost); try lia.
           ++ exact Hbelow.
           ++ exists b. split; [exact Hb | ]. split; [lia | exact Hpost].
    + exists low. split; [reflexivity | ]. split; [lia | ].
      left. assert (low = high) by lia. subst high. split; [lia | exact Hbelow].
Qed.
End Bisection.

Local Open Scope Z_scope.

(** C3, as amended: on a chain with uniform block spacing and a target not
    after the head, [get_block_by_timestamp] returns, within [max_tries]
    bisection steps whenever [latest_num < 2 ^ (max_tries - 1)], either
    the smallest block whose timestamp is at least the target, or (only
    for a positive tolerance) a block whose timestamp lies within
    [tolerance_seconds] of the target. *)
Theorem resolve_uniform_chain {F : Type} `{PyFloat F}
    (latest_num block_time target_ts tolerance_seconds max_tries : Z) :
  0 < block_time -> 0 <= latest_num ->
  target_ts <= latest_num * block_time ->
  latest_num < 2 ^ (max_tries - 1) ->
  exists b,
    get_block_by_timestamp (F := F) (uniform_chain latest_num block_time)
      (TInt target_ts) None tolerance_seconds max_tries = Ok b
    /\ (first_block_at_or_after block_time latest_num target_ts b
        \/ (0 < tolerance_seconds
            /\ 0 <= b <= latest_num
            /\ Z.abs (b * block_time - target_ts) <= tolerance_seconds)).
Proof.
  intros Hbt Hlatest Htarget Hsize.
  assert (Hstrict : forall a b, a < b -> a * block_time < b * block_time) by (intros; nia).
  assert (Hexact : forall b, 0 <= b <= latest_num ->
            Z.abs (b * block_time - target_ts) <= 0 ->
            first_block_at_or_after block_time latest_num target_ts b).
  { intros b Hb Habs. assert (b * block_time = target_ts) by lia.
    split; [exact Hb | ]. split; [lia | ]. intros b' Hb'.
    specialize (Hstrict b' b ltac:(lia)). lia. }
  unfold get_block_by_timestamp.
  cbn [bind uniform_chain Web3.get_block Web3.block_timestamp Web3.block_number initial_window].
  destruct (Z.gtb_spec target_ts (latest_num * block_time)) as [Hfut | _]; [lia | ].
  destruct (Z.leb_spec (Z.abs (latest_num * block_time - target_ts)) tolerance_seconds)
    as [Hquick | Hquick].
  - exists latest_num. split; [reflexivity | ].
    destruct (Z_lt_le_dec 0 tolerance_seconds) as [Hpos | Hnonpos].
    + right. split; [exact Hpos | ]. split; [lia | exact Hquick].
    + left. apply Hexact; lia.
  - destruct (bisect_uniform block_time target_ts tolerance_seconds Hbt latest_num
                (Z.to_nat max_tries) 0 latest_num)
      as (b & Hb & Hrange & Hpost); try lia.
    + assert (0 < max_tries).
      { destruct (Z_lt_le_dec 0 max_tries); [assumption | ].
        destruct (Z.eq_dec max_tries 0) as [-> | ]; [simpl in Hsize; lia | ].
        rewrite Z.pow_neg_r in Hsize by lia. lia. }
      rewrite Z2Nat.id by lia. lia.
    + exists b. split; [exact Hb | ].
      destruct Hpost as [[Hge Hfirst] | Hwithin].
      * left. split; [lia | ]. split; assumption.
      * destruct (Z_lt_le_dec 0 tolerance_seconds) as [Hpos | Hnonpos].
        -- right. split; [exact Hpos | ]. split; [lia | exact Hwithin].
        -- left. apply Hexact; lia.
Qed.

(** C3 as stated fails: with 2 s blocks and head 100, the target 196 is
    within the default tolerance of the head, so block 100 is returned,
    while block 98 already carries timestamp 196. *)
Lemma resolve_default_tolerance_counterexample :
  get_block_by_timestamp (F := float) (uniform_chain 100 2) (TInt 196) None
    default_tolerance_seconds default_max_tries = Ok 100
  /\ ~ first_block_at_or_after 2 100 196 100.
Proof.
  split.
  - vm_compute. reflexivity.
  - intros (_ & _ & Hfirst). specialize (Hfirst 98 ltac:(lia)). lia.
Qed.

(** With 2 s blocks, head 100 and the default tolerance and tries, the
    target 150 resolves to a block within the theorem's bounds. *)
Lemma resolve_uniform_chain_witness :
  (0 < 2)%Z /\ (0 <= 100)%Z /\ (150 <= 100 * 2)%Z /\ (100 < 2 ^ (50 - 1))%Z
  /\ exists b,
       get_block_by_timestamp (F := float) (uniform_chain 100 2) (TInt 150)
         None 5 50 = Ok b
       /\ (first_block_at_or_after 2 100 150 b
           \/ (0 < 5 /\ 0 <= b <= 100 /\ Z.abs (b * 2 - 150) <= 5))%Z.
Proof.
  split; [lia | ]. split; [lia | ]. split; [lia | ].
  split; [reflexivity | ].
  apply (resolve_uniform_chain (F := float) 100 2 150 5 50);
    [lia | lia | lia | reflexivity].
Defined.


(** ** BacktestLoop policy *)

Section Policy.
Context {F : Type} `{PyFloat F} `{PyLog F}.
Variable config : Config.t F.
Local Open Scope py_scope.

(** The guard of the wick block, [cooldown_until is None or timestamp >=
    cooldown_until], is the negation of being inside a cooldown. *)
Lemma wick_guard_is_not_in_cooldown (cooldown : option datetime.t)
    (timestamp : datetime.t) :
  match cooldown with
  | None => true
  | Some until => datetime.leb until timestamp
  end = negb (in_cooldown cooldown timestamp).
Proof.
  destruct cooldown as [until | ]; [ | reflexivity].
  unfold in_cooldown, datetime.leb, datetime.ltb. apply Z.leb_antisym.
Qed.

(** C2, as amended: at a step whose lookback price change reaches the
    wick threshold, [cooldown_until] is set to the timestamp plus the
    cooldown hours when no cooldown is set or the timestamp has reached
    it; a wick strictly inside an active cooldown window leaves
    [cooldown_until], and the rest of the state, unchanged. *)
Theorem wick_sets_cooldown_unless_active (price_data : price_frame F)
    (close_col : string) (current_price past_price : F)
    (timestamp : datetime.t) (past_row : datetime.t * row F)
    (st : Main.state F) :
  let settings := Config.SIMULATION_SETTINGS config in
  let lookback_time :=
    datetime.sub_hours timestamp (Config.wick_lookback_hours settings) in
  iloc_last (filter (fun r => datetime.leb (fst r) lookback_time) price_data)
  = Some past_row ->
  row_get (snd past_row) close_col = Ok past_price ->
  (fdiv (fabs (current_price - past_price)) past_price
   >=? Config.wick_threshold settings) = true ->
  Main.wick_cooldown_logic config price_data close_col current_price
    timestamp st
  = (Ok tt,
     if in_cooldown (Main.cooldown_until st) timestamp then st
     else Main.set_cooldown_until st
            (Some (datetime.add_hours timestamp
                     (Config.wick_cooldown_hours settings)))).
Proof.
  intros settings lookback_time Hpast Hrow Hwick.
  unfold Main.wick_cooldown_logic. fold settings. unfold Main.settings.
  fold settings. fold lookback_time.
  rewrite Hpast.
  unfold bindM, lift, gets, modify, ret. rewrite Hrow. rewrite Hwick.
  rewrite wick_guard_is_not_in_cooldown.
  destruct (in_cooldown (Main.cooldown_until st) timestamp); reflexivity.
Qed.

(** The rebalancing block, one decision at a time. *)
Lemma buffered_rebalancing_logic_eq (st : Main.state F)
    (pos : Position.t F) (price : F) (timestamp : datetime.t) :
  LiquidityManager.position (Main.lm st) = Some pos ->
  Main.buffered_rebalancing_logic config price timestamp st =
  if buffer_breached config (Position.p_a pos) (Position.p_b pos) price then
    if in_cooldown (Main.cooldown_until st) timestamp then (Ok tt, st)
    else
      match LiquidityManager.rebalance_position config price timestamp
              (Main.lm st) with
      | (Raise e, lm') => (Raise e, Main.set_lm st lm')
      | (Ok _, lm') =>
          let st' :=
            Main.set_rebalance_count (Main.set_lm st lm')
              (Main.rebalance_count st + 1)%Z in
          match LiquidityManager._get_position_value lm' price with
          | Raise e => (Raise e, st')
          | Ok value =>
              (Ok tt,
               Main.set_recorder st'
                 (PositionRecorder.record_rebalance timestamp value price
                    (Main.recorder st)))
          end
      end
  else (Ok tt, st).
Proof.
  intros Hpos.
  unfold Main.buffered_rebalancing_logic, buffer_breached, Main.settings.
  unfold bindM at 1, gets at 1. cbv beta iota. rewrite Hpos.
  destruct (_ || _)%bool; [ | reflexivity].
  unfold bindM at 1, gets at 1. cbv beta iota.
  fold (in_cooldown (Main.cooldown_until st) timestamp).
  destruct (in_cooldown (Main.cooldown_until st) timestamp); [reflexivity | ].
  unfold bindM at 1, Main.on_lm at 1. cbv beta iota.
  destruct (LiquidityManager.rebalance_position config price timestamp
              (Main.lm st)) as [[r | e] lm']; [ | reflexivity].
  unfold bindM at 1, modify at 1. cbv beta iota.
  unfold bindM at 1, Main.on_lm at 1. cbv beta iota.
  unfold LiquidityManager.get_position_value, bindM at 1, gets, lift.
  cbn [Main.lm Main.set_rebalance_count Main.set_lm].
  destruct (LiquidityManager._get_position_value lm' price) as [v | e];
    destruct st; reflexivity.
Qed.

(** What the rebalancing block does to the loop state, by the breach test
    and the cooldown test. *)
Lemma rebalancing_decision (st : Main.state F)
    (pos : Position.t F) (price : F) (timestamp : datetime.t) :
  LiquidityManager.position (Main.lm st) = Some pos ->
  let step := Main.buffered_rebalancing_logic config price timestamp st in
  if buffer_breached config (Position.p_a pos) (Position.p_b pos) price
     && negb (in_cooldown (Main.cooldown_until st) timestamp)
  then
    match LiquidityManager.rebalance_position config price timestamp
            (Main.lm st) with
    | (Raise e, lm') => step = (Raise e, Main.set_lm st lm')
    | (Ok _, lm') =>
        Main.rebalance_count (snd step) = (Main.rebalance_count st + 1)%Z
        /\ Main.lm (snd step) = lm'
    end
  else step = (Ok tt, st).
Proof.
  intros Hpos step. subst step.
  rewrite (buffered_rebalancing_logic_eq st pos price timestamp Hpos).
  destruct (buffer_breached _ _ _ _); cbn [andb]; [ | reflexivity].
  destruct (in_cooldown _ _); cbn [negb]; [reflexivity | ].
  destruct (LiquidityManager.rebalance_position config price timestamp
              (Main.lm st)) as [[r | e] lm']; [ | reflexivity].
  cbv zeta.
  destruct (LiquidityManager._get_position_value lm' price);
    split; reflexivity.
Qed.
End Policy.


(** With no cooldown set, the 20% wick at hour 12 sets the cooldown to
    hour 16. *)
Lemma wick_sets_cooldown_unless_active_witness :
  Main.wick_cooldown_logic (F := float) default_config wick_frame "close"
    (of_Z 120) (hour 12) (Main.initial_state default_config offline_web3_ops)
  = (Ok tt,
     Main.set_cooldown_until (Main.initial_state default_config offline_web3_ops)
       (Some (hour 16))).
Proof.
  apply (wick_sets_cooldown_unless_active (F := float) default_config
           wick_frame "close" (of_Z 120) (of_Z 100) (hour 12)
           (hour 0, [("open"%string, of_Z 99); ("close"%string, of_Z 100)])
           (Main.initial_state default_config offline_web3_ops));
    vm_compute; reflexivity.
Defined.

(** C2 as stated fails: at hour 12 the close is 20% above its value twelve
    hours earlier, a cooldown runs until hour 14, and the wick block
    leaves it at hour 14 instead of moving it to hour 16. *)
Lemma wick_inside_cooldown_counterexample :
  fleb (Config.wick_threshold (Config.SIMULATION_SETTINGS (default_config (F:=float))))
       (fdiv (fabs (fsub (of_Z 120) (of_Z 100))) (of_Z 100)) = true
  /\ in_cooldown (Main.cooldown_until (cooling_state (F:=float))) (hour 12) = true
  /\ Main.cooldown_until
       (snd (Main.wick_cooldown_logic (F:=float) default_config wick_frame "close"
               (of_Z 120) (hour 12) cooling_state))
     = Some (hour 14)
  /\ hour 14 <> datetime.add_hours (hour 12) 4.
Proof.
  split; [vm_compute; reflexivity | ].
  split; [vm_compute; reflexivity | ].
  split; [vm_compute; reflexivity | ].
  vm_compute. discriminate.
Qed.

(** C8: at a loop step with an open position, the rebalancing block calls
    [rebalance_position] (and, when that returns, has incremented the
    counter) exactly when the price breaches the buffered range and the
    step is not inside an active cooldown; otherwise it leaves the whole
    loop state as it was.  With range (1700, 2300) and a 1% buffer, 2324
    breaches and 2320 does not. *)
Theorem rebalance_exactly_on_breach_outside_cooldown :
  (forall (F : Type) (HF : PyFloat F) (HL : PyLog F) (config : Config.t F)
          (st : Main.state F) (pos : Position.t F) (price : F)
          (timestamp : datetime.t),
     LiquidityManager.position (Main.lm st) = Some pos ->
     let step := Main.buffered_rebalancing_logic config price timestamp st in
     if buffer_breached config (Position.p_a pos) (Position.p_b pos) price
        && negb (in_cooldown (Main.cooldown_until st) timestamp)
     then
       match LiquidityManager.rebalance_position config price timestamp
               (Main.lm st) with
       | (Raise e, lm') => step = (Raise e, Main.set_lm st lm')
       | (Ok _, lm') =>
           Main.rebalance_count (snd step) = (Main.rebalance_count st + 1)%Z
           /\ Main.lm (snd step) = lm'
       end
     else step = (Ok tt, st))
  /\ buffer_breached (F := float) default_config
       (of_Z 1700) (of_Z 2300) (of_Z 2324) = true
  /\ buffer_breached (F := float) default_config
       (of_Z 1700) (of_Z 2300) (of_Z 2320) = false.
Proof.
  split; [ | split; vm_compute; reflexivity].
  intros F HF HL config st pos price timestamp.
  apply rebalancing_decision.
Qed.

(** The decision at price 2324 for the state holding the position around
    (1700, 2300). *)
Lemma rebalance_exactly_on_breach_outside_cooldown_witness :
  LiquidityManager.position (Main.lm (tracking_state (F := R)))
  = Some {| Position.open_price := 2000%R;
            Position.p_a := 1700%R;
            Position.p_b := 2300%R;
            Position.open_timestamp :=
              datetime.replace_tzinfo (hour 0) datetime.utc;
            Position.capital_deployed := 10000%R;
            Position.L_human := 1536%R |}
  /\ (let step :=
        Main.buffered_rebalancing_logic default_config 2324%R (hour 1)
          tracking_state in
      if buffer_breached default_config 1700%R 2300%R 2324%R
         && negb (in_cooldown None (hour 1))
      then
        match LiquidityManager.rebalance_position default_config 2324%R
                (hour 1) (Main.lm tracking_state) with
        | (Raise e, lm') => step = (Raise e, Main.set_lm tracking_state lm')
        | (Ok _, lm') =>
            Main.rebalance_count (snd step) = (0 + 1)%Z
            /\ Main.lm (snd step) = lm'
        end
      else step = (Ok tt, tracking_state)).
Proof.
  split; [reflexivity | ].
  exact (proj1 rebalance_exactly_on_breach_outside_cooldown R _ _
           default_config tracking_state
           {| Position.open_price := 2000%R;
              Position.p_a := 1700%R;
              Position.p_b := 2300%R;
              Position.open_timestamp :=
                datetime.replace_tzinfo (hour 0) datetime.utc;
              Position.capital_deployed := 10000%R;
              Position.L_human := 1536%R |}
           2324%R (hour 1) eq_refl).
Defined.

(** ** Fee-growth deltas *)

(** C6: the fee-growth delta of two snapshots is, per token, the signed
    integer difference of their inside-growth values, with no reduction
    modulo the counter width: across a wraparound of the global counter
    (from [2^256 - 1] to 5) it is the negative number [6 - 2^256]. *)
Theorem fee_growth_delta_is_raw_difference :
  (forall (F : Type) (snapshot0 snapshot1 : Snapshot.t F),
     FeeCalculator.compute_fee_growth_delta snapshot0 snapshot1
     = ((fee_growth_inside0 snapshot1 - fee_growth_inside0 snapshot0)%Z,
        (fee_growth_inside1 snapshot1 - fee_growth_inside1 snapshot0)%Z))
  /\ FeeCalculator.compute_fee_growth_delta
       (snapshot_with_globals (F := float) (2 ^ 256 - 1) (2 ^ 256 - 1) 0)
       (snapshot_with_globals (F := float) 5 7 3600)
     = ((6 - 2 ^ 256)%Z, (8 - 2 ^ 256)%Z)
  /\ (6 - 2 ^ 256 < 0)%Z /\ (8 - 2 ^ 256 < 0)%Z.
Proof.
  split; [intros F snapshot0 snapshot1; reflexivity | ].
  split; [vm_compute; reflexivity | ].
  split; vm_compute; reflexivity.
Qed.


(** ** FeeAccrualCalculator over the reals *)

Section FeesOverReals.
Local Open Scope R_scope.
Variable config : Config.t R.

Lemma IZR_pow10_pos (d : N) : 0 < IZR (10 ^ Z.of_N d).
Proof. apply IZR_lt. apply Z.pow_pos_nonneg; lia. Qed.

Lemma IZR_scaling_nonzero : IZR (2 ^ 128) <> 0.
Proof. apply not_0_IZR. apply Z.pow_nonzero; lia. Qed.

(** Once the simulated liquidity is in hand, [compute_fees_and_apr] checks
    the period, then divides by the capital. *)
Lemma compute_fees_and_apr_R (self : FeeCalculator.t R)
    (snapshot0 snapshot1 : Snapshot.t R)
    (override_liquidity_snapshot : option (Snapshot.t R)) (L : R) :
  simulated_liquidity_of config self snapshot1 override_liquidity_snapshot
  = Ok L ->
  let human_price :=
    Snapshot.mid_price
      (liquidity_snapshot snapshot1 override_liquidity_snapshot) in
  let delta := FeeCalculator.compute_fee_growth_delta snapshot0 snapshot1 in
  let fees_token0_raw := IZR (fst delta) / IZR (2 ^ 128) * L in
  let fees_token1_raw := IZR (snd delta) / IZR (2 ^ 128) * L in
  let total_fees_usd :=
    fees_token0_raw / IZR (10 ^ Z.of_N (Snapshot.token0_decimals snapshot1))
    + fees_token1_raw / IZR (10 ^ Z.of_N (Snapshot.token1_decimals snapshot1))
      * human_price in
  let period_seconds :=
    (Snapshot.block_timestamp snapshot1
     - Snapshot.block_timestamp snapshot0)%Z in
  FeeCalculator.compute_fees_and_apr config self snapshot0 snapshot1
    override_liquidity_snapshot
  = if (period_seconds <=? 0)%Z then
      Raise (ValueError
        "Invalid snapshot time period; period_seconds must be positive.")
    else if Req_dec_T (FeeCalculator.capital_usd self) 0 then
      Raise (ZeroDivisionError "float division by zero")
    else
      Ok {| FeesResult.fees_token0_raw := fees_token0_raw;
            FeesResult.fees_token1_raw := fees_token1_raw;
            FeesResult.total_fees_usd := total_fees_usd;
            FeesResult.simulated_liquidity := L;
            FeesResult.period_seconds := period_seconds;
            FeesResult.apr_percent :=
              total_fees_usd / FeeCalculator.capital_usd self
              * (IZR FeeCalculator.seconds_per_year / IZR period_seconds)
              * 100 |}.
Proof.
  intros HL. cbv zeta.
  unfold FeeCalculator.compute_fees_and_apr.
  destruct (FeeCalculator.compute_fee_growth_delta snapshot0 snapshot1)
    as [delta0 delta1].
  unfold simulated_liquidity_of, liquidity_snapshot in HL.
  unfold liquidity_snapshot.
  pose proof (IZR_pow10_pos (Snapshot.token0_decimals snapshot1)) as Hd0.
  pose proof (IZR_pow10_pos (Snapshot.token1_decimals snapshot1)) as Hd1.
  pose proof IZR_scaling_nonzero as Hs.
  destruct override_liquidity_snapshot as [o | ]; rewrite HL; cbn [bind fst snd];
    cbn [of_Z fmul fadd fsub R_PyFloat];
    repeat (rewrite !py_truediv_R by (try exact Hs; lra);
            cbn [bind of_Z fmul fadd fsub R_PyFloat]);
    (destruct (Z.leb_spec (Snapshot.block_timestamp snapshot1
                           - Snapshot.block_timestamp snapshot0) 0) as [Hp | Hp];
     [reflexivity | ]);
    (rewrite (py_truediv_R (IZR FeeCalculator.seconds_per_year))
       by (apply not_0_IZR; lia)); cbn [bind];
    (destruct (Req_dec_T (FeeCalculator.capital_usd self) 0) as [E | E];
     [rewrite E, py_truediv_R_zero; reflexivity
     | rewrite py_truediv_R by exact E; reflexivity]).
Qed.

End FeesOverReals.


(** ** A synthetic chain, over the reals *)

Section ChainOverReals.
Local Open Scope R_scope.
Variable config : Config.t R.
Let lf := Config.lower_bound_factor (Config.LIQUIDITY_RANGE config).
Let uf := Config.upper_bound_factor (Config.LIQUIDITY_RANGE config).

Lemma math_log_R (x : R) : 0 < x -> math_log x = Ok (ln x).
Proof.
  intros Hx. unfold math_log. cbn. rewrite Rleb_false by exact Hx. reflexivity.
Qed.

Lemma ln_tick_base_pos : 0 < ln (10001 / 10000).
Proof. rewrite <- ln_1. apply ln_increasing; lra. Qed.

Lemma price_to_tick_R (price : R) :
  0 < price ->
  FeeCalculator.price_to_tick price
  = Ok (Int_part (ln price / ln (10001 / 10000))).
Proof.
  intros Hp. unfold FeeCalculator.price_to_tick.
  rewrite (math_log_R price Hp). cbn [bind of_Z fdiv R_PyFloat].
  rewrite math_log_R by lra. cbn [bind].
  pose proof ln_tick_base_pos.
  rewrite py_truediv_R by lra. reflexivity.
Qed.

(** With positive prices and positive factors lying on opposite sides of
    1, the two cost factors have the same strict sign, so the simulated
    liquidity is obtained. *)
Lemma simulate_liquidity_R (self : FeeCalculator.t R) (mid_price : R)
    (d0 d1 : N) (human_price : R) :
  0 < lf -> 0 < uf -> 0 < (uf - 1) * (1 - lf) ->
  0 < mid_price -> 0 < human_price ->
  exists L,
    FeeCalculator.simulate_liquidity config self mid_price d0 d1 human_price
    = Ok L.
Proof.
  intros Hlf Huf Hsides Hmid Hhuman.
  assert (Hla : 0 < mid_price * lf) by (apply Rmult_lt_0_compat; lra).
  assert (Hlb : 0 < mid_price * uf) by (apply Rmult_lt_0_compat; lra).
  assert (HsP : 0 < sqrt mid_price) by (apply sqrt_lt_R0; lra).
  assert (HsPa : 0 < sqrt (mid_price * lf)) by (apply sqrt_lt_R0; lra).
  assert (HsPb : 0 < sqrt (mid_price * uf)) by (apply sqrt_lt_R0; lra).
  assert (HA : 0 < sqrt mid_price * sqrt (mid_price * uf))
    by (apply Rmult_lt_0_compat; lra).
  pose proof (IZR_pow10_pos d0) as Hd0.
  pose proof (IZR_pow10_pos d1) as Hd1.
  unfold FeeCalculator.simulate_liquidity. fold lf uf.
  cbn [fmul R_PyFloat].
  rewrite !math_sqrt_R by lra. cbn [bind fsub fmul fadd of_Z R_PyFloat].
  repeat (rewrite !py_truediv_R by lra;
          cbn [bind fsub fmul fadd of_Z feqb R_PyFloat]).
  set (token0 := (sqrt (mid_price * uf) - sqrt mid_price)
                 / (sqrt mid_price * sqrt (mid_price * uf))
                 / IZR (10 ^ Z.of_N d0)).
  set (token1 := (sqrt mid_price - sqrt (mid_price * lf)) * human_price
                 / IZR (10 ^ Z.of_N d1)).
  assert (Hdenom : token0 + token1 <> 0).
  { assert (HiA : 0 < / (sqrt mid_price * sqrt (mid_price * uf)))
      by (apply Rinv_0_lt_compat; lra).
    assert (Hi0 : 0 < / IZR (10 ^ Z.of_N d0)) by (apply Rinv_0_lt_compat; lra).
    assert (Hi1 : 0 < / IZR (10 ^ Z.of_N d1)) by (apply Rinv_0_lt_compat; lra).
    destruct (Rlt_dec 1 uf) as [Hup | Hdown].
    - assert (lf < 1) by nra.
      assert (sqrt mid_price < sqrt (mid_price * uf))
        by (apply sqrt_lt_1_alt; nra).
      assert (sqrt (mid_price * lf) < sqrt mid_price)
        by (apply sqrt_lt_1_alt; nra).
      assert (0 < token0).
      { unfold token0, Rdiv. repeat apply Rmult_lt_0_compat; lra. }
      assert (0 < token1).
      { unfold token1, Rdiv. repeat apply Rmult_lt_0_compat; lra. }
      lra.
    - assert (uf < 1) by nra. assert (1 < lf) by nra.
      assert (sqrt (mid_price * uf) < sqrt mid_price)
        by (apply sqrt_lt_1_alt; nra).
      assert (sqrt mid_price < sqrt (mid_price * lf))
        by (apply sqrt_lt_1_alt; nra).
      assert (0 < - token0).
      { unfold token0, Rdiv.
        replace (- ((sqrt (mid_price * uf) - sqrt mid_price)
                    * / (sqrt mid_price * sqrt (mid_price * uf))
                    * / IZR (10 ^ Z.of_N d0)))
          with ((sqrt mid_price - sqrt (mid_price * uf))
                * / (sqrt mid_price * sqrt (mid_price * uf))
                * / IZR (10 ^ Z.of_N d0)) by ring.
        repeat apply Rmult_lt_0_compat; lra. }
      assert (0 < - token1).
      { unfold token1, Rdiv.
        replace (- ((sqrt mid_price - sqrt (mid_price * lf)) * human_price
                    * / IZR (10 ^ Z.of_N d1)))
          with ((sqrt (mid_price * lf) - sqrt mid_price) * human_price
                * / IZR (10 ^ Z.of_N d1)) by ring.
        repeat apply Rmult_lt_0_compat; lra. }
      lra. }
  rewrite Reqb_false by exact Hdenom.
  rewrite py_truediv_R by exact Hdenom. eexists. reflexivity.
Qed.

(** On the synthetic pool a snapshot is always obtained, at the timestamp
    of its block and with positive prices. *)
Lemma synthetic_snapshot (self : FeeCalculator.t R) (block : Z)
    (fixed_price : option R) :
  FeeCalculator.web3_ops self = synthetic_web3_ops ->
  0 < lf -> 0 < uf ->
  match fixed_price with Some p => 0 < p | None => True end ->
  exists s,
    FeeCalculator.get_fee_growth_snapshot config self (Web3.number block)
      fixed_price = Ok s
    /\ Snapshot.block_timestamp s = (block * 2)%Z
    /\ 0 < Snapshot.current_price_raw s
    /\ 0 < Snapshot.mid_price s.
Proof.
  intros Hops Hlf Huf Hfixed.
  set (raw := match fixed_price with
              | Some p => p
              | None => IZR ((2 ^ 96) ^ 2) / IZR (2 ^ 192)
              end).
  assert (Hraw : 0 < raw).
  { unfold raw. destruct fixed_price as [p | ]; [exact Hfixed | ].
    apply Rdiv_lt_0_compat; apply IZR_lt; apply Z.pow_pos_nonneg; lia. }
  assert (Hmid : 0 < 1 / raw * 1).
  { rewrite Rmult_1_r. apply Rdiv_lt_0_compat; lra. }
  unfold FeeCalculator.get_fee_growth_snapshot. rewrite Hops.
  cbn [synthetic_web3_ops synthetic_pool Web3Operations.get_web3_instance
       Web3Operations.get_pool_contract Web3Operations.get_token_decimals
       PoolContract.token0 PoolContract.token1 PoolContract.slot0 bind fst].
  assert (Hread :
    (match fixed_price with
     | Some p => Ok p
     | None => py_truediv (of_Z ((2 ^ 96) ^ 2)) (of_Z (2 ^ 192))
     end) = Ok raw).
  { unfold raw. destruct fixed_price as [p | ]; [reflexivity | ].
    apply py_truediv_R. apply not_0_IZR. apply Z.pow_nonzero; lia. }
  rewrite Hread. cbn [bind of_Z feqb R_PyFloat].
  rewrite Reqb_false by lra.
  rewrite py_truediv_R by lra.
  cbn [bind fmul R_PyFloat]. fold lf uf.
  change (pow10 (Z.of_N 0 - Z.of_N 0)) with 1.
  rewrite !price_to_tick_R by (apply Rmult_lt_0_compat; lra).
  cbn [bind PoolContract.feeGrowthGlobal0X128 PoolContract.feeGrowthGlobal1X128
       PoolContract.ticks uniform_chain Web3.get_block
       Web3.block_timestamp Web3.block_number].
  eexists. split; [reflexivity | ].
  cbn [Snapshot.block_timestamp Snapshot.current_price_raw Snapshot.mid_price].
  split; [reflexivity | ]. split; [exact Hraw | exact Hmid].
Qed.

(** On the synthetic pool the fees of the hour from 0 to 1 are obtained:
    the two timestamps resolve to blocks 1 and 1800. *)
Lemma synthetic_calculate_fees (self : FeeCalculator.t R) (price : R) :
  FeeCalculator.web3_ops self = synthetic_web3_ops ->
  FeeCalculator.start_time self = datetime.replace_tzinfo (hour 0) datetime.utc ->
  FeeCalculator.end_time self = datetime.replace_tzinfo (hour 1) datetime.utc ->
  FeeCalculator.capital_usd self <> 0 ->
  0 < lf -> 0 < uf -> 0 < (uf - 1) * (1 - lf) -> 0 < price ->
  exists fees,
    FeeCalculator.calculate_fees config self (Some price) None = Ok fees.
Proof.
  intros Hops Hstart Hend Hcap Hlf Huf Hsides Hprice.
  unfold FeeCalculator.calculate_fees. rewrite Hops, Hstart, Hend.
  cbn [synthetic_web3_ops Web3Operations.get_web3_instance bind].
  change (get_block_by_timestamp (uniform_chain 3600 2)
            (TDatetime (datetime.replace_tzinfo (hour 0) datetime.utc)) None
            default_tolerance_seconds default_max_tries)
    with (@Ok Z 1%Z).
  cbn [bind].
  change (get_block_by_timestamp (uniform_chain 3600 2)
            (TDatetime (datetime.replace_tzinfo (hour 1) datetime.utc)) None
            default_tolerance_seconds default_max_tries)
    with (@Ok Z 1800%Z).
  cbn [bind].
  destruct (synthetic_snapshot self 1 None Hops Hlf Huf I)
    as (s0 & Hs0 & Hts0 & Hraw0 & Hmid0).
  rewrite Hs0. cbn [bind].
  destruct (synthetic_snapshot self 1800 (Some price) Hops Hlf Huf Hprice)
    as (s1 & Hs1 & Hts1 & Hraw1 & Hmid1).
  rewrite Hs1. cbn [bind].
  destruct (simulate_liquidity_R self (Snapshot.current_price_raw s0)
              (Snapshot.token0_decimals s1) (Snapshot.token1_decimals s1)
              (Snapshot.mid_price s0) Hlf Huf Hsides Hraw0 Hmid0) as (L & HL).
  rewrite (compute_fees_and_apr_R config self s0 s1 (Some s0) L HL).
  rewrite Hts0, Hts1. cbn [Z.leb Z.sub Z.mul Z.add Z.opp Z.compare Z.pos_sub].
  destruct (Req_dec_T (FeeCalculator.capital_usd self) 0); [contradiction | ].
  eexists. reflexivity.
Qed.
End ChainOverReals.

Section StaleManager.
Local Open Scope R_scope.

(** C4 as stated fails: rebalancing the stale manager at price 2000 closes
    the position and writes the new capital, then the open step raises on
    the inverted bounds; the manager is left without a position. *)
Lemma rebalance_half_update_counterexample :
  exists self',
    run_operation swapped_config Rebalance 2000 (hour 1) stale_manager
    = (Some (ValueError "Invalid bounds: lower bound must be < upper bound."),
       self')
    /\ LiquidityManager.position stale_manager <> None
    /\ LiquidityManager.position self' = None
    /\ self' <> stale_manager.
Proof.
  assert (Hvalue : exists value,
            LiquidityManager._get_position_value stale_manager 2000 = Ok value).
  { eexists.
    apply (get_position_value_inside stale_manager _ 2000 eq_refl); cbn; lra. }
  destruct Hvalue as (value & Hvalue).
  destruct (synthetic_calculate_fees swapped_config
              (closing_fee_calculator stale_manager
                 {| Position.open_price := 2000;
                    Position.p_a := 1700;
                    Position.p_b := 2300;
                    Position.open_timestamp :=
                      datetime.replace_tzinfo (hour 0) datetime.utc;
                    Position.capital_deployed := 10000;
                    Position.L_human := 1536 |} (hour 1))
              2000 eq_refl eq_refl eq_refl) as (fees & Hfees);
    try (cbn; lra).
  eexists.
  cbn [run_operation].
  rewrite rebalance_position_eq, close_position_eq.
  cbn [stale_manager LiquidityManager.position].
  fold (stale_manager (F := R)).
  rewrite Hvalue.
  cbn [of_Z R_PyFloat] in Hfees |- *.
  rewrite Hfees. cbv zeta.
  rewrite open_position_eq. cbv zeta.
  cbn [LiquidityManager.config LiquidityManager.set_position
       LiquidityManager.set_current_capital stale_manager swapped_config
       Config.LIQUIDITY_RANGE Config.lower_bound_factor
       Config.upper_bound_factor fmul fdiv fleb of_Z R_PyFloat].
  rewrite Rleb_true by lra.
  cbn [outcome].
  split; [reflexivity | ].
  split; [discriminate | ].
  split; [reflexivity | ].
  intros Heq. apply (f_equal (@LiquidityManager.position R)) in Heq.
  discriminate Heq.
Qed.
End StaleManager.


(** ** Opening a position, over the reals *)

Section OpenOverReals.
Local Open Scope R_scope.

(** [max(min(p, hi), lo)] lies in [[lo, hi]]. *)
Lemma py_clamp_R (p lo hi : R) :
  lo < hi -> lo <= py_max (py_min p hi) lo <= hi.
Proof.
  intros Hlh. unfold py_max, py_min. cbn. unfold Rltb.
  destruct (Rlt_dec hi p); destruct (Rlt_dec _ lo); lra.
Qed.

(** For a positive price and factors [0 < lower < upper], [open_position]
    passes both guards and the sizing, and stores the position. *)
Lemma open_position_R (self : LiquidityManager.t R) (price : R)
    (ts : datetime.t) :
  let range := Config.LIQUIDITY_RANGE (LiquidityManager.config self) in
  let p_a := price * Config.lower_bound_factor range in
  let p_b := price * Config.upper_bound_factor range in
  let denom := sizing_denominator (py_max (py_min price p_b) p_a) p_a p_b in
  let pos :=
    {| Position.open_price := price;
       Position.p_a := p_a;
       Position.p_b := p_b;
       Position.open_timestamp := LiquidityManager.ensure_utc ts;
       Position.capital_deployed := LiquidityManager.current_capital self;
       Position.L_human := LiquidityManager.current_capital self / denom |} in
  0 < price ->
  0 < Config.lower_bound_factor range < Config.upper_bound_factor range ->
  LiquidityManager.open_position price ts self
  = (Ok pos, LiquidityManager.set_position self (Some pos))
  /\ p_a < p_b /\ 0 < denom.
Proof.
  intros range p_a p_b denom pos Hp [Hlf Hlu].
  assert (Ha : 0 < p_a) by (apply Rmult_lt_0_compat; lra).
  assert (Hab : p_a < p_b) by (apply Rmult_lt_compat_l; lra).
  assert (Hc : p_a <= py_max (py_min price p_b) p_a <= p_b)
    by (apply py_clamp_R; exact Hab).
  assert (Hd : 0 < denom) by (apply sizing_denominator_pos; lra).
  split; [ | split; assumption].
  rewrite open_position_eq. cbv zeta. fold range. 
  cbn [fmul fleb R_PyFloat]. fold p_a p_b.
  rewrite Rleb_false by lra.
  rewrite compute_liquidity_R by lra. fold denom.
  destruct (Req_dec_T denom 0) as [E | E]; [lra | ].
  reflexivity.
Qed.

(** C10, as amended: in real arithmetic (Python floats read without
    rounding), for every price [> 0] and factors [0 < lower < upper], the
    clamped reference price makes the sizing denominator strictly
    positive, so [open_position] returns and stores a position with
    [p_a < p_b] and liquidity [capital / denominator]; that liquidity is
    positive exactly when the current capital is.  In binary64 neither
    error branch is out of reach: see
    [open_position_binary64_counterexample]. *)
Theorem open_position_always_succeeds (self : LiquidityManager.t R)
    (price : R) (ts : datetime.t) :
  let range := Config.LIQUIDITY_RANGE (LiquidityManager.config self) in
  0 < price ->
  0 < Config.lower_bound_factor range < Config.upper_bound_factor range ->
  exists pos denom,
    LiquidityManager.open_position price ts self
    = (Ok pos, LiquidityManager.set_position self (Some pos))
    /\ 0 < denom
    /\ Position.L_human pos = LiquidityManager.current_capital self / denom
    /\ Position.p_a pos < Position.p_b pos
    /\ (0 < Position.L_human pos <-> 0 < LiquidityManager.current_capital self).
Proof.
  intros range Hp Hf.
  destruct (open_position_R self price ts Hp Hf) as (Hopen & Hab & Hd).
  eexists. eexists. split; [exact Hopen | ].
  cbn [Position.L_human Position.p_a Position.p_b].
  split; [exact Hd | ]. split; [reflexivity | ]. split; [exact Hab | ].
  set (denom := sizing_denominator _ _ _) in *.
  set (c := LiquidityManager.current_capital self).
  assert (Hinv : 0 < / denom) by (apply Rinv_0_lt_compat; exact Hd).
  unfold Rdiv. split; intros Hpos.
  - assert (c = c * / denom * denom) by (field; lra). nra.
  - apply Rmult_lt_0_compat; assumption.
Qed.

(** Opening at 2000 with the shipped factors and capital 10000. *)
Lemma open_position_always_succeeds_witness :
  0 < 2000
  /\ 0 < 85 / 100 < 115 / 100
  /\ exists pos denom,
       LiquidityManager.open_position 2000 (hour 0)
         (fresh_manager 10000 offline_web3_ops)
       = (Ok pos,
          LiquidityManager.set_position (fresh_manager 10000 offline_web3_ops)
            (Some pos))
       /\ 0 < denom
       /\ Position.L_human pos = 10000 / denom
       /\ Position.p_a pos < Position.p_b pos
       /\ (0 < Position.L_human pos <-> 0 < 10000).
Proof.
  split; [lra | ]. split; [lra | ].
  apply (open_position_always_succeeds (fresh_manager 10000 offline_web3_ops)
           2000 (hour 0)); cbn; lra.
Defined.

(** C10 as stated fails: a manager with no capital opens a position of
    zero liquidity. *)
Lemma open_position_zero_capital_counterexample :
  0 < 2000
  /\ 0 < 85 / 100 < 115 / 100
  /\ exists pos,
       fst (LiquidityManager.open_position 2000 (hour 0)
              (fresh_manager 0 offline_web3_ops)) = Ok pos
       /\ Position.L_human pos = 0
       /\ ~ 0 < Position.L_human pos.
Proof.
  split; [lra | ]. split; [lra | ].
  destruct (open_position_R (fresh_manager 0 offline_web3_ops) 2000 (hour 0))
    as (Hopen & _ & _); [lra | cbn; lra | ].
  eexists. rewrite Hopen. cbn [fst]. split; [reflexivity | ].
  cbn [Position.L_human fresh_manager LiquidityManager.init
       LiquidityManager.current_capital].
  unfold Rdiv. rewrite Rmult_0_l. split; [reflexivity | lra].
Qed.
End OpenOverReals.

(** C10 as stated fails for the program.  In binary64, with the factors
    [1 + 2^-51 < 1 + 3 * 2^-52] and price 1 the two bounds differ but
    their square roots do not, and [open_position] raises on the zero
    denominator; with the shipped factors and the smallest positive
    double as price the two bounds round to the same double, and it
    raises on the bounds.  The manager is left without a position both
    times.  And with no capital it opens a position of zero liquidity. *)
Lemma open_position_binary64_counterexample :
  fltb (F := float) (of_Z 0) (of_Z 1) = true
  /\ fltb (F := float) (of_Z 0)
       (Config.lower_bound_factor (Config.LIQUIDITY_RANGE narrow_config))
     = true
  /\ fltb (F := float) (Config.lower_bound_factor (Config.LIQUIDITY_RANGE narrow_config))
       (Config.upper_bound_factor (Config.LIQUIDITY_RANGE narrow_config))
     = true
  /\ fst (LiquidityManager.open_position (of_Z 1) (hour 0)
            (LiquidityManager.init (of_Z 10000) narrow_config
               (fdiv (of_Z 1) (of_Z 1000)) offline_web3_ops))
     = Raise (ValueError
         "Liquidity denominator computed as zero. Check price parameters.")
  /\ LiquidityManager.position
       (snd (LiquidityManager.open_position (of_Z 1) (hour 0)
               (LiquidityManager.init (of_Z 10000) narrow_config
                  (fdiv (of_Z 1) (of_Z 1000)) offline_web3_ops)))
     = None
  /\ fltb (F := float) (of_Z 0) (PrimFloat.next_up (of_Z 0)) = true
  /\ fltb (F := float) (of_Z 0)
       (Config.lower_bound_factor
          (Config.LIQUIDITY_RANGE (default_config (F := float)))) = true
  /\ fltb (F := float) (Config.lower_bound_factor
            (Config.LIQUIDITY_RANGE (default_config (F := float))))
       (Config.upper_bound_factor
          (Config.LIQUIDITY_RANGE (default_config (F := float)))) = true
  /\ fst (LiquidityManager.open_position (PrimFloat.next_up (of_Z 0)) (hour 0)
            (fresh_manager (of_Z 10000) offline_web3_ops))
     = Raise (ValueError "Invalid bounds: lower bound must be < upper bound.")
  /\ LiquidityManager.position
       (snd (LiquidityManager.open_position (PrimFloat.next_up (of_Z 0))
               (hour 0) (fresh_manager (of_Z 10000) offline_web3_ops)))
     = None
  /\ exists pos,
       fst (LiquidityManager.open_position (F := float) (of_Z 2000) (hour 0)
              (fresh_manager (of_Z 0) offline_web3_ops)) = Ok pos
       /\ Position.L_human pos = of_Z 0
       /\ fltb (F := float) (of_Z 0) (Position.L_human pos) = false.
Proof.
  do 10 (split; [vm_compute; reflexivity | ]).
  eexists. repeat split; vm_compute; reflexivity.
Qed.


(** ** Fees and APR on concrete snapshots *)

Section FeeExamples.
Local Open Scope R_scope.

(** Under the shipped configuration the simulated liquidity is obtained
    at any positive prices. *)
Lemma default_simulation (self : FeeCalculator.t R) (snapshot1 : Snapshot.t R)
    (override : option (Snapshot.t R)) :
  0 < Snapshot.current_price_raw (liquidity_snapshot snapshot1 override) ->
  0 < Snapshot.mid_price (liquidity_snapshot snapshot1 override) ->
  exists L, simulated_liquidity_of default_config self snapshot1 override = Ok L.
Proof.
  intros Hraw Hmid. unfold simulated_liquidity_of.
  apply simulate_liquidity_R; cbn; lra.
Qed.


End FeeExamples.

(** In binary64, at the raw price [31 * 2^1019] the upper target price
    overflows and the simulated liquidity is [nan]: with a positive
    period, zero fee growth and capital 10000 the call returns, and the
    fees and the APR it reports are [nan], not 0.  At unit price the same
    call reports 0 for both. *)
Example compute_fees_nan_binary64 :
  (exists fees,
     FeeCalculator.compute_fees_and_apr (F := float) default_config
       (idle_calculator (of_Z 10000))
       (snapshot_at_price (of_Z (31 * 2 ^ 1019)) (of_Z 1) 0)
       (snapshot_at_price (of_Z (31 * 2 ^ 1019)) (of_Z 1) 3600) None
     = Ok fees
     /\ FeesResult.period_seconds fees = 3600%Z
     /\ feqb (FeesResult.total_fees_usd fees) (of_Z 0) = false
     /\ feqb (FeesResult.apr_percent fees) (of_Z 0) = false
     /\ feqb (FeesResult.total_fees_usd fees) (FeesResult.total_fees_usd fees)
        = false)
  /\ exists fees,
       FeeCalculator.compute_fees_and_apr (F := float) default_config
         (idle_calculator (of_Z 10000))
         (snapshot_with_globals 0 0 0) (snapshot_with_globals 0 0 3600) None
       = Ok fees
       /\ feqb (FeesResult.total_fees_usd fees) (of_Z 0) = true
       /\ feqb (FeesResult.apr_percent fees) (of_Z 0) = true.
Proof.
  split; eexists; (split; [vm_compute; reflexivity | ]);
    repeat split; vm_compute; reflexivity.
Qed.


(** ** Rebalancing under a valid shared configuration *)

Section ValidConfiguration.
Local Open Scope R_scope.

(** What a snapshot taken at a fixed price says about that price: the
    tick conversion takes the logarithm of a positive multiple of its
    inverse. *)
Lemma pow10_pos_R (k : Z) : 0 < pow10 (F := R) k.
Proof.
  unfold pow10. cbn [of_Z fdiv R_PyFloat].
  destruct (Z.leb_spec 0 k).
  - apply IZR_lt. apply Z.pow_pos_nonneg; lia.
  - apply Rdiv_lt_0_compat; [lra | ].
    apply IZR_lt. apply Z.pow_pos_nonneg; lia.
Qed.

Lemma math_log_returns (x y : R) : math_log x = Ok y -> 0 < x.
Proof.
  unfold math_log. cbn [fleb of_Z R_PyFloat]. unfold Rleb.
  destruct (Rle_dec x 0); [discriminate | intros _; lra].
Qed.

Lemma price_to_tick_returns (x : R) (tick : Z) :
  FeeCalculator.price_to_tick x = Ok tick -> 0 < x.
Proof.
  unfold FeeCalculator.price_to_tick.
  destruct (math_log x) as [y | e] eqn:Hlog; [ | discriminate].
  intros _. exact (math_log_returns x y Hlog).
Qed.

Lemma snapshot_fixed_price_positive (config : Config.t R)
    (self : FeeCalculator.t R) (block_identifier : Web3.block_identifier)
    (price : R) (s : Snapshot.t R) :
  0 < Config.lower_bound_factor (Config.LIQUIDITY_RANGE config) ->
  FeeCalculator.get_fee_growth_snapshot config self block_identifier
    (Some price) = Ok s ->
  0 < price.
Proof.
  intros Hlf. unfold FeeCalculator.get_fee_growth_snapshot.
  destruct (Web3Operations.get_web3_instance _) as [web3 | ]; [ | discriminate].
  cbn [bind].
  destruct (PoolContract.token0 _); [ | discriminate]. cbn [bind].
  destruct (PoolContract.token1 _); [ | discriminate]. cbn [bind].
  destruct (Web3Operations.get_token_decimals _ _ _) as [[d0 d1] | ];
    [ | discriminate]. cbn [bind].
  destruct (PoolContract.slot0 _ _); [ | discriminate]. cbn [bind].
  cbn [feqb of_Z R_PyFloat]. unfold Reqb.
  destruct (Req_dec_T price 0) as [ | Hne]; [discriminate | ].
  rewrite py_truediv_R by exact Hne. cbn [bind fmul R_PyFloat].
  destruct (FeeCalculator.price_to_tick _) as [tick | ] eqn:Htick;
    [ | discriminate].
  intros _. apply price_to_tick_returns in Htick.
  pose proof (pow10_pos_R (Z.of_N d1 - Z.of_N d0)) as Hpow.
  set (k := pow10 _) in *.
  set (lf := Config.lower_bound_factor _) in *.
  assert (Hinv : 0 < 1 / price).
  { destruct (Rlt_dec 0 (1 / price)) as [ | Hneg]; [assumption | exfalso].
    assert (1 / price * k <= 0) by nra.
    assert (1 / price * k * lf <= 0) by nra. lra. }
  unfold Rdiv in Hinv. rewrite Rmult_1_l in Hinv.
  apply Rinv_0_lt_compat in Hinv. rewrite Rinv_inv in Hinv. exact Hinv.
Qed.

Lemma calculate_fees_price_positive (config : Config.t R)
    (self : FeeCalculator.t R) (price : R) (fees : FeesResult.t R) :
  0 < Config.lower_bound_factor (Config.LIQUIDITY_RANGE config) ->
  FeeCalculator.calculate_fees config self (Some price) None = Ok fees ->
  0 < price.
Proof.
  intros Hlf. unfold FeeCalculator.calculate_fees.
  destruct (Web3Operations.get_web3_instance _); [ | discriminate]. cbn [bind].
  destruct (get_block_by_timestamp _ _ _ _ _); [ | discriminate]. cbn [bind].
  destruct (get_block_by_timestamp _ _ _ _ _); [ | discriminate]. cbn [bind].
  destruct (FeeCalculator.get_fee_growth_snapshot _ _ _ None);
    [ | discriminate]. cbn [bind].
  destruct (FeeCalculator.get_fee_growth_snapshot _ _ _ (Some price))
    as [s1 | ] eqn:Hs1; [ | discriminate].
  intros _. exact (snapshot_fixed_price_positive _ _ _ _ _ Hlf Hs1).
Qed.

(** With one configuration shared by the manager and the fee calculator,
    and factors [0 < lower < upper], a close step that returns was given a
    positive price, at which the open step cannot raise: a rebalance that
    raises has then left the manager as it was. *)
Lemma rebalance_position_raises_valid_config (self self' : LiquidityManager.t R)
    (price : R) (ts : datetime.t) (e : exn) :
  let range := Config.LIQUIDITY_RANGE (LiquidityManager.config self) in
  0 < Config.lower_bound_factor range < Config.upper_bound_factor range ->
  LiquidityManager.rebalance_position (LiquidityManager.config self) price ts
    self = (Raise e, self') ->
  self' = self.
Proof.
  intros range Hf Hrun.
  destruct (rebalance_position_raises (LiquidityManager.config self)
              self self' price ts e Hrun)
    as [Hsame | (pos & capital & Hpos & Hclose & Hopen & _)].
  - exact Hsame.
  - exfalso.
    rewrite close_position_eq, Hpos in Hclose.
    destruct (LiquidityManager._get_position_value self price);
      [ | discriminate].
    destruct (FeeCalculator.calculate_fees _ _ _ _) as [fees | ] eqn:Hfees;
      [ | discriminate].
    apply calculate_fees_price_positive in Hfees; [ | apply Hf].
    injection Hclose as _ Hself'.
    assert (Hcfg : LiquidityManager.config self' = LiquidityManager.config self)
      by (rewrite <- Hself'; reflexivity).
    destruct (open_position_R self' price ts Hfees) as (Hok & _).
    + rewrite Hcfg. exact Hf.
    + rewrite Hok in Hopen. discriminate.
Qed.
End ValidConfiguration.


(** ** The rebalance example on the synthetic chain *)

Section LoopOverReals.
Local Open Scope R_scope.

(** The all-quote branch of the valuation, at or above the upper bound. *)
Lemma get_position_value_above (self : LiquidityManager.t R)
    (pos : Position.t R) (p : R) :
  LiquidityManager.position self = Some pos ->
  0 <= Position.p_a pos -> Position.p_a pos < Position.p_b pos ->
  Position.p_b pos <= p ->
  LiquidityManager._get_position_value self p =
  Ok (Position.L_human pos
      * (sqrt (Position.p_b pos) - sqrt (Position.p_a pos))).
Proof.
  intros Hpos Ha Hab Hp.
  unfold LiquidityManager._get_position_value. rewrite Hpos. cbn.
  rewrite Rleb_false by lra. rewrite Rleb_true by lra.
  rewrite !math_sqrt_R by lra. reflexivity.
Qed.

(** Over the reals too, 2324 breaches the buffered range of (1700, 2300)
    and 2320 does not. *)
Lemma buffer_breached_2324 :
  buffer_breached (F := R) default_config 1700 2300 2324 = true.
Proof.
  unfold buffer_breached. cbn.
  rewrite Rltb_false by lra. rewrite Rltb_true by lra. reflexivity.
Qed.

Lemma buffer_breached_2320 :
  buffer_breached (F := R) default_config 1700 2300 2320 = false.
Proof.
  unfold buffer_breached. cbn.
  rewrite !Rltb_false by lra. reflexivity.
Qed.

(** On the synthetic chain, a price of 2324 against the range
    (1700, 2300) rebalances: the counter goes from 0 to 1 and the new
    position is opened at 2324.  A price of 2320 changes nothing. *)
Lemma rebalance_fires_at_2324 :
  Main.rebalance_count
    (snd (Main.buffered_rebalancing_logic default_config 2324 (hour 1)
            tracking_state)) = 1%Z
  /\ exists pos,
       LiquidityManager.position
         (Main.lm (snd (Main.buffered_rebalancing_logic default_config 2324
                          (hour 1) tracking_state))) = Some pos
       /\ Position.open_price pos = 2324.
Proof.
  set (pos0 := {| Position.open_price := 2000;
                  Position.p_a := 1700;
                  Position.p_b := 2300;
                  Position.open_timestamp :=
                    datetime.replace_tzinfo (hour 0) datetime.utc;
                  Position.capital_deployed := 10000;
                  Position.L_human := 1536 |}).
  assert (Hpos : LiquidityManager.position (Main.lm (tracking_state (F := R)))
                 = Some pos0) by reflexivity.
  pose proof (rebalancing_decision default_config
                tracking_state pos0 2324 (hour 1) Hpos) as Hstep.
  cbv zeta in Hstep.
  change (Position.p_a pos0) with 1700 in Hstep.
  change (Position.p_b pos0) with 2300 in Hstep.
  rewrite buffer_breached_2324 in Hstep.
  change (in_cooldown (Main.cooldown_until (tracking_state (F := R))) (hour 1))
    with false in Hstep.
  cbn [andb negb] in Hstep.
  rewrite rebalance_position_eq, close_position_eq, Hpos in Hstep.
  rewrite (get_position_value_above _ pos0 2324 Hpos) in Hstep
    by (cbn; lra).
  destruct (synthetic_calculate_fees default_config
              (closing_fee_calculator (Main.lm tracking_state) pos0 (hour 1))
              2324 eq_refl eq_refl eq_refl) as (fees & Hfees);
    try (cbn; lra).
  rewrite Hfees in Hstep. cbv beta iota zeta in Hstep.
  match type of Hstep with
  | context [LiquidityManager.open_position 2324 (hour 1) ?m] =>
      destruct (open_position_R m 2324 (hour 1)) as (Hopen & _ & _);
        [lra | cbn; lra | ]
  end.
  rewrite Hopen in Hstep. cbv beta iota zeta in Hstep.
  destruct Hstep as [Hcount Hlm]. split; [exact Hcount | ].
  rewrite Hlm. eexists. split; reflexivity.
Qed.

Lemma no_rebalance_at_2320 :
  Main.buffered_rebalancing_logic default_config 2320 (hour 1) tracking_state
  = (Ok tt, tracking_state).
Proof.
  set (pos0 := {| Position.open_price := 2000;
                  Position.p_a := 1700;
                  Position.p_b := 2300;
                  Position.open_timestamp :=
                    datetime.replace_tzinfo (hour 0) datetime.utc;
                  Position.capital_deployed := 10000;
                  Position.L_human := 1536 |}).
  pose proof (rebalancing_decision default_config
                tracking_state pos0 2320 (hour 1) eq_refl) as Hstep.
  cbv zeta in Hstep.
  change (Position.p_a pos0) with 1700 in Hstep.
  change (Position.p_b pos0) with 2300 in Hstep.
  rewrite buffer_breached_2320 in Hstep. exact Hstep.
Qed.
End LoopOverReals.

(** Closing the position around (1700, 2300) at 2324 on the synthetic
    chain: the valuation and the fee calculation both return, and the
    capital written is the value less 0.1% slippage plus the fees. *)
Lemma current_capital_mutated_only_by_close_witness :
  exists value fees,
    LiquidityManager._get_position_value (Main.lm tracking_state) 2324%R
    = Ok value
    /\ value = (1536 * (sqrt 2300 - sqrt 1700))%R
    /\ FeeCalculator.calculate_fees default_config
         (closing_fee_calculator (Main.lm tracking_state) tracked_position
            (hour 1)) (Some 2324%R) None = Ok fees
    /\ LiquidityManager.close_position default_config 2324%R (hour 1)
         (Main.lm tracking_state)
       = (Ok (value * (1 - 1 / 1000) + FeesResult.total_fees_usd fees)%R,
          LiquidityManager.set_position
            (LiquidityManager.set_current_capital (Main.lm tracking_state)
               (value * (1 - 1 / 1000) + FeesResult.total_fees_usd fees)%R)
            None)
    /\ LiquidityManager.current_capital
         (snd (LiquidityManager.close_position default_config 2324%R (hour 1)
                 (Main.lm tracking_state)))
       = (value * (1 - 1 / 1000) + FeesResult.total_fees_usd fees)%R
    /\ LiquidityManager.position
         (snd (LiquidityManager.close_position default_config 2324%R (hour 1)
                 (Main.lm tracking_state)))
       = None.
Proof.
  assert (Hvalue :
    LiquidityManager._get_position_value (Main.lm tracking_state) 2324%R
    = Ok (1536 * (sqrt 2300 - sqrt 1700))%R).
  { rewrite (get_position_value_above (Main.lm tracking_state)
               tracked_position 2324%R eq_refl) by (cbn; lra).
    reflexivity. }
  destruct (synthetic_calculate_fees default_config
              (closing_fee_calculator (Main.lm tracking_state)
                 tracked_position (hour 1))
              2324%R eq_refl eq_refl eq_refl) as (fees & Hfees);
    try (cbn; lra).
  exists (1536 * (sqrt 2300 - sqrt 1700))%R, fees.
  split; [exact Hvalue | ]. split; [reflexivity | ]. split; [exact Hfees | ].
  pose proof (current_capital_mutated_only_by_close default_config
                (Main.lm tracking_state) 2324%R (hour 1))
    as (_ & _ & Hclose & _).
  change (LiquidityManager.position (Main.lm (tracking_state (F := R))))
    with (Some (tracked_position (F := R))) in Hclose.
  cbv iota in Hclose. rewrite Hvalue, Hfees in Hclose.
  exact Hclose.
Defined.


(** ** The same inputs in binary64

    The definitions evaluate on IEEE doubles; these are the values Python
    computes. *)

Example round_trip_binary64 :
  let '(_, manager) :=
    LiquidityManager.open_position (F := float) (of_Z 2000) (hour 0)
      (fresh_manager (of_Z 10000) offline_web3_ops) in
  LiquidityManager._get_position_value manager (of_Z 2000) = Ok (of_Z 10000).
Proof. vm_compute. reflexivity. Qed.

Example compute_liquidity_binary64 :
  LiquidityManager._compute_liquidity_for_capital (F := float)
    (of_Z 1) (of_Z 4) (of_Z 1) (of_Z 16) = Ok (fdiv (of_Z 1) (of_Z 2)).
Proof. vm_compute. reflexivity. Qed.

Example compute_fees_zero_capital_binary64 :
  FeeCalculator.compute_fees_and_apr (F := float) default_config
    (idle_calculator (of_Z 0))
    (snapshot_with_globals 0 0 0) (snapshot_with_globals 0 0 3600) None
  = Raise (ZeroDivisionError "float division by zero").
Proof. vm_compute. reflexivity. Qed.

Example open_zero_capital_binary64 :
  exists pos,
    fst (LiquidityManager.open_position (F := float) (of_Z 2000) (hour 0)
           (fresh_manager (of_Z 0) offline_web3_ops)) = Ok pos
    /\ Position.L_human pos = of_Z 0.
Proof. eexists. split; vm_compute; reflexivity. Qed.


(** * Further properties of the code

    Properties read off the code beyond the sentences of the
    specification, by source file. *)

(** ** block_search.py *)

Section BlockSearchExtras.
Context {F : Type} `{PyFloat F}.
Local Open Scope Z_scope.

Lemma bisect_within_bracket (web3 : Web3.t) (target tol : Z) (fuel : nat) :
  forall low high b,
    bisect web3 target tol fuel low high = Ok b ->
    low <= high -> low <= b <= high.
Proof.
  induction fuel as [ | fuel IH]; intros low high b Hb Hlh; [discriminate | ].
  cbn [bisect] in Hb.
  destruct (Z.ltb_spec low high) as [Hlt | Hge].
  - pose proof (midpoint_bounds low high Hlt) as Hmid.
    set (mid := (low + high) / 2) in *.
    destruct (Web3.get_block web3 (Web3.number mid)) as [blk | e];
      [ | discriminate].
    cbn [bind] in Hb.
    destruct (Web3.block_timestamp blk <? target);
      destruct (Z.abs (Web3.block_timestamp blk - target) <=? tol);
      try (injection Hb as <-; lia);
      apply IH in Hb; lia.
  - injection Hb as <-. lia.
Qed.

Lemma initial_window_within (approx_block_time : option F)
    (latest_num latest_ts target_ts low high : Z) :
  initial_window approx_block_time latest_num latest_ts target_ts
  = Ok (low, high) ->
  0 <= latest_num -> 0 <= low <= high /\ high <= latest_num.
Proof.
  unfold initial_window. intros Hw Hlatest.
  destruct approx_block_time as [abt | ]; [ | injection Hw as <- <-; lia].
  destruct (negb _ && _)%bool; [ | injection Hw as <- <-; lia].
  destruct (py_truediv _ _) as [q | ]; [ | discriminate]. cbn [bind] in Hw.
  destruct (to_int q) as [blocks_back | ]; [ | discriminate]. cbn [bind] in Hw.
  remember (Z.max 0 (Z.max 0 (Z.min (latest_num - blocks_back) latest_num)
                     - 2 * blocks_back)) as lo eqn:Elo.
  remember (Z.min latest_num
              (Z.max 0 (Z.min (latest_num - blocks_back) latest_num)
               + 2 * blocks_back)) as hi eqn:Ehi.
  assert (0 <= lo) by lia. assert (hi <= latest_num) by lia.
  clear Elo Ehi.
  destruct (Z.geb_spec lo hi); injection Hw as <- <-; lia.
Qed.

(** X1: a block number returned by [get_block_by_timestamp] lies between
    0 and the head's number, whatever the provider answers for the probed
    blocks and whichever of the three return points is taken. *)
Theorem get_block_by_timestamp_in_range (web3 : Web3.t) (target : target_time)
    (approx_block_time : option F) (tolerance_seconds max_tries : Z)
    (head : Web3.block) (b : Z) :
  Web3.get_block web3 Web3.latest = Ok head ->
  0 <= Web3.block_number head ->
  get_block_by_timestamp web3 target approx_block_time tolerance_seconds
    max_tries = Ok b ->
  0 <= b <= Web3.block_number head.
Proof.
  intros Hhead Hnum. unfold get_block_by_timestamp.
  destruct (match target with TInt z => _ | TDatetime dt => _ end)
    as [target_ts | ]; [ | discriminate].
  cbn [bind]. rewrite Hhead. cbn [bind].
  destruct (target_ts >? Web3.block_timestamp head); [discriminate | ].
  destruct (Z.abs _ <=? tolerance_seconds); [intros [= <-]; lia | ].
  destruct (initial_window _ _ _ _) as [[low high] | ] eqn:Hw; [ | discriminate].
  cbn [bind]. intros Hb.
  apply initial_window_within in Hw; [ | exact Hnum].
  apply bisect_within_bracket in Hb; lia.
Qed.

Lemma bisect_monotone (timestamp_of : Z -> Z) (latest_num target tol : Z)
    (fuel : nat) :
  (forall a b, 0 <= a <= b -> b <= latest_num ->
               timestamp_of a <= timestamp_of b) ->
  forall low high,
    0 <= low <= high -> high <= latest_num ->
    (forall b, 0 <= b < low -> timestamp_of b < target) ->
    target <= timestamp_of high ->
    high - low < 2 ^ (Z.of_nat fuel - 1) ->
    exists b,
      bisect (chain_of latest_num timestamp_of) target tol fuel low high = Ok b
      /\ low <= b <= high
      /\ ((target <= timestamp_of b
           /\ forall b', 0 <= b' < b -> timestamp_of b' < target)
          \/ Z.abs (timestamp_of b - target) <= tol).
Proof.
  intros Hmono.
  induction fuel as [ | fuel IH]; intros low high Hlh Hhi Hbelow Habove Hsize.
  - exfalso. change (2 ^ (Z.of_nat 0 - 1)) with 0 in Hsize. lia.
  - cbn [bisect].
    destruct (Z.ltb_spec low high) as [Hlt | Hge].
    + pose proof (midpoint_bounds low high Hlt) as Hmid.
      set (mid := (low + high) / 2) in *.
      cbn [chain_of Web3.get_block Web3.block_timestamp bind].
      assert (Hmid2 : 2 * mid <= low + high < 2 * mid + 2).
      { unfold mid. pose proof (Z.div_mod (low + high) 2 ltac:(lia)).
        pose proof (Z.mod_pos_bound (low + high) 2 ltac:(lia)). lia. }
      destruct (pow2_half (high - low) (Z.of_nat (S fuel) - 1) ltac:(lia) Hsize)
        as [Hk Hpow].
      replace (Z.of_nat (S fuel) - 1 - 1) with (Z.of_nat fuel - 1) in Hpow
        by lia.
      destruct (Z.leb_spec (Z.abs (timestamp_of mid - target)) tol)
        as [Htol | Htol].
      * destruct (timestamp_of mid <? target); exists mid;
          (split; [reflexivity | ]); (split; [lia | right; exact Htol]).
      * destruct (Z.ltb_spec (timestamp_of mid) target) as [Hts | Hts].
        -- destruct (IH (mid + 1) high) as (b & Hb & Hrange & Hpost); try lia.
           ++ intros b Hb.
              assert (timestamp_of b <= timestamp_of mid)
                by (apply Hmono; lia). lia.
           ++ exists b. split; [exact Hb | ]. split; [lia | exact Hpost].
        -- destruct (IH low mid) as (b & Hb & Hrange & Hpost); try lia.
           ++ exact Hbelow.
           ++ exists b. split; [exact Hb | ]. split; [lia | exact Hpost].
    + exists low. split; [reflexivity | ]. split; [lia | ].
      left. assert (low = high) by lia. subst high.
      split; [lia | exact Hbelow].
Qed.

(** X3: on any chain whose timestamps do not decrease with the block
    number, for a target not after the head and a head below
    [2 ^ (max_tries - 1)], the full-range search returns a block that is
    either the first one not before the target or one within the tolerance
    of it. *)
Theorem resolve_monotone_chain (timestamp_of : Z -> Z)
    (latest_num target_ts tolerance_seconds max_tries : Z) :
  (forall a b, 0 <= a <= b -> b <= latest_num ->
               timestamp_of a <= timestamp_of b) ->
  0 <= latest_num ->
  target_ts <= timestamp_of latest_num ->
  latest_num < 2 ^ (max_tries - 1) ->
  exists b,
    get_block_by_timestamp (F := F) (chain_of latest_num timestamp_of)
      (TInt target_ts) None tolerance_seconds max_tries = Ok b
    /\ 0 <= b <= latest_num
    /\ (first_block_not_before timestamp_of latest_num target_ts b
        \/ Z.abs (timestamp_of b - target_ts) <= tolerance_seconds).
Proof.
  intros Hmono Hlatest Htarget Hsize.
  unfold get_block_by_timestamp.
  cbn [bind chain_of Web3.get_block Web3.block_timestamp Web3.block_number
       initial_window].
  destruct (Z.gtb_spec target_ts (timestamp_of latest_num)) as [Hfut | _];
    [lia | ].
  destruct (Z.leb_spec (Z.abs (timestamp_of latest_num - target_ts))
              tolerance_seconds) as [Hquick | Hquick].
  - exists latest_num. split; [reflexivity | ]. split; [lia | ].
    right. exact Hquick.
  - destruct (bisect_monotone timestamp_of latest_num target_ts
                tolerance_seconds (Z.to_nat max_tries) Hmono 0 latest_num)
      as (b & Hb & Hrange & Hpost); try lia.
    + assert (0 < max_tries).
      { destruct (Z_lt_le_dec 0 max_tries); [assumption | ].
        destruct (Z.eq_dec max_tries 0) as [-> | ]; [simpl in Hsize; lia | ].
        rewrite Z.pow_neg_r in Hsize by lia. lia. }
      rewrite Z2Nat.id by lia. lia.
    + exists b. split; [exact Hb | ]. split; [lia | ].
      destruct Hpost as [[Hge Hfirst] | Hwithin].
      * left. split; [lia | ]. split; assumption.
      * right. exact Hwithin.
Qed.
(** A bracket at least [2 ^ fuel - 1] wide, none of whose blocks lies
    within the tolerance, outlasts [fuel] probes. *)
Lemma bisect_exhausts (timestamp_of : Z -> Z) (latest_num target tol : Z)
    (fuel : nat) :
  (forall b, 0 <= b <= latest_num -> tol < Z.abs (timestamp_of b - target)) ->
  forall low high,
    0 <= low -> high <= latest_num ->
    2 ^ Z.of_nat fuel - 1 <= high - low ->
    bisect (chain_of latest_num timestamp_of) target tol fuel low high
    = Raise (ValueError "Exceeded maximum iterations; did not converge.").
Proof.
  intros Hfar.
  induction fuel as [ | fuel IH]; intros low high Hlow Hhigh Hsize;
    [reflexivity | ].
  assert (Hpow : 2 ^ Z.of_nat (S fuel) = 2 * 2 ^ Z.of_nat fuel).
  { rewrite Nat2Z.inj_succ, Z.pow_succ_r by lia. reflexivity. }
  assert (Hpos : 0 < 2 ^ Z.of_nat fuel) by (apply Z.pow_pos_nonneg; lia).
  cbn [bisect].
  destruct (Z.ltb_spec low high) as [Hlt | Hge]; [ | lia].
  pose proof (midpoint_bounds low high Hlt) as Hmid.
  set (mid := (low + high) / 2) in *.
  assert (Hmid2 : 2 * mid <= low + high < 2 * mid + 2).
  { unfold mid. pose proof (Z.div_mod (low + high) 2 ltac:(lia)).
    pose proof (Z.mod_pos_bound (low + high) 2 ltac:(lia)). lia. }
  cbn [chain_of Web3.get_block Web3.block_timestamp bind].
  destruct (Z.leb_spec (Z.abs (timestamp_of mid - target)) tol) as [Hin | _].
  { specialize (Hfar mid ltac:(lia)). lia. }
  destruct (timestamp_of mid <? target); apply IH; lia.
Qed.

(** X2: the three errors of [get_block_by_timestamp].  A naive datetime is
    refused before the provider is consulted; a target after the head's
    timestamp is refused; and on a chain of at least [2 ^ max_tries - 1]
    blocks after block 0, none within the tolerance of the target, the
    search uses up its tries and raises, also when the bracket has closed
    on the last allowed try. *)
Theorem get_block_by_timestamp_errors :
  (forall (web3 : Web3.t) (approx_block_time : option F)
          (tolerance_seconds max_tries seconds : Z),
     get_block_by_timestamp web3
       (TDatetime {| datetime.seconds := seconds; datetime.tzinfo := None |})
       approx_block_time tolerance_seconds max_tries
     = Raise (ValueError "datetime must be timezone-aware (UTC)."))
  /\ (forall (web3 : Web3.t) (approx_block_time : option F)
             (tolerance_seconds max_tries : Z) (head : Web3.block)
             (target_ts : Z),
        Web3.get_block web3 Web3.latest = Ok head ->
        Web3.block_timestamp head < target_ts ->
        get_block_by_timestamp web3 (TInt target_ts) approx_block_time
          tolerance_seconds max_tries
        = Raise (ValueError
            "Target time is in the future relative to latest block."))
  /\ (forall (timestamp_of : Z -> Z)
             (latest_num target_ts tolerance_seconds max_tries : Z),
        0 <= latest_num ->
        2 ^ max_tries - 1 <= latest_num ->
        target_ts <= timestamp_of latest_num ->
        (forall b, 0 <= b <= latest_num ->
                   tolerance_seconds < Z.abs (timestamp_of b - target_ts)) ->
        get_block_by_timestamp (F := F) (chain_of latest_num timestamp_of)
          (TInt target_ts) None tolerance_seconds max_tries
        = Raise (ValueError "Exceeded maximum iterations; did not converge.")).
Proof.
  split; [ | split].
  - reflexivity.
  - intros web3 approx_block_time tolerance_seconds max_tries head target_ts
      Hhead Hfuture.
    unfold get_block_by_timestamp. cbn [bind]. rewrite Hhead. cbn [bind].
    destruct (Z.gtb_spec target_ts (Web3.block_timestamp head));
      [reflexivity | lia].
  - intros timestamp_of latest_num target_ts tolerance_seconds max_tries
      Hlatest Hsize Hpast Hfar.
    unfold get_block_by_timestamp.
    cbn [bind chain_of Web3.get_block Web3.block_timestamp Web3.block_number
         initial_window].
    destruct (Z.gtb_spec target_ts (timestamp_of latest_num)); [lia | ].
    destruct (Z.leb_spec (Z.abs (timestamp_of latest_num - target_ts))
                tolerance_seconds) as [Hin | _].
    { specialize (Hfar latest_num ltac:(lia)). lia. }
    apply (bisect_exhausts timestamp_of latest_num); try assumption; try lia.
    destruct (Z.leb_spec 0 max_tries) as [Hnn | Hneg].
    + rewrite Z2Nat.id by lia. lia.
    + replace (Z.to_nat max_tries) with 0%nat by lia. cbn. lia.
Qed.
End BlockSearchExtras.

(** One probe is allowed on a two-block chain, and used: block 0 lies
    before the target, the bracket closes on block 1, and the function
    raises instead of returning it. *)
Lemma get_block_by_timestamp_errors_witness :
  get_block_by_timestamp (F := float) (uniform_chain 3600 2)
    (TDatetime (hour 1)) None 5 50
  = Raise (ValueError "datetime must be timezone-aware (UTC).")
  /\ get_block_by_timestamp (F := float) (uniform_chain 3600 2)
       (TInt 7201) None 5 50
     = Raise (ValueError
         "Target time is in the future relative to latest block.")
  /\ get_block_by_timestamp (F := float) (chain_of 1 (fun n => 100 * n)%Z)
       (TInt 50) None 5 1
     = Raise (ValueError "Exceeded maximum iterations; did not converge.").
Proof.
  pose proof (get_block_by_timestamp_errors (F := float)) as (Hnaive & Hfuture & Hexhaust).
  split; [exact (Hnaive (uniform_chain 3600 2) None 5%Z 50%Z 3600%Z) | ].
  split.
  - apply (Hfuture (uniform_chain 3600 2) None 5%Z 50%Z
             {| Web3.block_number := 3600; Web3.block_timestamp := 7200 |});
      [reflexivity | reflexivity].
  - apply (Hexhaust (fun n => 100 * n)%Z 1%Z 50%Z 5%Z 1%Z); lia.
Defined.

(** The search for second 100 on the synthetic chain of 3600 blocks. *)
Lemma get_block_by_timestamp_in_range_witness :
  get_block_by_timestamp (F := float) (uniform_chain 3600 2) (TInt 100) None
    5 50 = Ok 49
  /\ 0 <= 49 <= 3600.
Proof.
  split; [vm_compute; reflexivity | ].
  apply (get_block_by_timestamp_in_range (F := float) (uniform_chain 3600 2)
           (TInt 100) None 5 50
           {| Web3.block_number := 3600; Web3.block_timestamp := 7200 |} 49);
    [reflexivity | cbn; lia | vm_compute; reflexivity].
Defined.

(** A chain whose block [n] is stamped [n * n]: the first block not before
    second 50 is block 8. *)
Lemma resolve_monotone_chain_witness :
  exists b,
    get_block_by_timestamp (F := float) (chain_of 10 (fun n => n * n))
      (TInt 50) None 0 50 = Ok b
    /\ 0 <= b <= 10
    /\ (first_block_not_before (fun n => n * n) 10 50 b
        \/ Z.abs (b * b - 50) <= 0).
Proof.
  apply (resolve_monotone_chain (F := float) (fun n => n * n) 10 50 0 50);
    [intros a b Ha Hb; nia | lia | cbn; lia | reflexivity].
Defined.

Section NarrowedSearch.

Lemma Int_part_quotient (d bt : Z) :
  (0 < bt)%Z -> Int_part (IZR d / IZR bt) = (d / bt)%Z.
Proof.
  intros Hbt. symmetry. apply Int_part_spec.
  assert (HbtR : (0 < IZR bt)%R) by (apply IZR_lt; lia).
  pose proof (Z.div_mod d bt ltac:(lia)) as Hdm.
  pose proof (Z.mod_pos_bound d bt Hbt) as Hmod.
  assert (Hlo : (IZR (d / bt) * IZR bt <= IZR d)%R).
  { rewrite <- mult_IZR. apply IZR_le. lia. }
  assert (Hhi : (IZR d < (IZR (d / bt) + 1) * IZR bt)%R).
  { rewrite <- (plus_IZR _ 1), <- mult_IZR. apply IZR_lt. lia. }
  split.
  - apply Rmult_lt_reg_r with (IZR bt); [exact HbtR | ].
    unfold Rdiv, Rminus. rewrite Rmult_plus_distr_r.
    rewrite Rmult_assoc, Rinv_l by lra. lra.
  - apply Rmult_le_reg_r with (IZR bt); [exact HbtR | ].
    unfold Rdiv. rewrite Rmult_assoc, Rinv_l by lra. lra.
Qed.

Local Open Scope Z_scope.

Lemma initial_window_exact_estimate (latest_num block_time target_ts : Z) :
  0 < block_time -> target_ts <= latest_num * block_time ->
  let blocks_back := (latest_num * block_time - target_ts) / block_time in
  let guess := Z.max 0 (Z.min (latest_num - blocks_back) latest_num) in
  let low := Z.max 0 (guess - 2 * blocks_back) in
  let high := Z.min latest_num (guess + 2 * blocks_back) in
  initial_window (F := R) (Some (IZR block_time)) latest_num
    (latest_num * block_time) target_ts
  = if low >=? high then Ok (0, latest_num) else Ok (low, high).
Proof.
  intros Hbt Htarget. cbv zeta. unfold initial_window.
  assert (HbtR : (0 < IZR block_time)%R) by (apply IZR_lt; lia).
  cbn [feqb fltb of_Z R_PyFloat].
  rewrite Reqb_false by lra. rewrite Rltb_true by lra. cbn [negb andb].
  rewrite py_truediv_R by lra. cbn [bind to_int R_PyFloat]. unfold R_to_int.
  cbn [bind].
  destruct (Rle_dec 0 (IZR (latest_num * block_time - target_ts)
                       / IZR block_time)) as [_ | Hneg].
  - rewrite Int_part_quotient by exact Hbt. reflexivity.
  - exfalso. apply Hneg. apply Rmult_le_pos.
    + apply IZR_le. lia.
    + apply Rlt_le, Rinv_0_lt_compat. exact HbtR.
Qed.

(** X4: the narrowed search.  On a chain with uniform block spacing, given
    that spacing as [approx_block_time], the window around the estimate
    still brackets the answer: the search returns the first block at or
    after the target, or one within the tolerance of it. *)
Theorem resolve_uniform_chain_exact_estimate
    (latest_num block_time target_ts tolerance_seconds max_tries : Z) :
  0 < block_time -> 0 <= latest_num ->
  target_ts <= latest_num * block_time ->
  latest_num < 2 ^ (max_tries - 1) ->
  exists b,
    get_block_by_timestamp (F := R) (uniform_chain latest_num block_time)
      (TInt target_ts) (Some (IZR block_time)) tolerance_seconds max_tries
    = Ok b
    /\ 0 <= b <= latest_num
    /\ (first_block_at_or_after block_time latest_num target_ts b
        \/ Z.abs (b * block_time - target_ts) <= tolerance_seconds).
Proof.
  intros Hbt Hlatest Htarget Hsize.
  assert (Htries : 0 < max_tries).
  { destruct (Z_lt_le_dec 0 max_tries); [assumption | ].
    destruct (Z.eq_dec max_tries 0) as [-> | ]; [simpl in Hsize; lia | ].
    rewrite Z.pow_neg_r in Hsize by lia. lia. }
  unfold get_block_by_timestamp.
  cbn [bind uniform_chain Web3.get_block Web3.block_timestamp
       Web3.block_number].
  destruct (Z.gtb_spec target_ts (latest_num * block_time)); [lia | ].
  destruct (Z.leb_spec (Z.abs (latest_num * block_time - target_ts))
              tolerance_seconds) as [Hquick | Hquick].
  - exists latest_num. split; [reflexivity | ]. split; [lia | ].
    right. exact Hquick.
  - rewrite initial_window_exact_estimate by lia. cbv zeta.
    set (d := latest_num * block_time - target_ts).
    set (bb := d / block_time).
    assert (Hd : 0 <= d) by (unfold d; lia).
    assert (Hbb : 0 <= bb) by (apply Z.div_pos; lia).
    assert (Hbb_lo : bb * block_time <= d).
    { unfold bb. pose proof (Z.mul_div_le d block_time Hbt). lia. }
    assert (Hbb_hi : d < (bb + 1) * block_time).
    { unfold bb. pose proof (Z.mul_succ_div_gt d block_time Hbt). lia. }
    set (guess := Z.max 0 (Z.min (latest_num - bb) latest_num)).
    set (low := Z.max 0 (guess - 2 * bb)).
    set (high := Z.min latest_num (guess + 2 * bb)).
    assert (Hfinish : forall lo hi,
              0 <= lo <= hi -> hi <= latest_num ->
              (forall b, 0 <= b < lo -> b * block_time < target_ts) ->
              target_ts <= hi * block_time ->
              exists b,
                bisect (uniform_chain latest_num block_time) target_ts
                  tolerance_seconds (Z.to_nat max_tries) lo hi = Ok b
                /\ 0 <= b <= latest_num
                /\ (first_block_at_or_after block_time latest_num target_ts b
                    \/ Z.abs (b * block_time - target_ts)
                       <= tolerance_seconds)).
    { intros lo hi Hlohi Hhi Hbelow Habove.
      destruct (bisect_uniform block_time target_ts tolerance_seconds Hbt
                  latest_num (Z.to_nat max_tries) lo hi)
        as (b & Hb & Hrange & Hpost); try assumption.
      - rewrite Z2Nat.id by lia. lia.
      - exists b. split; [exact Hb | ]. split; [lia | ].
        destruct Hpost as [[Hge Hfirst] | Hwithin].
        + left. split; [lia | ]. split; assumption.
        + right. exact Hwithin. }
    destruct (Z.geb_spec low high) as [Hdeg | Hok]; cbn [bind].
    + apply Hfinish; lia.
    + apply Hfinish; try (unfold low, high, guess; lia).
      intros b Hb. unfold low, guess in Hb. unfold d in *. nia.
Qed.
End NarrowedSearch.

(** The narrowed search for second 100 on the synthetic chain, told that
    blocks are 2 s apart. *)
Lemma resolve_uniform_chain_exact_estimate_witness :
  exists b,
    get_block_by_timestamp (F := R) (uniform_chain 3600 2) (TInt 100)
      (Some 2%R) 5 50 = Ok b
    /\ 0 <= b <= 3600
    /\ (first_block_at_or_after 2 3600 100 b
        \/ Z.abs (b * 2 - 100) <= 5).
Proof.
  apply (resolve_uniform_chain_exact_estimate 3600 2 100 5 50);
    [lia | lia | lia | reflexivity].
Defined.



(** ** liquidity_manager.py *)

Section Valuation.
Local Open Scope R_scope.

Lemma get_position_value_below (self : LiquidityManager.t R)
    (pos : Position.t R) (p : R) :
  LiquidityManager.position self = Some pos ->
  0 < Position.p_a pos -> Position.p_a pos < Position.p_b pos ->
  p <= Position.p_a pos ->
  LiquidityManager._get_position_value self p =
  Ok (Position.L_human pos
      * (1 / sqrt (Position.p_a pos) - 1 / sqrt (Position.p_b pos)) * p).
Proof.
  intros Hpos Ha Hab Hp.
  assert (Hsa : 0 < sqrt (Position.p_a pos)) by (apply sqrt_lt_R0; lra).
  assert (Hsb : 0 < sqrt (Position.p_b pos)) by (apply sqrt_lt_R0; lra).
  unfold LiquidityManager._get_position_value. rewrite Hpos. cbn.
  rewrite Rleb_true by lra.
  rewrite !math_sqrt_R by lra. cbn.
  rewrite !py_truediv_R by lra. reflexivity.
Qed.

Lemma position_value_clamped (self : LiquidityManager.t R)
    (pos : Position.t R) (p : R) :
  LiquidityManager.position self = Some pos ->
  0 < Position.p_a pos -> Position.p_a pos < Position.p_b pos ->
  LiquidityManager._get_position_value self p =
  Ok (mixed_value (Position.L_human pos) (Position.p_a pos) (Position.p_b pos)
        (Rmax (Position.p_a pos) (Rmin p (Position.p_b pos))) p).
Proof.
  intros Hpos Ha Hab. unfold mixed_value.
  destruct (Rle_dec p (Position.p_a pos)) as [Hlow | Hlow].
  - rewrite (get_position_value_below self pos p Hpos Ha Hab Hlow).
    rewrite Rmin_left by lra. rewrite Rmax_left by lra. f_equal. ring.
  - destruct (Rle_dec (Position.p_b pos) p) as [Hhigh | Hhigh].
    + rewrite (get_position_value_above self pos p Hpos) by lra.
      rewrite Rmin_right by lra. rewrite Rmax_right by lra. f_equal. ring.
    + rewrite (get_position_value_inside self pos p Hpos) by lra.
      rewrite Rmin_left by lra. rewrite Rmax_right by lra. reflexivity.
Qed.

(** X5: the valuation is continuous at both bounds: at [p_a] the all-base
    branch, and at [p_b] the all-quote branch, give what the in-range
    formula gives there. *)
Theorem position_value_seams (self : LiquidityManager.t R)
    (pos : Position.t R) :
  LiquidityManager.position self = Some pos ->
  0 < Position.p_a pos -> Position.p_a pos < Position.p_b pos ->
  let L := Position.L_human pos in
  let p_a := Position.p_a pos in
  let p_b := Position.p_b pos in
  LiquidityManager._get_position_value self p_a
  = Ok (mixed_value L p_a p_b p_a p_a)
  /\ LiquidityManager._get_position_value self p_b
     = Ok (mixed_value L p_a p_b p_b p_b)
  /\ mixed_value L p_a p_b p_b p_b = L * (sqrt p_b - sqrt p_a)
  /\ mixed_value L p_a p_b p_a p_a
     = L * (1 / sqrt p_a - 1 / sqrt p_b) * p_a.
Proof.
  intros Hpos Ha Hab L p_a p_b.
  split; [ | split; [ | split]].
  - unfold p_a at 1. rewrite (position_value_clamped self pos _ Hpos Ha Hab).
    fold p_a p_b L. rewrite Rmin_left by (unfold p_a, p_b; lra).
    rewrite Rmax_left by lra. reflexivity.
  - unfold p_b at 1. rewrite (position_value_clamped self pos _ Hpos Ha Hab).
    fold p_a p_b L. rewrite Rmin_left by lra.
    rewrite Rmax_right by (unfold p_a, p_b; lra). reflexivity.
  - unfold mixed_value. ring.
  - unfold mixed_value. ring.
Qed.

Lemma mixed_value_at_sqrt (L a b s : R) :
  0 < a -> 0 < b -> 0 < s ->
  mixed_value L (a * a) (b * b) (s * s) (s * s)
  = L * ((2 * s * b - s * s - a * b) / b).
Proof.
  intros Ha Hb Hs. unfold mixed_value.
  rewrite !sqrt_square by lra. field. lra.
Qed.

Lemma mixed_growth (a b s t : R) :
  0 < b -> s <= t -> t <= b ->
  (2 * s * b - s * s - a * b) / b <= (2 * t * b - t * t - a * b) / b.
Proof.
  intros Hb Hst Htb.
  apply Rmult_le_compat_r; [apply Rlt_le, Rinv_0_lt_compat; exact Hb | ].
  nra.
Qed.

(** X6: for a position of non-negative liquidity on a range
    [0 < p_a < p_b], the value never decreases as the price rises, and
    never exceeds the all-quote value [L * (sqrt p_b - sqrt p_a)]. *)
Theorem position_value_monotone (self : LiquidityManager.t R)
    (pos : Position.t R) (p q : R) :
  LiquidityManager.position self = Some pos ->
  0 < Position.p_a pos -> Position.p_a pos < Position.p_b pos ->
  0 <= Position.L_human pos ->
  p <= q ->
  exists value_p value_q,
    LiquidityManager._get_position_value self p = Ok value_p
    /\ LiquidityManager._get_position_value self q = Ok value_q
    /\ value_p <= value_q
    /\ value_q
       <= Position.L_human pos
          * (sqrt (Position.p_b pos) - sqrt (Position.p_a pos)).
Proof.
  intros Hpos Ha Hab HL Hpq.
  set (L := Position.L_human pos) in *.
  set (a := sqrt (Position.p_a pos)).
  set (b := sqrt (Position.p_b pos)).
  assert (Hsa : 0 < a) by (apply sqrt_lt_R0; lra).
  assert (Hsab : a < b) by (apply sqrt_lt_1; lra).
  assert (Eaa : Position.p_a pos = a * a) by (symmetry; apply sqrt_sqrt; lra).
  assert (Ebb : Position.p_b pos = b * b) by (symmetry; apply sqrt_sqrt; lra).
  (* the value at any price, in terms of the root of the clamped price *)
  assert (Hval : forall x,
            exists s v,
              LiquidityManager._get_position_value self x = Ok v
              /\ a <= s <= b
              /\ (x <= Position.p_a pos -> s = a)
              /\ (Position.p_a pos <= x -> x <= Position.p_b pos ->
                  s * s = x)
              /\ (Position.p_b pos <= x -> s = b)
              /\ (Position.p_a pos <= x ->
                  v = L * ((2 * s * b - s * s - a * b) / b))
              /\ (x <= Position.p_a pos ->
                  v = L * ((b - a) / (a * b)) * x)).
  { intros x.
    destruct (Rle_dec x (Position.p_a pos)) as [Hlow | Hlow].
    - exists a. eexists. split;
        [apply (get_position_value_below self pos x Hpos Ha Hab Hlow) | ].
      fold L a b. split; [lra | ]. split; [reflexivity | ].
      split; [intros; assert (x = a * a) by lra; subst x; reflexivity | ].
      split; [intros; lra | ].
      split.
      + intros Hx. assert (x = a * a) by lra. subst x. field. lra.
      + intros _. field. lra.
    - destruct (Rle_dec (Position.p_b pos) x) as [Hhigh | Hhigh].
      + exists b. eexists. split;
          [apply (get_position_value_above self pos x Hpos); lra | ].
        fold L a b. split; [lra | ]. split; [intros; lra | ].
        split; [intros; lra | ]. split; [reflexivity | ].
        split; [intros _; field; lra | intros; lra].
      + assert (Hsx : 0 < sqrt x) by (apply sqrt_lt_R0; lra).
        assert (Exx : sqrt x * sqrt x = x) by (apply sqrt_sqrt; lra).
        exists (sqrt x). eexists. split;
          [apply (get_position_value_inside self pos x Hpos); lra | ].
        fold L a b.
        assert (a <= sqrt x) by (apply sqrt_le_1; lra).
        assert (sqrt x <= b) by (apply sqrt_le_1; lra).
        split; [lra | ]. split; [intros; lra | ].
        split; [intros; exact Exx | ]. split; [intros; lra | ].
        split; [ | intros; lra].
        intros _. rewrite <- Exx at 2. field. lra. }
  destruct (Hval p) as (s & vp & Hp & Hs & Hs_low & Hs_mid & Hs_high & Hvp & Hvp_low).
  destruct (Hval q) as (t & vq & Hq & Ht & Ht_low & Ht_mid & Ht_high & Hvq & Hvq_low).
  exists vp, vq. split; [exact Hp | ]. split; [exact Hq | ].
  assert (Hinvb : 0 < / b) by (apply Rinv_0_lt_compat; lra).
  assert (Hcoef : 0 <= (b - a) / (a * b)).
  { apply Rmult_le_pos; [lra | ].
    apply Rlt_le, Rinv_0_lt_compat, Rmult_lt_0_compat; lra. }
  assert (Htop : forall u, a <= u <= b ->
            L * ((2 * u * b - u * u - a * b) / b) <= L * (b - a)).
  { intros u Hu. apply Rmult_le_compat_l; [exact HL | ].
    replace (b - a) with ((2 * b * b - b * b - a * b) / b) by (field; lra).
    apply mixed_growth; lra. }
  assert (Hbottom : forall u, a <= u <= b ->
            L * ((b - a) / (a * b)) * (a * a)
            <= L * ((2 * u * b - u * u - a * b) / b)).
  { intros u Hu.
    replace (L * ((b - a) / (a * b)) * (a * a))
      with (L * ((2 * a * b - a * a - a * b) / b)) by (field; lra).
    apply Rmult_le_compat_l; [exact HL | ]. apply mixed_growth; lra. }
  split.
  - destruct (Rle_dec q (Position.p_a pos)) as [Hq_low | Hq_low].
    + rewrite Hvp_low, Hvq_low by lra.
      apply Rmult_le_compat_l; [ | exact Hpq].
      apply Rmult_le_pos; assumption.
    + rewrite Hvq by lra.
      destruct (Rle_dec p (Position.p_a pos)) as [Hp_low | Hp_low].
      * rewrite Hvp_low by lra.
        apply Rle_trans with (L * ((b - a) / (a * b)) * (a * a)).
        -- apply Rmult_le_compat_l; [apply Rmult_le_pos; assumption | lra].
        -- apply Hbottom. exact Ht.
      * rewrite Hvp by lra.
        apply Rmult_le_compat_l; [exact HL | ].
        apply mixed_growth; [lra | | lra].
        destruct (Rle_dec (Position.p_b pos) q) as [Hq_high | Hq_high].
        -- rewrite (Ht_high Hq_high). lra.
        -- assert (s * s = p) by (apply Hs_mid; lra).
           assert (t * t = q) by (apply Ht_mid; lra).
           nra.
  - destruct (Rle_dec q (Position.p_a pos)) as [Hq_low | Hq_low].
    + rewrite Hvq_low by lra.
      apply Rle_trans with (L * ((b - a) / (a * b)) * (a * a)).
      * apply Rmult_le_compat_l; [apply Rmult_le_pos; assumption | lra].
      * apply Rle_trans with (L * ((2 * a * b - a * a - a * b) / b));
          [apply Hbottom; lra | apply Htop; lra].
    + rewrite Hvq by lra. apply Htop. exact Ht.
Qed.
End Valuation.

Section OpenExtras.
Local Open Scope R_scope.

(** X7: opening at a positive price with factors [0 < lower <= 1 <= upper],
    [lower < upper], and valuing at that same price gives back the
    manager's capital, also when a factor is exactly 1 and the price sits
    on a bound. *)
Theorem open_then_value (self : LiquidityManager.t R) (price : R)
    (ts : datetime.t) :
  let range := Config.LIQUIDITY_RANGE (LiquidityManager.config self) in
  0 < price ->
  0 < Config.lower_bound_factor range <= 1 ->
  1 <= Config.upper_bound_factor range ->
  Config.lower_bound_factor range < Config.upper_bound_factor range ->
  exists pos self',
    LiquidityManager.open_position price ts self = (Ok pos, self')
    /\ LiquidityManager.get_position_value price self'
       = (Ok (LiquidityManager.current_capital self), self').
Proof.
  intros range Hp [Hlf Hlf1] Huf Hlu.
  destruct (open_position_R self price ts Hp (conj Hlf Hlu))
    as (Hopen & Hab & Hd).
  fold range in Hopen, Hab, Hd.
  set (p_a := price * Config.lower_bound_factor range) in *.
  set (p_b := price * Config.upper_bound_factor range) in *.
  assert (Hpa : p_a <= price) by (unfold p_a; nra).
  assert (Hpb : price <= p_b) by (unfold p_b; nra).
  assert (Hpa0 : 0 < p_a) by (unfold p_a; nra).
  assert (Hclamp : py_max (py_min price p_b) p_a = price).
  { unfold py_max, py_min. cbn [fltb R_PyFloat].
    rewrite (Rltb_false p_b price) by lra.
    rewrite (Rltb_false price p_a) by lra. reflexivity. }
  rewrite Hclamp in Hopen, Hd.
  eexists. eexists. split; [exact Hopen | ].
  unfold LiquidityManager.get_position_value, bindM, gets, lift.
  f_equal.
  match goal with
  | |- LiquidityManager._get_position_value ?m _ = _ =>
      rewrite (position_value_clamped m _ price eq_refl)
        by (cbn [Position.p_a Position.p_b]; lra)
  end.
  cbn [Position.p_a Position.p_b Position.L_human]. f_equal.
  rewrite Rmin_left by lra. rewrite Rmax_right by lra.
  unfold mixed_value, sizing_denominator in *.
  set (x := 1 / sqrt price - 1 / sqrt p_b) in *.
  set (y := sqrt price - sqrt p_a) in *.
  field. lra.
Qed.

(** X8: with factors [lower <= upper], a price of zero or less makes
    [open_position] raise the invalid-bounds error, never the
    price-must-be-positive one; so do inverted factors at a price of zero
    or more.  The manager is left as it was. *)
Theorem open_position_invalid_range (self : LiquidityManager.t R) (price : R)
    (ts : datetime.t) :
  let range := Config.LIQUIDITY_RANGE (LiquidityManager.config self) in
  (price <= 0
   /\ Config.lower_bound_factor range <= Config.upper_bound_factor range)
  \/ (0 <= price
      /\ Config.upper_bound_factor range <= Config.lower_bound_factor range) ->
  LiquidityManager.open_position price ts self
  = (Raise (ValueError "Invalid bounds: lower bound must be < upper bound."),
     self).
Proof.
  intros range Hcase. rewrite open_position_eq. cbv zeta. fold range.
  cbn [fleb fmul R_PyFloat].
  rewrite Rleb_true; [reflexivity | ]. destruct Hcase as [[? ?] | [? ?]]; nra.
Qed.

(** X12: rebalancing an open position under one shared configuration with
    factors [0 < lower < upper] stands or falls with its close step: if
    that raises, the rebalance raises the same exception and the manager
    is left as it was; if it returns, the price was positive and the
    rebalance returns the capital the close step wrote, with the new
    position in place. *)
Theorem rebalance_position_valid_config (self : LiquidityManager.t R)
    (price : R) (ts : datetime.t) (pos : Position.t R) :
  let range := Config.LIQUIDITY_RANGE (LiquidityManager.config self) in
  0 < Config.lower_bound_factor range < Config.upper_bound_factor range ->
  LiquidityManager.position self = Some pos ->
  match LiquidityManager.close_position (LiquidityManager.config self) price
          ts self with
  | (Ok capital, closed) =>
      0 < price
      /\ exists new_pos self',
           LiquidityManager.rebalance_position (LiquidityManager.config self)
             price ts self = (Ok (new_pos, capital), self')
           /\ LiquidityManager.position self' = Some new_pos
           /\ LiquidityManager.current_capital self' = capital
  | (Raise e, closed) =>
      closed = self
      /\ LiquidityManager.rebalance_position (LiquidityManager.config self)
           price ts self = (Raise e, self)
  end.
Proof.
  intros range Hf Hpos. rewrite rebalance_position_eq.
  destruct (LiquidityManager.close_position _ price ts self)
    as [[capital | e] closed] eqn:Hclose.
  - pose proof Hclose as Hclose'. rewrite close_position_eq, Hpos in Hclose'.
    destruct (LiquidityManager._get_position_value self price);
      [ | discriminate].
    destruct (FeeCalculator.calculate_fees _ _ _ _) as [fees | ] eqn:Hfees;
      [ | discriminate].
    apply calculate_fees_price_positive in Hfees; [ | apply Hf].
    injection Hclose' as Hcapital Hclosed.
    assert (Hcfg : LiquidityManager.config closed
                   = LiquidityManager.config self)
      by (rewrite <- Hclosed; reflexivity).
    assert (Hcap : LiquidityManager.current_capital closed = capital)
      by (rewrite <- Hclosed, <- Hcapital; reflexivity).
    split; [exact Hfees | ].
    destruct (open_position_R closed price ts Hfees) as (Hok & _).
    + rewrite Hcfg. exact Hf.
    + rewrite Hok. cbv beta iota zeta.
      cbn [LiquidityManager.current_capital LiquidityManager.set_position].
      rewrite Hcap. eexists. eexists.
      split; [reflexivity | ]. split; [reflexivity | exact Hcap].
  - pose proof (close_position_raises _ _ _ _ _ _ Hclose) as ->.
    split; reflexivity.
Qed.
End OpenExtras.

Section LifecycleExtras.
Context {F : Type} `{PyFloat F} `{PyLog F}.
Variable module_config : Config.t F.

(** X9: a second [close_position] after one that returned does nothing: it
    returns the capital the first one wrote, without reading the chain,
    and leaves the manager as the first left it; the manager then values
    at 0 at any price. *)
Theorem close_position_twice (self self' : LiquidityManager.t F)
    (price price' : F) (ts ts' : datetime.t) (capital : F) :
  LiquidityManager.close_position module_config price ts self
  = (Ok capital, self') ->
  LiquidityManager.current_capital self' = capital
  /\ LiquidityManager.close_position module_config price' ts' self'
     = (Ok capital, self')
  /\ LiquidityManager.get_position_value price' self' = (Ok (of_Z 0), self').
Proof.
  intros Hclose.
  assert (Hstate : LiquidityManager.position self' = None
                   /\ LiquidityManager.current_capital self' = capital).
  { rewrite close_position_eq in Hclose.
    destruct (LiquidityManager.position self) as [pos | ] eqn:Hpos.
    - destruct (LiquidityManager._get_position_value self price);
        [ | discriminate].
      destruct (FeeCalculator.calculate_fees _ _ _ _); [ | discriminate].
      injection Hclose as <- <-. split; reflexivity.
    - injection Hclose as <- <-. split; [exact Hpos | reflexivity]. }
  destruct Hstate as [Hnone Hcap].
  split; [exact Hcap | ]. split.
  - rewrite close_position_eq, Hnone, Hcap. reflexivity.
  - unfold LiquidityManager.get_position_value, bindM, gets, lift.
    unfold LiquidityManager._get_position_value. rewrite Hnone. reflexivity.
Qed.

(** X10: on a manager without a position, [rebalance_position] is
    [open_position]: its close step reads nothing and changes nothing. *)
Theorem rebalance_position_when_empty (self : LiquidityManager.t F)
    (price : F) (ts : datetime.t) :
  LiquidityManager.position self = None ->
  LiquidityManager.rebalance_position module_config price ts self
  = match LiquidityManager.open_position price ts self with
    | (Ok pos, self') => (Ok (pos, LiquidityManager.current_capital self), self')
    | (Raise e, self') => (Raise e, self')
    end.
Proof.
  intros Hnone. rewrite rebalance_position_eq, close_position_eq, Hnone.
  pose proof (open_position_keeps_capital self price ts) as Hcap.
  destruct (LiquidityManager.open_position price ts self) as [[pos | e] self'];
    [ | reflexivity].
  cbn [snd] in Hcap. rewrite Hcap. reflexivity.
Qed.

(** X11: when [rebalance_position] returns, the manager holds the position
    it returns, opened at the rebalance price and timestamp with the
    capital the close step wrote, which is also the capital returned. *)
Theorem rebalance_position_returns (self self' : LiquidityManager.t F)
    (price : F) (ts : datetime.t) (pos : Position.t F) (capital : F) :
  LiquidityManager.rebalance_position module_config price ts self
  = (Ok (pos, capital), self') ->
  LiquidityManager.position self' = Some pos
  /\ LiquidityManager.current_capital self' = capital
  /\ Position.open_price pos = price
  /\ Position.capital_deployed pos = capital
  /\ Position.open_timestamp pos = LiquidityManager.ensure_utc ts
  /\ exists closed,
       LiquidityManager.close_position module_config price ts self
       = (Ok capital, closed).
Proof.
  rewrite rebalance_position_eq.
  destruct (LiquidityManager.close_position module_config price ts self)
    as [[c | e] self1] eqn:Hclose; [ | discriminate].
  pose proof (open_position_keeps_capital self1 price ts) as Hkeep.
  assert (Hc : LiquidityManager.current_capital self1 = c).
  { rewrite close_position_eq in Hclose.
    destruct (LiquidityManager.position self).
    - destruct (LiquidityManager._get_position_value self price);
        [ | discriminate].
      destruct (FeeCalculator.calculate_fees _ _ _ _); [ | discriminate].
      injection Hclose as <- <-. reflexivity.
    - injection Hclose as <- <-. reflexivity. }
  revert Hkeep. rewrite open_position_eq. cbv zeta.
  destruct (fleb _ _); [discriminate | ].
  destruct (LiquidityManager._compute_liquidity_for_capital _ _ _ _);
    [ | discriminate].
  cbn [snd]. intros Hkeep [= <- <- <-].
  cbn [LiquidityManager.position LiquidityManager.set_position
       LiquidityManager.current_capital Position.open_price
       Position.capital_deployed Position.open_timestamp].
  repeat split; try reflexivity; try exact Hc.
  exists self1. rewrite <- Hc. reflexivity.
Qed.
End LifecycleExtras.

Section SyntheticRuns.
Local Open Scope R_scope.

(** On the synthetic chain, closing the tracked position at 2324 after one
    hour returns. *)
Lemma synthetic_close_returns :
  exists capital closed,
    LiquidityManager.close_position default_config 2324 (hour 1)
      (Main.lm tracking_state) = (Ok capital, closed).
Proof.
  rewrite close_position_eq.
  change (LiquidityManager.position (Main.lm (tracking_state (F := R))))
    with (Some (tracked_position (F := R))).
  rewrite (get_position_value_above (Main.lm tracking_state) tracked_position
             2324 eq_refl)
    by (cbn; lra).
  destruct (synthetic_calculate_fees default_config
              (closing_fee_calculator (Main.lm tracking_state)
                 tracked_position (hour 1))
              2324 eq_refl eq_refl eq_refl) as (fees & Hfees);
    try (cbn; lra).
  rewrite Hfees. eexists. eexists. reflexivity.
Qed.

Lemma synthetic_rebalance_returns :
  exists pos capital self',
    LiquidityManager.rebalance_position default_config 2324 (hour 1)
      (Main.lm tracking_state) = (Ok (pos, capital), self').
Proof.
  destruct synthetic_close_returns as (capital & closed & Hclose).
  rewrite rebalance_position_eq, Hclose.
  assert (Hcfg : LiquidityManager.config closed = default_config).
  { rewrite close_position_eq in Hclose.
    change (LiquidityManager.position (Main.lm (tracking_state (F := R))))
      with (Some (tracked_position (F := R))) in Hclose.
    destruct (LiquidityManager._get_position_value _ _); [ | discriminate].
    destruct (FeeCalculator.calculate_fees _ _ _ _); [ | discriminate].
    injection Hclose as _ <-. reflexivity. }
  destruct (open_position_R closed 2324 (hour 1)) as (Hopen & _ & _);
    [lra | rewrite Hcfg; cbn; lra | ].
  rewrite Hopen. eexists. eexists. eexists. reflexivity.
Qed.
End SyntheticRuns.

(** The tracked position, valued on its bounds 1700 and 2300. *)
Lemma position_value_seams_witness :
  LiquidityManager._get_position_value (offline_manager (F := R)) 1700%R
  = Ok (mixed_value 1536 1700 2300 1700 1700)
  /\ LiquidityManager._get_position_value (offline_manager (F := R)) 2300%R
     = Ok (mixed_value 1536 1700 2300 2300 2300)
  /\ mixed_value 1536 1700 2300 2300 2300
     = (1536 * (sqrt 2300 - sqrt 1700))%R
  /\ mixed_value 1536 1700 2300 1700 1700
     = (1536 * (1 / sqrt 1700 - 1 / sqrt 2300) * 1700)%R.
Proof.
  refine (position_value_seams offline_manager tracked_position eq_refl _ _);
    cbn; lra.
Defined.

(** The tracked position, valued at 1800 and at 2400. *)
Lemma position_value_monotone_witness :
  exists value_p value_q,
    LiquidityManager._get_position_value (offline_manager (F := R)) 1800%R
    = Ok value_p
    /\ LiquidityManager._get_position_value (offline_manager (F := R)) 2400%R
       = Ok value_q
    /\ (value_p <= value_q)%R
    /\ (value_q <= 1536 * (sqrt 2300 - sqrt 1700))%R.
Proof.
  refine (position_value_monotone offline_manager tracked_position
            1800%R 2400%R eq_refl _ _ _ _); cbn; lra.
Defined.

(** Opening at 2000 with the shipped factors and capital 10000, then
    valuing at 2000. *)
Lemma open_then_value_witness :
  exists pos self',
    LiquidityManager.open_position 2000%R (hour 0)
      (fresh_manager 10000%R offline_web3_ops) = (Ok pos, self')
    /\ LiquidityManager.get_position_value 2000%R self'
       = (Ok 10000%R, self').
Proof.
  refine (open_then_value (fresh_manager 10000%R offline_web3_ops) 2000%R
            (hour 0) _ _ _ _); cbn; lra.
Defined.

(** Opening at a price of -5 with the shipped factors. *)
Lemma open_position_invalid_range_witness :
  LiquidityManager.open_position (-5)%R (hour 0)
    (fresh_manager 10000%R offline_web3_ops)
  = (Raise (ValueError "Invalid bounds: lower bound must be < upper bound."),
     fresh_manager 10000%R offline_web3_ops).
Proof.
  apply (open_position_invalid_range (fresh_manager 10000%R offline_web3_ops)
           (-5)%R (hour 0)).
  left. cbn. lra.
Defined.

(** Closing the tracked position on the synthetic chain, then closing
    again an hour later at another price. *)
Lemma close_position_twice_witness :
  exists capital closed,
    LiquidityManager.close_position default_config 2324%R (hour 1)
      (Main.lm tracking_state) = (Ok capital, closed)
    /\ LiquidityManager.current_capital closed = capital
    /\ LiquidityManager.close_position default_config 2000%R (hour 2) closed
       = (Ok capital, closed)
    /\ LiquidityManager.get_position_value 2000%R closed = (Ok 0%R, closed).
Proof.
  destruct synthetic_close_returns as (capital & closed & Hclose).
  exists capital, closed. split; [exact Hclose | ].
  exact (close_position_twice default_config (Main.lm tracking_state) closed
           2324%R 2000%R (hour 1) (hour 2) capital Hclose).
Defined.

(** Rebalancing a fresh manager at 2000. *)
Lemma rebalance_position_when_empty_witness :
  LiquidityManager.rebalance_position default_config 2000%R (hour 0)
    (fresh_manager 10000%R offline_web3_ops)
  = match LiquidityManager.open_position 2000%R (hour 0)
            (fresh_manager 10000%R offline_web3_ops) with
    | (Ok pos, self') => (Ok (pos, 10000%R), self')
    | (Raise e, self') => (Raise e, self')
    end.
Proof.
  exact (rebalance_position_when_empty default_config
           (fresh_manager 10000%R offline_web3_ops) 2000%R (hour 0) eq_refl).
Defined.

(** Rebalancing the tracked position at 2324 on the synthetic chain. *)
Lemma rebalance_position_returns_witness :
  exists pos capital self',
    LiquidityManager.rebalance_position default_config 2324%R (hour 1)
      (Main.lm tracking_state) = (Ok (pos, capital), self')
    /\ LiquidityManager.position self' = Some pos
    /\ LiquidityManager.current_capital self' = capital
    /\ Position.open_price pos = 2324%R
    /\ Position.capital_deployed pos = capital
    /\ Position.open_timestamp pos = LiquidityManager.ensure_utc (hour 1)
    /\ exists closed,
         LiquidityManager.close_position default_config 2324%R (hour 1)
           (Main.lm tracking_state) = (Ok capital, closed).
Proof.
  destruct synthetic_rebalance_returns as (pos & capital & self' & Hrun).
  exists pos, capital, self'. split; [exact Hrun | ].
  exact (rebalance_position_returns default_config (Main.lm tracking_state)
           self' 2324%R (hour 1) pos capital Hrun).
Defined.

(** The same rebalance, by its close step. *)
Lemma rebalance_position_valid_config_witness :
  exists capital closed,
    LiquidityManager.close_position default_config 2324%R (hour 1)
      (Main.lm tracking_state) = (Ok capital, closed)
    /\ (0 < 2324)%R
    /\ exists new_pos self',
         LiquidityManager.rebalance_position default_config 2324%R (hour 1)
           (Main.lm tracking_state) = (Ok (new_pos, capital), self')
         /\ LiquidityManager.position self' = Some new_pos
         /\ LiquidityManager.current_capital self' = capital.
Proof.
  destruct synthetic_close_returns as (capital & closed & Hclose).
  exists capital, closed. split; [exact Hclose | ].
  assert (Hfactors :
    (0 < Config.lower_bound_factor
           (Config.LIQUIDITY_RANGE
              (LiquidityManager.config (Main.lm (tracking_state (F := R)))))
       < Config.upper_bound_factor
           (Config.LIQUIDITY_RANGE
              (LiquidityManager.config (Main.lm (tracking_state (F := R))))))%R)
    by (cbn; lra).
  pose proof (rebalance_position_valid_config (Main.lm tracking_state)
                2324%R (hour 1) tracked_position Hfactors eq_refl) as Hstep.
  change (LiquidityManager.config (Main.lm (tracking_state (F := R))))
    with (default_config (F := R)) in Hstep.
  rewrite Hclose in Hstep. exact Hstep.
Defined.



(** ** fee_calculator.py *)

Section TickExtras.
Local Open Scope R_scope.

Lemma tick_quotient_bounds (price : R) :
  0 < price ->
  let q := ln price / ln (10001 / 10000) in
  IZR (Int_part q) <= q < IZR (Int_part q) + 1.
Proof.
  intros Hp q. destruct (base_Int_part q) as [Hlo Hhi]. lra.
Qed.

Lemma powerRZ_tick_base (n : Z) :
  powerRZ tick_base n = exp (IZR n * ln (10001 / 10000)).
Proof.
  unfold tick_base. rewrite powerRZ_Rpower by lra. reflexivity.
Qed.

(** X13: over the reals, the tick of a positive price brackets it:
    [1.0001 ^ tick <= price < 1.0001 ^ (tick + 1)]. *)
Theorem price_to_tick_bracket (price : R) :
  0 < price ->
  exists tick,
    FeeCalculator.price_to_tick price = Ok tick
    /\ powerRZ tick_base tick <= price < powerRZ tick_base (tick + 1).
Proof.
  intros Hp. rewrite (price_to_tick_R price Hp).
  eexists. split; [reflexivity | ].
  destruct (tick_quotient_bounds price Hp) as [Hlo Hhi].
  set (q := ln price / ln (10001 / 10000)) in *.
  pose proof ln_tick_base_pos as Hb.
  assert (Hq : q * ln (10001 / 10000) = ln price)
    by (unfold q; field; lra).
  rewrite !powerRZ_tick_base, plus_IZR.
  assert (Hprice : exp (q * ln (10001 / 10000)) = price)
    by (rewrite Hq; apply exp_ln; exact Hp).
  rewrite <- Hprice.
  split.
  - destruct Hlo as [Hlt | Heq].
    + left. apply exp_increasing. nra.
    + right. rewrite Heq. reflexivity.
  - apply exp_increasing. nra.
Qed.

Lemma Int_part_monotone (x y : R) : x <= y -> (Int_part x <= Int_part y)%Z.
Proof.
  intros Hxy.
  destruct (base_Int_part x) as [Hx _]. destruct (base_Int_part y) as [_ Hy].
  assert (Hlt : IZR (Int_part x) < IZR (Int_part y + 1))
    by (rewrite plus_IZR; lra).
  apply lt_IZR in Hlt. lia.
Qed.

(** The quotient that [price_to_tick] floors grows with the price. *)
Lemma tick_quotient_monotone (p q : R) :
  0 < p -> p <= q ->
  ln p / ln (10001 / 10000) <= ln q / ln (10001 / 10000).
Proof.
  intros Hp Hpq.
  pose proof ln_tick_base_pos as Hb.
  assert (Hln : ln p <= ln q).
  { destruct Hpq as [Hlt | Heq].
    - left. apply ln_increasing; lra.
    - right. rewrite Heq. reflexivity. }
  unfold Rdiv. apply Rmult_le_compat_r; [ | exact Hln].
  left. apply Rinv_0_lt_compat. exact Hb.
Qed.

(** X14: over the reals, [price_to_tick] never decreases as the price
    rises. *)
Theorem price_to_tick_monotone (p q : R) :
  0 < p -> p <= q ->
  exists tick_p tick_q,
    FeeCalculator.price_to_tick p = Ok tick_p
    /\ FeeCalculator.price_to_tick q = Ok tick_q
    /\ (tick_p <= tick_q)%Z.
Proof.
  intros Hp Hpq.
  rewrite (price_to_tick_R p Hp), (price_to_tick_R q) by lra.
  eexists. eexists. split; [reflexivity | ]. split; [reflexivity | ].
  apply Int_part_monotone. apply tick_quotient_monotone; assumption.
Qed.
End TickExtras.

Section SnapshotExtras.
Local Open Scope R_scope.
Variable config : Config.t R.
Let lf := Config.lower_bound_factor (Config.LIQUIDITY_RANGE config).
Let uf := Config.upper_bound_factor (Config.LIQUIDITY_RANGE config).

(** X15: what every snapshot that [get_fee_growth_snapshot] returns
    satisfies, under a positive lower factor: its raw price is positive
    (and is the fixed price when one was given), its mid price is the
    decimal-adjusted inverse of the raw price and positive, the upper
    factor is positive, and its two ticks are those of the range around
    the mid price, in order when the factors are. *)
Theorem snapshot_invariant (self : FeeCalculator.t R)
    (block_identifier : Web3.block_identifier) (fixed_price : option R)
    (s : Snapshot.t R) :
  0 < lf ->
  FeeCalculator.get_fee_growth_snapshot config self block_identifier
    fixed_price = Ok s ->
  0 < Snapshot.current_price_raw s
  /\ (forall p, fixed_price = Some p -> Snapshot.current_price_raw s = p)
  /\ Snapshot.mid_price s
     = 1 / Snapshot.current_price_raw s
       * pow10 (Z.of_N (Snapshot.token1_decimals s)
                - Z.of_N (Snapshot.token0_decimals s))
  /\ 0 < Snapshot.mid_price s
  /\ 0 < uf
  /\ FeeCalculator.price_to_tick (Snapshot.mid_price s * lf)
     = Ok (Snapshot.lower_tick s)
  /\ FeeCalculator.price_to_tick (Snapshot.mid_price s * uf)
     = Ok (Snapshot.upper_tick s)
  /\ (lf <= uf -> (Snapshot.lower_tick s <= Snapshot.upper_tick s)%Z).
Proof.
  intros Hlf. unfold FeeCalculator.get_fee_growth_snapshot.
  destruct (Web3Operations.get_web3_instance _) as [web3 | ]; [ | discriminate].
  cbn [bind].
  destruct (PoolContract.token0 _); [ | discriminate]. cbn [bind].
  destruct (PoolContract.token1 _); [ | discriminate]. cbn [bind].
  destruct (Web3Operations.get_token_decimals _ _ _) as [[d0 d1] | ];
    [ | discriminate]. cbn [bind].
  destruct (PoolContract.slot0 _ _) as [slot0 | ]; [ | discriminate].
  cbn [bind].
  set (reading := match fixed_price with
                  | Some p => Ok p
                  | None => py_truediv (of_Z (fst slot0 ^ 2)) (of_Z (2 ^ 192))
                  end).
  destruct reading as [raw | ] eqn:Hread; [ | discriminate]. cbn [bind].
  cbn [feqb of_Z R_PyFloat]. unfold Reqb.
  destruct (Req_dec_T raw 0) as [ | Hne]; [discriminate | ].
  rewrite py_truediv_R by exact Hne. cbn [bind fmul R_PyFloat].
  fold lf uf.
  pose proof (pow10_pos_R (Z.of_N d1 - Z.of_N d0)) as Hpow.
  set (k := pow10 _) in *.
  destruct (FeeCalculator.price_to_tick (1 / raw * k * lf)) as [lt | ] eqn:Hlt;
    [ | discriminate]. cbn [bind].
  destruct (FeeCalculator.price_to_tick (1 / raw * k * uf)) as [ut | ] eqn:Hut;
    [ | discriminate]. cbn [bind].
  destruct (PoolContract.feeGrowthGlobal0X128 _ _); [ | discriminate].
  cbn [bind].
  destruct (PoolContract.feeGrowthGlobal1X128 _ _); [ | discriminate].
  cbn [bind].
  destruct (PoolContract.ticks _ lt _); [ | discriminate]. cbn [bind].
  destruct (PoolContract.ticks _ ut _); [ | discriminate]. cbn [bind].
  destruct (Web3.get_block _ _); [ | discriminate]. cbn [bind].
  intros Hs. injection Hs as <-.
  cbn [Snapshot.current_price_raw Snapshot.mid_price Snapshot.token0_decimals
       Snapshot.token1_decimals Snapshot.lower_tick Snapshot.upper_tick].
  fold k.
  pose proof (price_to_tick_returns _ _ Hlt) as Hlpos.
  pose proof (price_to_tick_returns _ _ Hut) as Hupos.
  assert (Hmid : 0 < 1 / raw * k).
  { destruct (Rlt_dec 0 (1 / raw * k)) as [ | Hneg]; [assumption | exfalso].
    assert (1 / raw * k * lf <= 0) by nra. lra. }
  assert (Hinv : 0 < 1 / raw).
  { destruct (Rlt_dec 0 (1 / raw)) as [ | Hneg]; [assumption | exfalso].
    assert (1 / raw * k <= 0) by nra. lra. }
  assert (Hraw : 0 < raw).
  { unfold Rdiv in Hinv. rewrite Rmult_1_l in Hinv.
    apply Rinv_0_lt_compat in Hinv. rewrite Rinv_inv in Hinv. exact Hinv. }
  assert (Huf : 0 < uf) by nra.
  split; [exact Hraw | ].
  split.
  { intros p Hp. subst reading. rewrite Hp in Hread. congruence. }
  split; [reflexivity | ]. split; [exact Hmid | ]. split; [exact Huf | ].
  split; [exact Hlt | ]. split; [exact Hut | ].
  intros Hle.
  rewrite (price_to_tick_R _ Hlpos) in Hlt.
  rewrite (price_to_tick_R _ Hupos) in Hut.
  injection Hlt as <-. injection Hut as <-.
  apply Int_part_monotone. apply tick_quotient_monotone; [exact Hlpos | nra].
Qed.
End SnapshotExtras.

Section CapitalExtras.
Local Open Scope R_scope.
Variable config : Config.t R.

Lemma simulate_liquidity_scales (self self' : FeeCalculator.t R)
    (mid_price : R) (d0 d1 : N) (human_price L : R) :
  FeeCalculator.simulate_liquidity config self mid_price d0 d1 human_price
  = Ok L ->
  exists denom,
    denom <> 0
    /\ L = FeeCalculator.capital_usd self / denom
    /\ FeeCalculator.simulate_liquidity config self' mid_price d0 d1
         human_price
       = Ok (FeeCalculator.capital_usd self' / denom).
Proof.
  unfold FeeCalculator.simulate_liquidity.
  destruct (math_sqrt mid_price) as [sqrtP | ]; [ | discriminate].
  cbn [bind].
  destruct (math_sqrt _) as [sqrtPa | ]; [ | discriminate]. cbn [bind].
  destruct (math_sqrt _) as [sqrtPb | ]; [ | discriminate]. cbn [bind].
  destruct (py_truediv _ _) as [q0 | ]; [ | discriminate]. cbn [bind].
  destruct (py_truediv _ _) as [t0 | ]; [ | discriminate]. cbn [bind].
  destruct (py_truediv _ _) as [t1 | ]; [ | discriminate]. cbn [bind].
  cbn [feqb fadd of_Z R_PyFloat]. unfold Reqb.
  destruct (Req_dec_T (t0 + t1) 0) as [ | Hne]; [discriminate | ].
  rewrite !py_truediv_R by exact Hne.
  intros HL. injection HL as <-.
  exists (t0 + t1). split; [exact Hne | ]. split; reflexivity.
Qed.

(** X16: the APR does not depend on the capital.  If
    [compute_fees_and_apr] returns for one calculator, it returns for any
    other with non-zero capital on the same snapshots, with the same APR
    and period; fees and simulated liquidity are proportional to the
    capital. *)
Theorem apr_independent_of_capital (self self' : FeeCalculator.t R)
    (snapshot0 snapshot1 : Snapshot.t R)
    (override_liquidity_snapshot : option (Snapshot.t R))
    (fees : FeesResult.t R) :
  FeeCalculator.capital_usd self' <> 0 ->
  FeeCalculator.compute_fees_and_apr config self snapshot0 snapshot1
    override_liquidity_snapshot = Ok fees ->
  exists fees',
    FeeCalculator.compute_fees_and_apr config self' snapshot0 snapshot1
      override_liquidity_snapshot = Ok fees'
    /\ FeesResult.apr_percent fees' = FeesResult.apr_percent fees
    /\ FeesResult.period_seconds fees' = FeesResult.period_seconds fees
    /\ FeesResult.total_fees_usd fees' * FeeCalculator.capital_usd self
       = FeesResult.total_fees_usd fees * FeeCalculator.capital_usd self'
    /\ FeesResult.simulated_liquidity fees' * FeeCalculator.capital_usd self
       = FeesResult.simulated_liquidity fees * FeeCalculator.capital_usd self'.
Proof.
  intros Hcap' Hfees.
  destruct (simulated_liquidity_of config self snapshot1
              override_liquidity_snapshot) as [L | e] eqn:HL.
  2:{ exfalso. revert Hfees. unfold FeeCalculator.compute_fees_and_apr.
      destruct (FeeCalculator.compute_fee_growth_delta _ _).
      unfold simulated_liquidity_of, liquidity_snapshot in HL.
      destruct override_liquidity_snapshot; rewrite HL; discriminate. }
  pose proof HL as HL0.
  unfold simulated_liquidity_of in HL.
  destruct (simulate_liquidity_scales self self' _ _ _ _ L HL)
    as (denom & Hdenom & HLeq & HL').
  fold (simulated_liquidity_of config self' snapshot1
          override_liquidity_snapshot) in HL'.
  rewrite (compute_fees_and_apr_R config self snapshot0 snapshot1 _ L HL0)
    in Hfees.
  rewrite (compute_fees_and_apr_R config self' snapshot0 snapshot1 _ _ HL').
  cbv zeta in Hfees |- *.
  pose proof (IZR_pow10_pos (Snapshot.token0_decimals snapshot1)) as Hd0.
  pose proof (IZR_pow10_pos (Snapshot.token1_decimals snapshot1)) as Hd1.
  pose proof IZR_scaling_nonzero as Hs.
  set (delta := FeeCalculator.compute_fee_growth_delta snapshot0 snapshot1)
    in *.
  clearbody delta.
  set (scaling := IZR (2 ^ 128)) in *. clearbody scaling.
  set (unit0 := IZR (10 ^ Z.of_N (Snapshot.token0_decimals snapshot1))) in *.
  set (unit1 := IZR (10 ^ Z.of_N (Snapshot.token1_decimals snapshot1))) in *.
  clearbody unit0 unit1.
  destruct (Z.leb_spec (Snapshot.block_timestamp snapshot1
                        - Snapshot.block_timestamp snapshot0) 0) as [ | Hp];
    [discriminate | ].
  destruct (Req_dec_T (FeeCalculator.capital_usd self) 0) as [ | Hcap];
    [discriminate | ].
  destruct (Req_dec_T (FeeCalculator.capital_usd self') 0);
    [contradiction | ].
  injection Hfees as <-.
  eexists. split; [reflexivity | ].
  cbn [FeesResult.apr_percent FeesResult.period_seconds
       FeesResult.total_fees_usd FeesResult.simulated_liquidity].
  assert (Hper : IZR (Snapshot.block_timestamp snapshot1
                      - Snapshot.block_timestamp snapshot0) <> 0)
    by (apply not_0_IZR; lia).
  rewrite HLeq.
  split; [field; repeat split; (assumption || lra) | ].
  split; [reflexivity | ].
  split; field; repeat split; (assumption || lra).
Qed.
End CapitalExtras.

Section FeeComposition.
Context {F : Type} `{PyFloat F} `{PyLog F}.
Variable config : Config.t F.

(** The chain reads a snapshot is built from. *)
Lemma snapshot_reads (self : FeeCalculator.t F)
    (block_identifier : Web3.block_identifier) (fixed_price : option F)
    (s : Snapshot.t F) :
  FeeCalculator.get_fee_growth_snapshot config self block_identifier
    fixed_price = Ok s ->
  exists web3 block,
    Web3Operations.get_web3_instance (FeeCalculator.web3_ops self) = Ok web3
    /\ Web3Operations.get_token_decimals (FeeCalculator.web3_ops self) web3
         (Web3Operations.get_pool_contract (FeeCalculator.web3_ops self) web3)
       = Ok (Snapshot.token0_decimals s, Snapshot.token1_decimals s)
    /\ Web3.get_block web3 block_identifier = Ok block
    /\ Snapshot.block_timestamp s = Web3.block_timestamp block
    /\ Snapshot.block_number s = Web3.block_number block.
Proof.
  unfold FeeCalculator.get_fee_growth_snapshot.
  destruct (Web3Operations.get_web3_instance _) as [web3 | ] eqn:Hweb3;
    [ | discriminate].
  cbn [bind].
  destruct (PoolContract.token0 _); [ | discriminate]. cbn [bind].
  destruct (PoolContract.token1 _); [ | discriminate]. cbn [bind].
  destruct (Web3Operations.get_token_decimals _ _ _) as [[d0 d1] | ] eqn:Hdec;
    [ | discriminate]. cbn [bind].
  destruct (PoolContract.slot0 _ _) as [slot0 | ]; [ | discriminate].
  cbn [bind].
  destruct (match fixed_price with Some p => _ | None => _ end) as [raw | ];
    [ | discriminate]. cbn [bind].
  destruct (feqb raw (of_Z 0)); [discriminate | ].
  destruct (py_truediv _ _) as [inverse | ]; [ | discriminate]. cbn [bind].
  destruct (FeeCalculator.price_to_tick _) as [lt | ]; [ | discriminate].
  cbn [bind].
  destruct (FeeCalculator.price_to_tick _) as [ut | ]; [ | discriminate].
  cbn [bind].
  destruct (PoolContract.feeGrowthGlobal0X128 _ _); [ | discriminate].
  cbn [bind].
  destruct (PoolContract.feeGrowthGlobal1X128 _ _); [ | discriminate].
  cbn [bind].
  destruct (PoolContract.ticks _ lt _); [ | discriminate]. cbn [bind].
  destruct (PoolContract.ticks _ ut _); [ | discriminate]. cbn [bind].
  destruct (Web3.get_block _ _) as [block | ] eqn:Hblock; [ | discriminate].
  cbn [bind].
  intros Hs. injection Hs as <-.
  exists web3, block.
  cbn [Snapshot.token0_decimals Snapshot.token1_decimals
       Snapshot.block_timestamp Snapshot.block_number].
  repeat split; (reflexivity || assumption).
Qed.

(** What a result of [compute_fees_and_apr] carries over from its inputs. *)
Lemma compute_fees_and_apr_returns (self : FeeCalculator.t F)
    (snapshot0 snapshot1 : Snapshot.t F)
    (override_liquidity_snapshot : option (Snapshot.t F))
    (fees : FeesResult.t F) :
  FeeCalculator.compute_fees_and_apr config self snapshot0 snapshot1
    override_liquidity_snapshot = Ok fees ->
  simulated_liquidity_of config self snapshot1 override_liquidity_snapshot
  = Ok (FeesResult.simulated_liquidity fees)
  /\ FeesResult.period_seconds fees
     = (Snapshot.block_timestamp snapshot1
        - Snapshot.block_timestamp snapshot0)%Z
  /\ (0 < FeesResult.period_seconds fees)%Z.
Proof.
  unfold FeeCalculator.compute_fees_and_apr, simulated_liquidity_of,
    liquidity_snapshot.
  destruct (FeeCalculator.compute_fee_growth_delta _ _) as [delta0 delta1].
  destruct override_liquidity_snapshot as [o | ];
    (destruct (FeeCalculator.simulate_liquidity _ _ _ _ _ _) as [L | ];
     [ | discriminate]); cbn [bind];
    (destruct (py_truediv _ _); [ | discriminate]); cbn [bind];
    (destruct (py_truediv _ _); [ | discriminate]); cbn [bind];
    (destruct (py_truediv _ _); [ | discriminate]); cbn [bind];
    (destruct (py_truediv _ _); [ | discriminate]); cbn [bind];
    (destruct (Z.leb_spec (Snapshot.block_timestamp snapshot1
                           - Snapshot.block_timestamp snapshot0) 0);
     [discriminate | ]);
    (destruct (py_truediv _ _); [ | discriminate]); cbn [bind];
    (destruct (py_truediv _ _); [ | discriminate]); cbn [bind];
    intros Hf; injection Hf as <-;
    cbn [FeesResult.simulated_liquidity FeesResult.period_seconds];
    repeat split; (reflexivity || assumption).
Qed.

(** X17: [calculate_fees] sizes the simulated liquidity at the start
    block's pool price: two runs that differ only in the fixed end price
    report the same simulated liquidity and the same, positive, period. *)
Theorem calculate_fees_sized_at_start (self : FeeCalculator.t F)
    (price price' : F) (fees fees' : FeesResult.t F) :
  FeeCalculator.calculate_fees config self (Some price) None = Ok fees ->
  FeeCalculator.calculate_fees config self (Some price') None = Ok fees' ->
  FeesResult.simulated_liquidity fees' = FeesResult.simulated_liquidity fees
  /\ FeesResult.period_seconds fees' = FeesResult.period_seconds fees
  /\ (0 < FeesResult.period_seconds fees)%Z
  /\ exists web3 start_block snapshot0,
       Web3Operations.get_web3_instance (FeeCalculator.web3_ops self)
       = Ok web3
       /\ get_block_by_timestamp web3
            (TDatetime (FeeCalculator.start_time self)) None
            default_tolerance_seconds default_max_tries = Ok start_block
       /\ FeeCalculator.get_fee_growth_snapshot config self
            (Web3.number start_block) None = Ok snapshot0
       /\ FeeCalculator.simulate_liquidity config self
            (Snapshot.current_price_raw snapshot0)
            (Snapshot.token0_decimals snapshot0)
            (Snapshot.token1_decimals snapshot0)
            (Snapshot.mid_price snapshot0)
          = Ok (FeesResult.simulated_liquidity fees).
Proof.
  unfold FeeCalculator.calculate_fees.
  destruct (Web3Operations.get_web3_instance _) as [web3 | ] eqn:Hweb3;
    [ | discriminate]. cbn [bind].
  destruct (get_block_by_timestamp web3 (TDatetime (FeeCalculator.start_time self)) _ _ _)
    as [start_block | ] eqn:Hstart; [ | discriminate]. cbn [bind].
  destruct (get_block_by_timestamp web3 (TDatetime (FeeCalculator.end_time self)) _ _ _)
    as [end_block | ]; [ | discriminate]. cbn [bind].
  destruct (FeeCalculator.get_fee_growth_snapshot _ _ _ None)
    as [snapshot0 | ] eqn:Hs0; [ | discriminate]. cbn [bind].
  destruct (FeeCalculator.get_fee_growth_snapshot _ _ _ (Some price))
    as [s1 | ] eqn:Hs1; [ | discriminate]. cbn [bind].
  destruct (FeeCalculator.get_fee_growth_snapshot _ _ _ (Some price'))
    as [s1' | ] eqn:Hs1'; [ | discriminate]. cbn [bind].
  intros Hfees Hfees'.
  apply compute_fees_and_apr_returns in Hfees as (HL & Hper & Hpos).
  apply compute_fees_and_apr_returns in Hfees' as (HL' & Hper' & _).
  destruct (snapshot_reads _ _ _ _ Hs0) as (w0 & b0 & Hw0 & Hd0 & _).
  destruct (snapshot_reads _ _ _ _ Hs1) as (w1 & b1 & Hw1 & Hd1 & Hb1 & Ht1 & _).
  destruct (snapshot_reads _ _ _ _ Hs1')
    as (w1' & b1' & Hw1' & Hd1' & Hb1' & Ht1' & _).
  rewrite Hweb3 in Hw0, Hw1, Hw1'.
  injection Hw0 as <-. injection Hw1 as <-. injection Hw1' as <-.
  rewrite Hd0 in Hd1, Hd1'. injection Hd1 as Hd1a Hd1b.
  injection Hd1' as Hd1a' Hd1b'.
  rewrite Hb1 in Hb1'. injection Hb1' as <-.
  unfold simulated_liquidity_of, liquidity_snapshot in HL, HL'.
  rewrite <- Hd1a, <- Hd1b in HL. rewrite <- Hd1a', <- Hd1b' in HL'.
  rewrite HL in HL'. injection HL' as HLeq.
  split; [symmetry; exact HLeq | ].
  split; [rewrite Hper, Hper', Ht1, Ht1'; reflexivity | ].
  split; [exact Hpos | ].
  exists web3, start_block, snapshot0.
  split; [reflexivity | ]. split; [exact Hstart | ].
  split; [exact Hs0 | exact HL].
Qed.
End FeeComposition.

(** The tick of price 2. *)
Lemma price_to_tick_bracket_witness :
  exists tick,
    FeeCalculator.price_to_tick 2%R = Ok tick
    /\ (powerRZ tick_base tick <= 2 < powerRZ tick_base (tick + 1))%R.
Proof. apply (price_to_tick_bracket 2%R). lra. Defined.

(** The ticks of prices 1 and 2. *)
Lemma price_to_tick_monotone_witness :
  exists tick_p tick_q,
    FeeCalculator.price_to_tick 1%R = Ok tick_p
    /\ FeeCalculator.price_to_tick 2%R = Ok tick_q
    /\ tick_p <= tick_q.
Proof. apply (price_to_tick_monotone 1%R 2%R); lra. Defined.

(** A snapshot of block 1 of the synthetic pool at the fixed price 2,
    under the shipped configuration. *)
Lemma snapshot_invariant_witness :
  exists s,
    FeeCalculator.get_fee_growth_snapshot default_config
      (synthetic_calculator 10000%R) (Web3.number 1) (Some 2%R) = Ok s
    /\ Snapshot.current_price_raw s = 2%R
    /\ (0 < Snapshot.mid_price s)%R
    /\ Snapshot.lower_tick s <= Snapshot.upper_tick s.
Proof.
  destruct (synthetic_snapshot default_config (synthetic_calculator 10000%R)
              1 (Some 2%R) eq_refl) as (s & Hs & _); try (cbn; lra).
  exists s. split; [exact Hs | ].
  assert (Hlower :
    (0 < Config.lower_bound_factor
           (Config.LIQUIDITY_RANGE (default_config (F := R))))%R)
    by (cbn; lra).
  destruct (snapshot_invariant default_config (synthetic_calculator 10000%R)
              (Web3.number 1) (Some 2%R) s Hlower Hs)
    as (_ & Hfixed & _ & Hmid & _ & _ & _ & Hticks).
  split; [exact (Hfixed 2%R eq_refl) | ]. split; [exact Hmid | ].
  apply Hticks. cbn. lra.
Defined.

Section FeeRuns.
Local Open Scope R_scope.

(** With one unit of fee growth per unit of liquidity over an hour, the
    fees of a calculator on capital 10000 are obtained. *)
Lemma idle_fees_return :
  exists fees,
    FeeCalculator.compute_fees_and_apr default_config (idle_calculator 10000)
      (snapshot_with_globals 0 0 0) (snapshot_with_globals (2 ^ 128) 0 3600)
      None = Ok fees.
Proof.
  destruct (default_simulation (idle_calculator 10000)
              (snapshot_with_globals (2 ^ 128) 0 3600) None) as (L & HL);
    [cbn; lra | cbn; lra | ].
  rewrite (compute_fees_and_apr_R default_config (idle_calculator 10000)
             (snapshot_with_globals 0 0 0)
             (snapshot_with_globals (2 ^ 128) 0 3600) None L HL).
  cbv zeta.
  change (Snapshot.block_timestamp (snapshot_with_globals (F := R) (2 ^ 128) 0 3600)
          - Snapshot.block_timestamp (snapshot_with_globals (F := R) 0 0 0) <=? 0)%Z
    with false.
  cbv iota.
  destruct (Req_dec_T (FeeCalculator.capital_usd (idle_calculator 10000)) 0)
    as [E | _]; [cbn in E; lra | ].
  eexists. reflexivity.
Qed.
End FeeRuns.

(** The same snapshots for a calculator on 10000 and one on 20000. *)
Lemma apr_independent_of_capital_witness :
  exists fees fees',
    FeeCalculator.compute_fees_and_apr default_config
      (idle_calculator 10000%R)
      (snapshot_with_globals 0 0 0) (snapshot_with_globals (2 ^ 128) 0 3600)
      None = Ok fees
    /\ FeeCalculator.compute_fees_and_apr default_config
         (idle_calculator 20000%R)
         (snapshot_with_globals 0 0 0) (snapshot_with_globals (2 ^ 128) 0 3600)
         None = Ok fees'
    /\ FeesResult.apr_percent fees' = FeesResult.apr_percent fees
    /\ FeesResult.period_seconds fees' = FeesResult.period_seconds fees
    /\ (FeesResult.total_fees_usd fees' * 10000
        = FeesResult.total_fees_usd fees * 20000)%R
    /\ (FeesResult.simulated_liquidity fees' * 10000
        = FeesResult.simulated_liquidity fees * 20000)%R.
Proof.
  destruct idle_fees_return as (fees & Hfees).
  assert (Hcapital :
    FeeCalculator.capital_usd (idle_calculator 20000%R) <> 0%R)
    by (cbn; lra).
  destruct (apr_independent_of_capital default_config
              (idle_calculator 10000%R) (idle_calculator 20000%R)
              (snapshot_with_globals 0 0 0)
              (snapshot_with_globals (2 ^ 128) 0 3600) None fees
              Hcapital Hfees) as (fees' & Hfees' & Hrest).
  exists fees, fees'. split; [exact Hfees | ]. split; [exact Hfees' | ].
  exact Hrest.
Defined.

(** The fees of the hour from 0 to 1 on the synthetic chain, closed at
    2000 and at 2324. *)
Lemma calculate_fees_sized_at_start_witness :
  exists fees fees',
    FeeCalculator.calculate_fees default_config
      (synthetic_calculator 10000%R) (Some 2000%R) None = Ok fees
    /\ FeeCalculator.calculate_fees default_config
         (synthetic_calculator 10000%R) (Some 2324%R) None = Ok fees'
    /\ FeesResult.simulated_liquidity fees'
       = FeesResult.simulated_liquidity fees
    /\ FeesResult.period_seconds fees' = FeesResult.period_seconds fees
    /\ 0 < FeesResult.period_seconds fees.
Proof.
  destruct (synthetic_calculate_fees default_config
              (synthetic_calculator 10000%R) 2000%R eq_refl eq_refl eq_refl)
    as (fees & Hfees); try (cbn; lra).
  destruct (synthetic_calculate_fees default_config
              (synthetic_calculator 10000%R) 2324%R eq_refl eq_refl eq_refl)
    as (fees' & Hfees'); try (cbn; lra).
  exists fees, fees'. split; [exact Hfees | ]. split; [exact Hfees' | ].
  destruct (calculate_fees_sized_at_start default_config
              (synthetic_calculator 10000%R) 2000%R 2324%R fees fees'
              Hfees Hfees') as (HL & Hperiod & Hpos & _).
  split; [exact HL | ]. split; [exact Hperiod | exact Hpos].
Defined.



(** ** main.py *)

Section LoopExtras.
Context {F : Type} `{PyFloat F} `{PyLog F}.
Variable config : Config.t F.
Local Open Scope py_scope.

Lemma bindM_returns {S A B : Type} (m : M S A) (k : A -> M S B) (s s' : S)
    (b : B) :
  bindM m k s = (Ok b, s') ->
  exists a s1, m s = (Ok a, s1) /\ k a s1 = (Ok b, s').
Proof.
  unfold bindM. destruct (m s) as [[a | e] s1]; [ | discriminate].
  intros Hk. exists a, s1. split; [reflexivity | exact Hk].
Qed.

Lemma iloc_last_filter_none {A : Type} (f : A -> bool) (l : list A) :
  (forall x, In x l -> f x = false) -> iloc_last (filter f l) = None.
Proof.
  intros Hall. replace (filter f l) with (@nil A); [reflexivity | ].
  symmetry. induction l as [ | x l IH]; [reflexivity | ].
  cbn [filter]. rewrite (Hall x) by (left; reflexivity).
  apply IH. intros y Hy. apply Hall. right. exact Hy.
Qed.

(** The wick block writes [cooldown_until] and nothing else. *)
Lemma wick_cooldown_logic_frame (price_data : price_frame F)
    (close_col : string) (current_price : F) (timestamp : datetime.t)
    (st st' : Main.state F) (r : result unit) :
  Main.wick_cooldown_logic config price_data close_col current_price
    timestamp st = (r, st') ->
  Main.lm st' = Main.lm st
  /\ Main.recorder st' = Main.recorder st
  /\ Main.rebalance_count st' = Main.rebalance_count st
  /\ (Main.cooldown_until st' = Main.cooldown_until st
      \/ (r = Ok tt
          /\ in_cooldown (Main.cooldown_until st) timestamp = false
          /\ Main.cooldown_until st'
             = Some (datetime.add_hours timestamp
                       (Config.wick_cooldown_hours
                          (Config.SIMULATION_SETTINGS config))))).
Proof.
  unfold Main.wick_cooldown_logic, Main.settings.
  destruct (iloc_last _) as [past_row | ].
  2:{ intros Hr. injection Hr as _ <-. tauto. }
  unfold bindM, lift, gets, modify, ret.
  destruct (row_get _ _) as [past_price | e].
  2:{ intros Hr. injection Hr as _ <-. tauto. }
  rewrite wick_guard_is_not_in_cooldown.
  destruct (_ >=? _); cbn [andb].
  2:{ intros Hr. injection Hr as _ <-. tauto. }
  destruct (in_cooldown (Main.cooldown_until st) timestamp) eqn:Hcool;
    cbn [negb]; intros Hr; injection Hr as <- <-.
  - tauto.
  - cbn [Main.set_cooldown_until Main.lm Main.recorder Main.rebalance_count
         Main.cooldown_until].
    repeat split; try reflexivity. right. repeat split; reflexivity.
Qed.

(** X18: the wick block writes nothing but [cooldown_until]; with a
    non-negative cooldown length, a cooldown that is set is never cleared
    nor moved earlier, and inside an active cooldown it is left as it
    is. *)
Theorem wick_cooldown_never_shortened (price_data : price_frame F)
    (close_col : string) (current_price : F) (timestamp : datetime.t)
    (st st' : Main.state F) (r : result unit) :
  (0 <= Config.wick_cooldown_hours (Config.SIMULATION_SETTINGS config))%Z ->
  Main.wick_cooldown_logic config price_data close_col current_price
    timestamp st = (r, st') ->
  Main.lm st' = Main.lm st
  /\ Main.recorder st' = Main.recorder st
  /\ Main.rebalance_count st' = Main.rebalance_count st
  /\ (forall until,
        Main.cooldown_until st = Some until ->
        exists until',
          Main.cooldown_until st' = Some until'
          /\ (datetime.instant until <= datetime.instant until')%Z)
  /\ (in_cooldown (Main.cooldown_until st) timestamp = true ->
      Main.cooldown_until st' = Main.cooldown_until st).
Proof.
  intros Hhours Hrun.
  destruct (wick_cooldown_logic_frame _ _ _ _ _ _ _ Hrun)
    as (Hlm & Hrec & Hcount & Hcool).
  split; [exact Hlm | ]. split; [exact Hrec | ]. split; [exact Hcount | ].
  split.
  - intros deadline Hdeadline.
    destruct Hcool as [Hsame | (_ & Hout & Hset)].
    + exists deadline. rewrite Hsame, Hdeadline. split; [reflexivity | lia].
    + eexists. split; [exact Hset | ].
      rewrite Hdeadline in Hout. unfold in_cooldown, datetime.ltb in Hout.
      apply Z.ltb_ge in Hout.
      unfold datetime.instant, datetime.add_hours in *.
      cbn [datetime.tzinfo datetime.seconds].
      destruct (datetime.tzinfo timestamp); lia.
  - intros Hin. destruct Hcool as [Hsame | (_ & Hout & _)];
      [exact Hsame | congruence].
Qed.

(** X19: while every row of the frame is later than the lookback time,
    the wick block does nothing: no cooldown can start before the frame
    holds a sample that old. *)
Theorem wick_needs_lookback_sample (price_data : price_frame F)
    (close_col : string) (current_price : F) (timestamp : datetime.t)
    (st : Main.state F) :
  (forall r, In r price_data ->
     (datetime.instant timestamp
      - 3600 * Config.wick_lookback_hours (Config.SIMULATION_SETTINGS config)
      < datetime.instant (fst r))%Z) ->
  Main.wick_cooldown_logic config price_data close_col current_price
    timestamp st = (Ok tt, st).
Proof.
  intros Hrecent. unfold Main.wick_cooldown_logic, Main.settings.
  rewrite iloc_last_filter_none; [reflexivity | ].
  intros r Hr. specialize (Hrecent r Hr).
  unfold datetime.leb. apply Z.leb_gt.
  unfold datetime.instant, datetime.sub_hours in *.
  cbn [datetime.tzinfo datetime.seconds].
  destruct (datetime.tzinfo timestamp); lia.
Qed.

(** What the rebalancing block leaves behind when it returns. *)
Lemma buffered_rebalancing_logic_returns (price : F) (timestamp : datetime.t)
    (st st' : Main.state F) :
  Main.buffered_rebalancing_logic config price timestamp st = (Ok tt, st') ->
  Main.cooldown_until st' = Main.cooldown_until st
  /\ PositionRecorder.records (Main.recorder st')
     = PositionRecorder.records (Main.recorder st)
  /\ (exists pos, LiquidityManager.position (Main.lm st') = Some pos)
  /\ (st' = st
      \/ (Main.rebalance_count st' = (Main.rebalance_count st + 1)%Z
          /\ in_cooldown (Main.cooldown_until st) timestamp = false
          /\ exists value,
               LiquidityManager._get_position_value (Main.lm st') price
               = Ok value
               /\ PositionRecorder.rebalances (Main.recorder st')
                  = PositionRecorder.rebalances (Main.recorder st)
                    ++ [{| PositionRecorder.timestamp := timestamp;
                           PositionRecorder.position_value := value;
                           PositionRecorder.price := price |}])).
Proof.
  destruct (LiquidityManager.position (Main.lm st)) as [pos | ] eqn:Hpos.
  2:{ unfold Main.buffered_rebalancing_logic, bindM, gets, raise.
      rewrite Hpos. discriminate. }
  rewrite (buffered_rebalancing_logic_eq config st pos price timestamp Hpos).
  destruct (buffer_breached _ _ _ _).
  2:{ intros Hr. injection Hr as <-. repeat split; eauto. }
  destruct (in_cooldown _ _) eqn:Hcool.
  { intros Hr. injection Hr as <-. repeat split; eauto. }
  destruct (LiquidityManager.rebalance_position config price timestamp
              (Main.lm st)) as [[[new_pos capital] | e] lm'] eqn:Hreb;
    [ | discriminate].
  cbv zeta.
  destruct (LiquidityManager._get_position_value lm' price) as [value | ]
    eqn:Hvalue; [ | discriminate].
  intros Hr. injection Hr as <-.
  cbn [Main.set_recorder Main.set_rebalance_count Main.set_lm Main.lm
       Main.recorder Main.rebalance_count Main.cooldown_until
       PositionRecorder.record_rebalance PositionRecorder.records
       PositionRecorder.rebalances].
  split; [reflexivity | ]. split; [reflexivity | ].
  split.
  - rewrite rebalance_position_eq in Hreb.
    destruct (LiquidityManager.close_position _ _ _ _) as [[c | ] closed];
      [ | discriminate].
    destruct (LiquidityManager.open_position _ _ _) as [[p | ] opened] eqn:Hopen;
      [ | discriminate].
    injection Hreb as _ _ <-.
    rewrite open_position_eq in Hopen. cbv zeta in Hopen.
    destruct (_ >=? _); [discriminate | ].
    destruct (LiquidityManager._compute_liquidity_for_capital _ _ _ _);
      [ | discriminate].
    injection Hopen as _ <-. eexists. reflexivity.
  - right. split; [reflexivity | ]. split; [reflexivity | ].
    exists value. split; [exact Hvalue | reflexivity].
Qed.

(** The steps of an iteration that returns on a row with a close
    column. *)
Lemma loop_body_trace (price_data : price_frame F) (timestamp : datetime.t)
    (r : row F) (st st' : Main.state F) (close_col : string)
    (others : list string) :
  filter is_close_col (map fst r) = close_col :: others ->
  Main.loop_body config price_data timestamp r st = (Ok tt, st') ->
  exists price value st1 st2 st3,
    row_get r close_col = Ok price
    /\ Main.recorder st1 = Main.recorder st
    /\ Main.rebalance_count st1 = Main.rebalance_count st
    /\ Main.wick_cooldown_logic config price_data close_col price timestamp
         st1 = (Ok tt, st2)
    /\ Main.buffered_rebalancing_logic config price timestamp st2
       = (Ok tt, st3)
    /\ LiquidityManager._get_position_value (Main.lm st3) price = Ok value
    /\ st' = Main.set_recorder st3
               (PositionRecorder.record_position timestamp value price
                  (Main.recorder st3)).
Proof.
  unfold Main.loop_body. intros ->. intros Hrun.
  apply bindM_returns in Hrun as (price & s0 & Hprice & Hrun).
  unfold lift in Hprice. injection Hprice as Hprice <-.
  apply bindM_returns in Hrun as (pos0 & s0 & Hpos0 & Hrun).
  unfold gets in Hpos0. injection Hpos0 as <- <-.
  apply bindM_returns in Hrun as ([] & st1 & Hopen & Hrun).
  apply bindM_returns in Hrun as ([] & st2 & Hwick & Hrun).
  apply bindM_returns in Hrun as ([] & st3 & Hbuf & Hrun).
  apply bindM_returns in Hrun as (value & st4 & Hvalue & Hrun).
  unfold modify in Hrun. injection Hrun as <-.
  assert (Hst1 : Main.recorder st1 = Main.recorder st
                 /\ Main.rebalance_count st1 = Main.rebalance_count st).
  { destruct (LiquidityManager.position (Main.lm st)).
    - unfold ret in Hopen. injection Hopen as <-. split; reflexivity.
    - apply bindM_returns in Hopen as (p & s1 & Hopen & Hret).
      unfold ret in Hret. injection Hret as <-.
      unfold Main.on_lm in Hopen.
      destruct (LiquidityManager.open_position _ _ _) as [res lm'].
      injection Hopen as _ <-. split; reflexivity. }
  destruct Hst1 as [Hrec1 Hcount1].
  unfold Main.on_lm, LiquidityManager.get_position_value, bindM, gets, lift
    in Hvalue.
  destruct (LiquidityManager._get_position_value (Main.lm st3) price)
    as [v | ] eqn:Hv; [ | discriminate].
  injection Hvalue as <- <-.
  exists price, v, st1, st2, st3.
  split; [exact Hprice | ]. split; [exact Hrec1 | ].
  split; [exact Hcount1 | ]. split; [exact Hwick | ].
  split; [exact Hbuf | ]. split; [exact Hv | ].
  destruct st3; reflexivity.
Qed.

(** X20: one iteration of the loop that returns.  A row without a close
    column changes nothing.  Otherwise the manager holds a position, one
    record is appended, carrying the timestamp, the close and the
    position's value at it, and either the counter and the rebalance list
    are unchanged, or the counter has grown by one and the rebalance list
    by one event equal to that record, the step lying outside any
    cooldown. *)
Theorem loop_body_returns (price_data : price_frame F)
    (timestamp : datetime.t) (r : row F) (st st' : Main.state F) :
  Main.loop_body config price_data timestamp r st = (Ok tt, st') ->
  match filter is_close_col (map fst r) with
  | [] => st' = st
  | close_col :: _ =>
      exists price value,
        row_get r close_col = Ok price
        /\ (exists pos, LiquidityManager.position (Main.lm st') = Some pos)
        /\ LiquidityManager._get_position_value (Main.lm st') price = Ok value
        /\ PositionRecorder.records (Main.recorder st')
           = PositionRecorder.records (Main.recorder st)
             ++ [{| PositionRecorder.timestamp := timestamp;
                    PositionRecorder.position_value := value;
                    PositionRecorder.price := price |}]
        /\ ((Main.rebalance_count st' = Main.rebalance_count st
             /\ PositionRecorder.rebalances (Main.recorder st')
                = PositionRecorder.rebalances (Main.recorder st))
            \/ (Main.rebalance_count st' = (Main.rebalance_count st + 1)%Z
                /\ in_cooldown (Main.cooldown_until st') timestamp = false
                /\ PositionRecorder.rebalances (Main.recorder st')
                   = PositionRecorder.rebalances (Main.recorder st)
                     ++ [{| PositionRecorder.timestamp := timestamp;
                            PositionRecorder.position_value := value;
                            PositionRecorder.price := price |}]))
  end.
Proof.
  intros Hrun.
  destruct (filter is_close_col (map fst r)) as [ | close_col others] eqn:Hcols.
  { unfold Main.loop_body in Hrun. rewrite Hcols in Hrun.
    injection Hrun as <-. reflexivity. }
  destruct (loop_body_trace _ _ _ _ _ _ _ Hcols Hrun)
    as (price & value & st1 & st2 & st3 & Hprice & Hrec1 & Hcount1 & Hwick
        & Hbuf & Hvalue & ->).
  destruct (wick_cooldown_logic_frame _ _ _ _ _ _ _ Hwick)
    as (_ & Hrec2 & Hcount2 & _).
  destruct (buffered_rebalancing_logic_returns _ _ _ _ Hbuf)
    as (Hcool3 & Hrecords3 & Hpos3 & Hstep).
  exists price, value.
  cbn [Main.set_recorder Main.lm Main.recorder Main.rebalance_count
       Main.cooldown_until PositionRecorder.record_position
       PositionRecorder.records PositionRecorder.rebalances].
  split; [exact Hprice | ]. split; [exact Hpos3 | ].
  split; [exact Hvalue | ].
  split; [rewrite Hrecords3, Hrec2, Hrec1; reflexivity | ].
  destruct Hstep as [-> | (Hcount3 & Hout & value' & Hvalue' & Hreb3)].
  - left. rewrite Hcount2, Hcount1, Hrec2, Hrec1. split; reflexivity.
  - right. rewrite Hcount3, Hcount2, Hcount1.
    split; [reflexivity | ].
    split; [rewrite Hcool3; exact Hout | ].
    rewrite Hreb3, Hrec2, Hrec1.
    rewrite Hvalue in Hvalue'. injection Hvalue' as <-. reflexivity.
Qed.

(** X21: a run of the loop that returns appends one record per row with a
    close column, in row order and under the row's timestamp; the counter
    grows by the number of rebalance events appended, and every such event
    is also among the appended records. *)
Theorem iterrows_accounting (price_data rows : price_frame F)
    (st st' : Main.state F) :
  Main.iterrows config price_data rows st = (Ok tt, st') ->
  exists new_records new_rebalances,
    PositionRecorder.records (Main.recorder st')
    = PositionRecorder.records (Main.recorder st) ++ new_records
    /\ PositionRecorder.rebalances (Main.recorder st')
       = PositionRecorder.rebalances (Main.recorder st) ++ new_rebalances
    /\ map (@PositionRecorder.timestamp F) new_records
       = map fst (filter (fun tr => has_close_col (snd tr)) rows)
    /\ Main.rebalance_count st'
       = (Main.rebalance_count st + Z.of_nat (length new_rebalances))%Z
    /\ incl new_rebalances new_records.
Proof.
  revert st. induction rows as [ | [timestamp r] rest IH]; intros st Hrun.
  - cbn [Main.iterrows] in Hrun. unfold ret in Hrun. injection Hrun as <-.
    exists [], []. rewrite !app_nil_r. cbn [length Z.of_nat filter map].
    repeat split; try reflexivity; try lia. intros x [].
  - cbn [Main.iterrows] in Hrun.
    apply bindM_returns in Hrun as ([] & st1 & Hbody & Hrest).
    destruct (IH st1 Hrest)
      as (recs & rebs & Hrecs & Hrebs & Hts & Hcount & Hincl).
    cbn [filter snd]. unfold has_close_col at 1.
    destruct (filter is_close_col (map fst r)) as [ | close_col others]
      eqn:Hcols.
    + unfold Main.loop_body in Hbody. rewrite Hcols in Hbody.
      injection Hbody as <-. exists recs, rebs. repeat split; assumption.
    + destruct (loop_body_trace _ _ _ _ _ _ _ Hcols Hbody)
        as (price & value & s1 & s2 & s3 & _ & Hrec1 & Hcount1 & Hwick
            & Hbuf & Hvalue & ->).
      destruct (wick_cooldown_logic_frame _ _ _ _ _ _ _ Hwick)
        as (_ & Hrec2 & Hcount2 & _).
      destruct (buffered_rebalancing_logic_returns _ _ _ _ Hbuf)
        as (_ & Hrecords3 & _ & Hstep).
      cbn [Main.set_recorder Main.recorder Main.rebalance_count
           PositionRecorder.record_position PositionRecorder.records
           PositionRecorder.rebalances] in Hrecs, Hrebs, Hcount.
      destruct Hstep as [-> | (Hcount3 & _ & value' & Hvalue' & Hreb3)].
      * eexists (_ :: recs), rebs.
        rewrite Hrecs, Hrec2, Hrec1, <- app_assoc. cbn [app].
        split; [reflexivity | ].
        split; [rewrite Hrebs, Hrec2, Hrec1; reflexivity | ].
        split; [cbn [map fst PositionRecorder.timestamp]; rewrite Hts;
                reflexivity | ].
        split; [rewrite Hcount, Hcount2, Hcount1; reflexivity | ].
        apply incl_tl. exact Hincl.
      * rewrite Hvalue in Hvalue'. injection Hvalue' as <-.
        eexists (_ :: recs), (_ :: rebs).
        rewrite Hrecs, Hrecords3, Hrec2, Hrec1, <- app_assoc. cbn [app].
        split; [reflexivity | ].
        split; [rewrite Hrebs, Hreb3, Hrec2, Hrec1, <- app_assoc;
                reflexivity | ].
        split; [cbn [map fst PositionRecorder.timestamp]; rewrite Hts;
                reflexivity | ].
        split; [rewrite Hcount, Hcount3, Hcount2, Hcount1; cbn [length];
                lia | ].
        apply incl_cons; [left; reflexivity | apply incl_tl; exact Hincl].
Qed.
End LoopExtras.

(** At hour 12, with a cooldown that ran out at hour 10, the 20% wick
    starts a new one until hour 16. *)
Lemma wick_cooldown_never_shortened_witness :
  Main.wick_cooldown_logic (F := float) default_config wick_frame "close"
    (of_Z 120) (hour 12)
    (Main.set_cooldown_until
       (Main.initial_state default_config offline_web3_ops) (Some (hour 10)))
  = (Ok tt,
     Main.set_cooldown_until
       (Main.initial_state default_config offline_web3_ops) (Some (hour 16)))
  /\ exists until',
       Some (hour 16) = Some until'
       /\ datetime.instant (hour 10) <= datetime.instant until'.
Proof.
  assert (Hrun :
    Main.wick_cooldown_logic (F := float) default_config wick_frame "close"
      (of_Z 120) (hour 12)
      (Main.set_cooldown_until
         (Main.initial_state default_config offline_web3_ops)
         (Some (hour 10)))
    = (Ok tt,
       Main.set_cooldown_until
         (Main.initial_state default_config offline_web3_ops)
         (Some (hour 16)))) by (vm_compute; reflexivity).
  split; [exact Hrun | ].
  destruct (wick_cooldown_never_shortened (F := float) default_config
              wick_frame "close" (of_Z 120) (hour 12) _ _ _
              ltac:(vm_compute; discriminate) Hrun)
    as (_ & _ & _ & Hkept & _).
  exact (Hkept (hour 10) eq_refl).
Defined.

(** At hour 6 the frame holds no sample twelve hours old. *)
Lemma wick_needs_lookback_sample_witness :
  Main.wick_cooldown_logic (F := float) default_config wick_frame "close"
    (of_Z 120) (hour 6) (Main.initial_state default_config offline_web3_ops)
  = (Ok tt, Main.initial_state default_config offline_web3_ops).
Proof.
  apply (wick_needs_lookback_sample (F := float) default_config wick_frame
           "close" (of_Z 120) (hour 6)
           (Main.initial_state default_config offline_web3_ops)).
  intros r [<- | [<- | []]]; vm_compute; reflexivity.
Defined.

Section QuietRun.
Local Open Scope R_scope.

(** The state after the quiet row at hour 1: one record more. *)
Let quiet_state : Main.state R :=
  Main.set_recorder tracking_state
    (PositionRecorder.record_position (hour 1)
       (1536 * (sqrt 2300 - sqrt 1700)) 2320 PositionRecorder.init).

Lemma quiet_step :
  Main.loop_body default_config quiet_frame (hour 1)
    [("open"%string, 2000); ("close"%string, 2320)] tracking_state
  = (Ok tt, quiet_state).
Proof.
  unfold Main.loop_body.
  change (filter is_close_col
            (map fst [("open"%string, 2000); ("close"%string, 2320)]))
    with ["close"%string].
  cbv iota.
  change (row_get [("open"%string, 2000); ("close"%string, 2320)]
            "close"%string) with (Ok 2320).
  unfold bindM at 1, lift at 1. cbv beta iota.
  unfold bindM at 1, gets at 1. cbv beta iota.
  change (LiquidityManager.position (Main.lm (tracking_state (F := R))))
    with (Some (tracked_position (F := R))).
  cbv iota.
  unfold bindM at 1, ret at 1. cbv beta iota.
  unfold bindM at 1, Main.wick_cooldown_logic at 1. cbv beta iota zeta.
  rewrite (iloc_last_filter_none _ quiet_frame)
    by (intros r [<- | [<- | []]]; reflexivity).
  unfold ret at 1. cbv beta iota.
  unfold bindM at 1. cbv beta iota.
  rewrite no_rebalance_at_2320.
  unfold Main.on_lm, LiquidityManager.get_position_value, bindM, gets, lift,
    modify.
  cbv beta iota.
  rewrite (get_position_value_above (Main.lm tracking_state) tracked_position
             2320 eq_refl) by (cbn; lra).
  reflexivity.
Qed.
End QuietRun.

(** The quiet row at hour 1: the tracked position is kept, valued and
    recorded, and nothing is rebalanced. *)
Lemma loop_body_returns_witness :
  exists st',
    Main.loop_body (F := R) default_config quiet_frame (hour 1)
      [("open"%string, 2000%R); ("close"%string, 2320%R)] tracking_state
    = (Ok tt, st')
    /\ exists price value,
         row_get [("open"%string, 2000%R); ("close"%string, 2320%R)]
           "close"%string = Ok price
         /\ (exists pos, LiquidityManager.position (Main.lm st') = Some pos)
         /\ LiquidityManager._get_position_value (Main.lm st') price
            = Ok value
         /\ PositionRecorder.records (Main.recorder st')
            = PositionRecorder.records (Main.recorder (tracking_state (F := R)))
              ++ [{| PositionRecorder.timestamp := hour 1;
                     PositionRecorder.position_value := value;
                     PositionRecorder.price := price |}]
         /\ ((Main.rebalance_count st'
              = Main.rebalance_count (tracking_state (F := R))
              /\ PositionRecorder.rebalances (Main.recorder st')
                 = PositionRecorder.rebalances
                     (Main.recorder (tracking_state (F := R))))
             \/ (Main.rebalance_count st'
                 = Main.rebalance_count (tracking_state (F := R)) + 1
                 /\ in_cooldown (Main.cooldown_until st') (hour 1) = false
                 /\ PositionRecorder.rebalances (Main.recorder st')
                    = PositionRecorder.rebalances
                        (Main.recorder (tracking_state (F := R)))
                      ++ [{| PositionRecorder.timestamp := hour 1;
                             PositionRecorder.position_value := value;
                             PositionRecorder.price := price |}])).
Proof.
  eexists. split; [exact quiet_step | ].
  exact (loop_body_returns default_config quiet_frame (hour 1)
           [("open"%string, 2000%R); ("close"%string, 2320%R)]
           tracking_state _ quiet_step).
Defined.

(** The loop over the two rows of the quiet frame: the first is skipped,
    the second adds one record and no rebalance. *)
Lemma iterrows_accounting_witness :
  exists st' new_records new_rebalances,
    Main.iterrows (F := R) default_config quiet_frame quiet_frame
      tracking_state = (Ok tt, st')
    /\ PositionRecorder.records (Main.recorder st')
       = PositionRecorder.records (Main.recorder (tracking_state (F := R)))
         ++ new_records
    /\ PositionRecorder.rebalances (Main.recorder st')
       = PositionRecorder.rebalances (Main.recorder (tracking_state (F := R)))
         ++ new_rebalances
    /\ map (@PositionRecorder.timestamp R) new_records = [hour 1]
    /\ Main.rebalance_count st'
       = Main.rebalance_count (tracking_state (F := R))
         + Z.of_nat (length new_rebalances)
    /\ incl new_rebalances new_records.
Proof.
  assert (Hrun :
    Main.iterrows (F := R) default_config quiet_frame quiet_frame
      tracking_state
    = (Ok tt,
       Main.set_recorder tracking_state
         (PositionRecorder.record_position (hour 1)
            (1536 * (sqrt 2300 - sqrt 1700))%R 2320%R
            PositionRecorder.init))).
  { unfold quiet_frame at 2. cbn [Main.iterrows].
    unfold bindM at 1.
    change (Main.loop_body (F := R) default_config quiet_frame (hour 0)
              [("open"%string, of_Z 2000)] tracking_state)
      with (Ok tt, tracking_state (F := R)).
    cbv beta iota. unfold bindM at 1.
    change (of_Z (F := R) 2000) with 2000%R.
    change (of_Z (F := R) 2320) with 2320%R.
    rewrite quiet_step. reflexivity. }
  eexists.
  destruct (iterrows_accounting default_config quiet_frame quiet_frame
              tracking_state _ Hrun)
    as (recs & rebs & Hrecs & Hrebs & Hts & Hcount & Hincl).
  exists recs, rebs. split; [exact Hrun | ].
  split; [exact Hrecs | ]. split; [exact Hrebs | ].
  split; [exact Hts | ]. split; [exact Hcount | exact Hincl].
Defined.



(** ** data_fetcher.py *)

Section TokenExtras.
Import Ascii.
Import data_fetcher.
Local Open Scope string_scope.

Lemma str_split_no_slash (s : string) :
  no_slash s = true -> str_split "/" s = [s].
Proof.
  induction s as [ | c s IH]; [reflexivity | ].
  cbn [no_slash str_split]. intros Hs.
  apply andb_true_iff in Hs as [Hc Hs].
  apply negb_true_iff in Hc. rewrite Hc, (IH Hs). reflexivity.
Qed.

Lemma str_split_app (a b : string) :
  no_slash a = true ->
  str_split "/" (a ++ String "/" b) = a :: str_split "/" b.
Proof.
  induction a as [ | c a IH]; [reflexivity | ].
  cbn [no_slash append str_split]. intros Ha.
  apply andb_true_iff in Ha as [Hc Ha].
  apply negb_true_iff in Hc. rewrite Hc, (IH Ha). reflexivity.
Qed.

Lemma is_supported_In (token : string) :
  is_supported token = true <-> In token SUPPORTED_TOKENS.
Proof.
  unfold is_supported. rewrite existsb_exists. split.
  - intros (x & Hx & Heq). apply String.eqb_eq in Heq. subst x. exact Hx.
  - intros Hin. exists token. split; [exact Hin | apply String.eqb_refl].
Qed.

Lemma supported_token_shape (token : string) :
  In token SUPPORTED_TOKENS ->
  no_slash token = true
  /\ cleaned_token token = token
  /\ cleaned_token (String "W" token) = token.
Proof.
  intros Hin. cbn in Hin.
  repeat (destruct Hin as [<- | Hin]; [repeat split; reflexivity | ]).
  destruct Hin.
Qed.

(** X22: for a supported token and a quote whose cleaned form is not
    supported, [clean_token] finds the token on either side of the slash,
    wrapped (with a leading W) or not. *)
Theorem clean_token_either_order (token quote : string) :
  In token SUPPORTED_TOKENS ->
  no_slash quote = true ->
  is_supported (cleaned_token quote) = false ->
  clean_token (String "W" token ++ String "/" quote) = token
  /\ clean_token (quote ++ String "/" (String "W" token)) = token
  /\ clean_token (token ++ String "/" quote) = token
  /\ clean_token (quote ++ String "/" token) = token.
Proof.
  intros Hin Hquote Hunsupported.
  destruct (supported_token_shape token Hin) as (Hns & Hplain & Hwrapped).
  pose proof (proj2 (is_supported_In token) Hin) as Hsup.
  assert (HnsW : no_slash (String "W" token) = true)
    by (cbn [no_slash]; rewrite Hns; reflexivity).
  unfold clean_token.
  rewrite !str_split_app by assumption.
  rewrite !str_split_no_slash by assumption.
  cbn [map find hd]. rewrite Hplain, Hwrapped, Hsup, Hunsupported.
  repeat split; reflexivity.
Qed.




End TokenExtras.

(** The shipped pool name and its three variants. *)
Lemma clean_token_either_order_witness :
  data_fetcher.clean_token "WETH/USDC" = "ETH"%string
  /\ data_fetcher.clean_token "USDC/WETH" = "ETH"%string
  /\ data_fetcher.clean_token "ETH/USDC" = "ETH"%string
  /\ data_fetcher.clean_token "USDC/ETH" = "ETH"%string.
Proof.
  exact (clean_token_either_order "ETH" "USDC" (or_introl eq_refl) eq_refl
           eq_refl).
Defined.

